(** * Kubeflow-migrations: the notebooks' step functions and pipeline graphs

    The repository is a set of Jupyter notebooks (covid lung classification,
    insurance regression, fraud detection, fingerprint matching).  Each
    notebook defines Python step functions, wraps them as Kubeflow
    components and wires them into a pipeline.

    This development embeds the step functions the specification talks
    about: Python values become Rocq data, exceptions become an error
    result, the [random] module becomes a tape of raw generator outputs read
    at an explicit position, the file system becomes an explicit world that
    is threaded through a step, and the pipeline DSL becomes a builder
    monad that records tasks and their dependencies.  A float is the
    rational it denotes.  What a step prints is left out.  Library
    routines whose internals do not matter here (image decoding, CSV
    parsing, pickling, model fitting, augmentation) are the fields of a
    class, and a step is stated for every instance. *)

From Stdlib Require Import ZArith QArith Qround String Ascii List Lia DecimalString.
From stdpp Require Import base list strings sorting gmap.

Local Open Scope Z_scope.
Local Open Scope nat_scope.

(* ===================================================================== *)
(** ** Python: exceptions, strings, dicts, the [random] module           *)
(* ===================================================================== *)

Module Py.

(** The exceptions the modelled code can raise. *)
Inductive exn : Type :=
| KeyError (key : string)
| IndexError
| NameError (name : string)
| ValueError
| TypeError
| AttributeError (name : string)
| FileNotFoundError (path : string)
| OSError
| RuntimeError
| cv2_error.

(** A call either returns or raises. *)
Inductive res (A : Type) : Type :=
| Ok (a : A)
| Raise (e : exn).
Arguments Ok {A} a.
Arguments Raise {A} e.

(** A call that contains a [while True] loop is run with a bound on the
    number of iterations of that loop; [OutOfFuel] says that the bound was
    reached with the loop still running. *)
Inductive outcome (A : Type) : Type :=
| Done (a : A)
| Fault (e : exn)
| OutOfFuel.
Arguments Done {A} a.
Arguments Fault {A} e.
Arguments OutOfFuel {A}.

(** [seq[a:b]] for [0 <= a <= b]: slices clamp, they never raise. *)
Definition slice {A : Type} (a b : nat) (l : list A) : list A :=
  take (b - a) (drop a l).

(** [str(z)] for an integer. *)
Definition str (z : Z) : string := NilZero.string_of_int (Z.to_int z).

(** [''.join(parts)]. *)
Definition join (parts : list string) : string :=
  fold_right String.append EmptyString parts.

(** [s.zfill(width)]: pad with zeros on the left, after a leading sign. *)
Definition zfill (width : nat) (s : string) : string :=
  let pad := string_of_list_ascii (repeat "0"%char (width - String.length s)) in
  match s with
  | String c rest =>
      if (Ascii.eqb c "-" || Ascii.eqb c "+")%bool
      then String c (pad +:+ rest)
      else pad +:+ s
  | EmptyString => pad
  end.

(** *** dict

    A dict keeps its keys in insertion order; [d[k] = v] on a key that is
    present overwrites the value in place and leaves the position alone.
    [list(d.items())] is the association list itself. *)
Definition dict (V : Type) : Type := list (string * V).

Fixpoint setitem {V : Type} (k : string) (v : V) (d : dict V) : dict V :=
  match d with
  | [] => [(k, v)]
  | (k', v') :: d' =>
      if String.eqb k' k then (k', v) :: d' else (k', v') :: setitem k v d'
  end.

Fixpoint getitem {V : Type} (k : string) (d : dict V) : option V :=
  match d with
  | [] => None
  | (k', v') :: d' => if String.eqb k' k then Some v' else getitem k d'
  end.

Definition items {V : Type} (d : dict V) : list (string * V) := d.

Definition keys {V : Type} (d : dict V) : list string := map fst d.

(** *** random

    The generator is a tape of raw outputs; a call reads the cell at the
    current position and moves one cell on.  [random()] scales the cell
    into [[0, 1)] with 53 bits, [_randbelow(n)] reduces it below [n]. *)
Definition tape : Type := nat -> N.

Definition random (t : tape) (pos : nat) : Q * nat :=
  (Qmake (Z.of_N (t pos mod 2 ^ 53)%N) (2 ^ 53)%positive, S pos).

Definition randbelow (t : tape) (n : nat) (pos : nat) : nat * nat :=
  (N.to_nat (t pos mod N.of_nat n)%N, S pos).

(** [random.choice(seq)]: [IndexError] on an empty sequence. *)
Definition choice {A : Type} (t : tape) (seq : list A) (pos : nat)
  : res A * nat :=
  match seq with
  | [] => (Raise IndexError, pos)
  | _ :: _ =>
      let '(i, pos') := randbelow t (length seq) pos in
      match seq !! i with
      | Some a => (Ok a, pos')
      | None => (Raise IndexError, pos')
      end
  end.

(** [random.randint(a, b)] is [randrange(a, b + 1)]: both ends included. *)
Definition randint (t : tape) (a b : nat) (pos : nat) : res nat * nat :=
  if b <? a then (Raise ValueError, pos)
  else let '(r, pos') := randbelow t (b + 1 - a) pos in (Ok (a + r), pos').

End Py.

Import Py.

(* ===================================================================== *)
(** ** numpy arrays and the file system a step runs in                   *)
(* ===================================================================== *)

Module Numpy.

(** An array element: a number, a missing value, a string, or a nested
    array.  A float holds the rational it denotes; rounding is not
    modelled.  An array of rank at least one is the list of its rows along
    axis 0. *)
#[warnings="-register-all"]
Inductive nd : Type :=
| Num (q : Q)
| NaN
| Str (s : string)
| Arr (l : list nd).

Definition ndarray : Type := list nd.

Fixpoint nd_eq_dec (a b : nd) {struct a} : {a = b} + {a <> b}.
Proof.
  decide equality.
  - decide equality; [apply Pos.eq_dec | apply Z.eq_dec].
  - apply String.string_dec.
  - apply (List.list_eq_dec nd_eq_dec).
Defined.

#[global] Instance nd_eqdec : EqDecision nd := nd_eq_dec.

(** [a / d], element by element. *)
Fixpoint divide (d : Q) (a : nd) : nd :=
  match a with
  | Num q => Num (q / d)
  | Arr l => Arr (map (divide d) l)
  | other => other
  end.

End Numpy.

Import Numpy.

Module Os.

(** What a path can hold. *)
Inductive file : Type :=
| Directory
| Blob (content : string)
| Npy (a : ndarray)
| Npz (arrays : list (string * ndarray)).

(** The file system: the paths that exist, as written in the code. *)
Abbreviation world := (gmap string file).

(** [if not os.path.exists(d): os.makedirs(d)]. *)
Definition ensure_dir (d : string) (w : world) : world :=
  match w !! d with
  | Some _ => w
  | None => <[d := Directory]> w
  end.

(** [np.load(path)[key]] on an [.npz] archive. *)
Definition np_load_key (w : world) (path key : string) : res ndarray :=
  match w !! path with
  | None => Raise (FileNotFoundError path)
  | Some (Npz arrays) =>
      match Py.getitem key arrays with
      | Some a => Ok a
      | None => Raise (KeyError key)
      end
  | Some (Npy _) => Raise IndexError
  | Some _ => Raise OSError
  end.

(** [np.load(path)] on an [.npy] file. *)
Definition np_load (w : world) (path : string) : res ndarray :=
  match w !! path with
  | None => Raise (FileNotFoundError path)
  | Some (Npy a) => Ok a
  | Some _ => Raise OSError
  end.

(** [np.savez(path, a0, a1)]: positional arrays are stored as [arr_0],
    [arr_1]. *)
Definition np_savez2 (path : string) (a0 a1 : ndarray) (w : world) : world :=
  <[path := Npz [("arr_0"%string, a0); ("arr_1"%string, a1)]]> w.

(** [a = np.load(path); a[a.files[i]]]: the array stored at position [i]
    of an [.npz] archive.  An [.npy] file loads as an array, which has no
    [files]. *)
Definition np_load_file (w : world) (path : string) (i : nat) : res ndarray :=
  match w !! path with
  | None => Raise (FileNotFoundError path)
  | Some (Npz arrays) =>
      match arrays !! i with
      | Some (_, a) => Ok a
      | None => Raise IndexError
      end
  | Some (Npy _) => Raise (AttributeError "files")
  | Some _ => Raise OSError
  end.

End Os.

Import Os.

(* ===================================================================== *)
(** ** scikit-learn and Keras helpers the steps call                     *)
(* ===================================================================== *)

Module Sklearn.

(** [_validate_shuffle_split] for a float [test_size] and no [train_size]:
    the test fold has [ceil(test_size * n_samples)] rows, the train fold
    the rest; an empty train fold is refused. *)
Definition validate_shuffle_split (n_samples : nat) (test_size : Q)
  : res (nat * nat) :=
  if Qlt_le_dec 0 test_size then
    if Qlt_le_dec test_size 1 then
      let n_test :=
        Z.to_nat (Qceiling (test_size * inject_Z (Z.of_nat n_samples))) in
      let n_train := n_samples - n_test in
      if n_train =? 0 then Raise ValueError else Ok (n_train, n_test)
    else Raise ValueError
  else Raise ValueError.

(** [np.unique(y)] as a set of classes, and the size of each class. *)
Definition classes {C : Type} `{EqDecision C} (y : list C) : list C :=
  remove_dups y.

Definition class_counts {C : Type} `{EqDecision C} (y : list C) : list nat :=
  map (fun c => length (filter (fun v => v = c) y)) (classes y).

(** The checks of [StratifiedShuffleSplit]: every class has two members
    or more, and each fold is at least as large as the number of classes. *)
Definition stratified_checks {C : Type} `{EqDecision C}
    (y : list C) (n_train n_test : nat) : res unit :=
  if existsb (fun c => c <? 2) (class_counts y) then Raise ValueError
  else if n_train <? length (classes y) then Raise ValueError
  else if n_test <? length (classes y) then Raise ValueError
  else Ok tt.

(** [_safe_indexing(a, indices)]: the rows of [a] at [indices], in that
    order. *)
Definition safe_indexing {A : Type} (a : list A) (indices : list nat)
  : res (list A) :=
  match mapM (fun i => a !! i) indices with
  | Some rows => Ok rows
  | None => Raise IndexError
  end.

(** [train_test_split(X, y, test_size=..., stratify=...)].

    [arrangement] is the order of the row indices that the random state
    produces.  Without [stratify] it is [rng.permutation(n_samples)], of
    which [ShuffleSplit] takes the first [n_test] indices as the test fold
    and the next [n_train] as the train fold.  With [stratify] the folds are
    drawn class by class; they are again the leading segments of an
    arrangement of the row indices, so the same reading is used.  Both
    arrays are indexed with the same folds. *)
Definition train_test_split {A B C : Type} `{EqDecision C}
    (X : list A) (y : list B) (test_size : Q) (stratify : option (list C))
    (arrangement : list nat)
  : res (list A * list A * list B * list B) :=
  if negb (length X =? length y) then Raise ValueError else
  match validate_shuffle_split (length X) test_size with
  | Raise e => Raise e
  | Ok (n_train, n_test) =>
      let checks :=
        match stratify with
        | None => Ok tt
        | Some s =>
            if negb (length s =? length X) then Raise ValueError
            else stratified_checks s n_train n_test
        end in
      match checks with
      | Raise e => Raise e
      | Ok _ =>
          let test := slice 0 n_test arrangement in
          let train := slice n_test (n_test + n_train) arrangement in
          match safe_indexing X train, safe_indexing X test,
                safe_indexing y train, safe_indexing y test with
          | Ok X_train, Ok X_test, Ok y_train, Ok y_test =>
              Ok (X_train, X_test, y_train, y_test)
          | _, _, _, _ => Raise IndexError
          end
      end
  end.

(** Strings in code-point order, as [np.unique] sorts them. *)
Definition str_le (a b : string) : Prop := String.leb a b = true.

#[global] Instance str_le_dec : RelDecision str_le.
Proof. intros a b. unfold str_le. apply _. Defined.

(** [LabelBinarizer().fit_transform(labels)] on string labels: no sample
    is refused; one class gives a column of zeros, two classes a column
    that marks the second class in sorted order, more classes one column
    per class. *)
Definition LabelBinarizer_fit_transform (labels : list string)
  : res (list (list Z)) :=
  match labels with
  | [] => Raise ValueError
  | _ :: _ =>
      match merge_sort str_le (remove_dups labels) with
      | [_] => Ok (map (fun _ => [0%Z]) labels)
      | [_; pos_label] =>
          Ok (map (fun l => [if decide (l = pos_label) then 1%Z else 0%Z])
                labels)
      | classes_ =>
          Ok (map (fun l =>
                     map (fun c => if decide (l = c) then 1%Z else 0%Z)
                       classes_)
                labels)
      end
  end.

End Sklearn.

Module Keras.

(** One row of [to_categorical]: a one at position [v] among
    [num_classes] entries. *)
Definition one_hot (num_classes : nat) (v : Z) : nd :=
  Arr (map (fun c => Num (if (Z.of_nat c =? v)%Z then 1 else 0))
         (seq 0 num_classes)).

(** [to_categorical(y)] for class ids that are not negative:
    [num_classes] is [max(y) + 1]; a trailing axis of length one is
    dropped, so a column gives a matrix with one row per sample. *)
Definition to_categorical (y : list (list Z)) : res ndarray :=
  match concat y with
  | [] => Raise ValueError
  | v :: vs =>
      let num_classes := Z.to_nat (fold_right Z.max v vs + 1) in
      if forallb (fun row => length row =? 1) y
      then Ok (map (fun row => one_hot num_classes (hd 0%Z row)) y)
      else Ok (map (fun row => Arr (map (one_hot num_classes) row)) y)
  end.

End Keras.

(* ===================================================================== *)
(** ** pandas data frames                                                *)
(* ===================================================================== *)

Module Pandas.

(** A data frame: the column names and the rows of cells. *)
Record DataFrame : Type := {
  columns : list string;
  rows : list (list nd)
}.

(** The library routines a step calls on a frame.  Each is a function of
    its arguments: it reads no clock, no random state and no other file. *)
Class Library : Type := {
  (** the parser behind [pd.read_csv(path, na_values=...)] *)
  parse_csv : string -> list string -> res DataFrame;
  (** the bytes [df.to_pickle(path)] writes *)
  pickle_dumps : DataFrame -> string;
  (** the frame [pd.read_pickle(path)] reads back *)
  pickle_loads : string -> res DataFrame;
  (** [LabelEncoder().fit_transform(values)] *)
  LabelEncoder_fit_transform : list nd -> res (list nd);
  (** [MLPClassifier().fit(X, y)] under a random state, pickled *)
  MLPClassifier_fit_dumps : N -> list (list nd) -> list nd -> string
}.

Section Frames.
Context `{Library}.

Definition read_csv (w : world) (path : string) (na_values : list string)
  : res DataFrame :=
  match w !! path with
  | None => Raise (FileNotFoundError path)
  | Some (Blob content) => parse_csv content na_values
  | Some _ => Raise OSError
  end.

Definition to_pickle (df : DataFrame) (path : string) (w : world) : world :=
  <[path := Blob (pickle_dumps df)]> w.

Definition read_pickle (w : world) (path : string) : res DataFrame :=
  match w !! path with
  | None => Raise (FileNotFoundError path)
  | Some (Blob content) => pickle_loads content
  | Some _ => Raise OSError
  end.

(** The position of a column name. *)
Fixpoint column_index (name : string) (cols : list string) : option nat :=
  match cols with
  | [] => None
  | c :: cols' =>
      if String.eqb c name then Some 0
      else option_map S (column_index name cols')
  end.

(** [df[name].values]: [KeyError] when there is no such column. *)
Definition column (name : string) (df : DataFrame) : res (list nd) :=
  match column_index name (columns df) with
  | None => Raise (KeyError name)
  | Some i => Ok (map (fun r => default NaN (r !! i)) (rows df))
  end.

(** [df[name] = values]: replaces the cells of an existing column, adds a
    column at the end otherwise; [ValueError] when the lengths differ. *)
Definition set_column (name : string) (values : list nd) (df : DataFrame)
  : res DataFrame :=
  if negb (length values =? length (rows df)) then Raise ValueError else
  match column_index name (columns df) with
  | Some i =>
      Ok {| columns := columns df;
            rows := zip_with (fun r v => <[i := v]> r) (rows df) values |}
  | None =>
      Ok {| columns := columns df ++ [name];
            rows := zip_with (fun r v => r ++ [v]) (rows df) values |}
  end.

(** [df.drop(name, axis=1)]. *)
Definition drop_column (name : string) (df : DataFrame) : res DataFrame :=
  match column_index name (columns df) with
  | None => Raise (KeyError name)
  | Some i =>
      Ok {| columns := delete i (columns df);
            rows := map (delete i) (rows df) |}
  end.

(** [df.insert(loc, name, values)] with a column of the frame as
    [values]: a new column at position [loc]; a name that is taken is
    refused. *)
Definition insert_column (loc : nat) (name : string) (values : list nd)
    (df : DataFrame) : res DataFrame :=
  if existsb (String.eqb name) (columns df) then Raise ValueError
  else if negb (length values =? length (rows df)) then Raise ValueError
  else if length (columns df) <? loc then Raise IndexError
  else
    Ok {| columns := take loc (columns df) ++ name :: drop loc (columns df);
          rows := zip_with (fun r v => take loc r ++ v :: drop loc r)
                    (rows df) values |}.

End Frames.

(** A frame is rectangular when every row has one cell per column. *)
Definition rectangular (df : DataFrame) : Prop :=
  Forall (fun r => length r = length (columns df)) (rows df).

End Pandas.

(* ===================================================================== *)
(** ** The pipeline DSL                                                  *)
(* ===================================================================== *)

Module Kfp.

(** A component: its name and the outputs it declares.  For a function
    component these come from the function's [OutputPath] parameters, for
    a component loaded from a URL from the fetched descriptor. *)
Record component : Type := {
  comp_name : string;
  comp_outputs : list string
}.

(** An argument of a task: a pipeline parameter ([op_name] is [None]) or
    the output of the task created as number [op_name]. *)
Record PipelineParam : Type := {
  name : string;
  op_name : option nat
}.

(** A task.  Tasks are identified by the order in which the pipeline
    function creates them. *)
Record ContainerOp : Type := {
  op_component : component;
  inputs : list PipelineParam;
  dependent_names : list nat;
  gpu_limit : option nat
}.

(** The pipeline function runs in a context that collects the tasks. *)
Definition Pipeline (A : Type) : Type :=
  list ContainerOp -> res A * list ContainerOp.

Definition ret {A : Type} (a : A) : Pipeline A := fun ops => (Ok a, ops).

Definition bind {A B : Type} (m : Pipeline A) (k : A -> Pipeline B)
  : Pipeline B :=
  fun ops =>
    match m ops with
    | (Ok a, ops') => k a ops'
    | (Raise e, ops') => (Raise e, ops')
    end.

Declare Scope pipeline_scope.
Notation "'let*' x ':=' m 'in' k" := (bind m (fun x => k))
  (at level 10, x name, m at level 100, k at level 200) : pipeline_scope.

(** A pipeline parameter used as an argument. *)
Definition param (n : string) : PipelineParam :=
  {| name := n; op_name := None |}.

(** [comp(args...)]: creates the task and registers it. *)
Definition call (c : component) (args : list PipelineParam) : Pipeline nat :=
  fun ops =>
    (Ok (length ops),
     ops ++ [{| op_component := c; inputs := args;
                dependent_names := []; gpu_limit := None |}]).

(** [task.outputs[key]]. *)
Definition outputs (task : nat) (key : string) : Pipeline PipelineParam :=
  fun ops =>
    match ops !! task with
    | None => (Raise RuntimeError, ops)
    | Some op =>
        if existsb (String.eqb key) (comp_outputs (op_component op))
        then (Ok {| name := key; op_name := Some task |}, ops)
        else (Raise (KeyError key), ops)
    end.

(** [task.output]: the output of a task that declares exactly one. *)
Definition output (task : nat) : Pipeline PipelineParam :=
  fun ops =>
    match ops !! task with
    | None => (Raise RuntimeError, ops)
    | Some op =>
        match comp_outputs (op_component op) with
        | [key] => (Ok {| name := key; op_name := Some task |}, ops)
        | _ => (Raise RuntimeError, ops)
        end
    end.

(** [task.set_gpu_limit(n)]. *)
Definition set_gpu_limit (task n : nat) : Pipeline unit :=
  fun ops =>
    (Ok tt,
     alter (fun op => {| op_component := op_component op; inputs := inputs op;
                         dependent_names := dependent_names op;
                         gpu_limit := Some n |}) task ops).

(** [task.after(other)]. *)
Definition after (task other : nat) : Pipeline unit :=
  fun ops =>
    (Ok tt,
     alter (fun op => {| op_component := op_component op; inputs := inputs op;
                         dependent_names := dependent_names op ++ [other];
                         gpu_limit := gpu_limit op |}) task ops).

(** The tasks a pipeline function creates. *)
Definition build {A : Type} (pipeline_func : Pipeline A)
  : res (list ContainerOp) :=
  match pipeline_func [] with
  | (Ok _, ops) => Ok ops
  | (Raise e, _) => Raise e
  end.

(** The ordering edges [(upstream, downstream)] of the task graph: those
    that come from an argument that is another task's output, and those
    that come from [after]. *)
Definition producers (op : ContainerOp) : list nat :=
  omap op_name (inputs op).

Definition data_edges (ops : list ContainerOp) : list (nat * nat) :=
  concat (imap (fun i op => map (fun p => (p, i)) (producers op)) ops).

Definition after_edges (ops : list ContainerOp) : list (nat * nat) :=
  concat (imap (fun i op => map (fun p => (p, i)) (dependent_names op)) ops).

Definition edges (ops : list ContainerOp) : list (nat * nat) :=
  data_edges ops ++ after_edges ops.

(** The pipeline parameters that are passed to some task. *)
Definition parameters_read (ops : list ContainerOp) : list string :=
  remove_dups
    (concat (map (fun op =>
                    omap (fun p => match op_name p with
                                   | None => Some (name p)
                                   | Some _ => None
                                   end) (inputs op)) ops)).

End Kfp.

(* ===================================================================== *)
(** ** The covid notebook                                                *)
(* ===================================================================== *)

Module Covid.

(** The image libraries [preprocess_data] calls. *)
Class ImageLibs : Type := {
  (** [imutils.paths.list_images(data_dir)]: the image files below a
      directory, in the order they are yielded *)
  list_images : world -> string -> list string;
  (** the decoder of [cv2.imread], [None] where [imread] returns [None] *)
  imdecode : string -> option nd;
  (** [cv2.cvtColor(image, cv2.COLOR_BGR2RGB)] *)
  cvtColor_BGR2RGB : nd -> nd;
  (** [cv2.resize(image, (224, 224))] *)
  resize_224 : nd -> nd
}.

(** [s.split(sep)]. *)
Fixpoint split (sep : ascii) (s : string) : list string :=
  match s with
  | EmptyString => [EmptyString]
  | String c s' =>
      if Ascii.eqb c sep then EmptyString :: split sep s'
      else match split sep s' with
           | [] => [String c EmptyString]
           | part :: parts => String c part :: parts
           end
  end.

(** [imagePath.split(os.path.sep)[-2]]. *)
Definition parent_label (imagePath : string) : res string :=
  match rev (split "/" imagePath) with
  | _ :: label :: _ => Ok label
  | _ => Raise IndexError
  end.

(** The guard of the loop: [label == "covid" or label == "normal"]. *)
Definition retained (label : string) : bool :=
  (String.eqb label "covid" || String.eqb label "normal")%bool.

(** A listed file qualifies when the name of its parent directory is
    [covid] or [normal]. *)
Definition qualifies (imagePath : string) : bool :=
  match parent_label imagePath with
  | Ok label => retained label
  | Raise _ => false
  end.

(** The name of the directory a listed file lies in. *)
Definition label_of (imagePath : string) : string :=
  match parent_label imagePath with
  | Ok label => label
  | Raise _ => EmptyString
  end.

Section Steps.
Context `{ImageLibs}.

Definition imread (w : world) (path : string) : option nd :=
  match w !! path with
  | Some (Blob content) => imdecode content
  | _ => None
  end.

(** The loop over the image paths; [cvtColor] raises on the [None] of an
    unreadable file. *)
Fixpoint load_images (w : world) (imagePaths : list string)
    (data : list nd) (labels : list string)
  : res (list nd * list string) :=
  match imagePaths with
  | [] => Ok (data, labels)
  | imagePath :: rest =>
      match parent_label imagePath with
      | Raise e => Raise e
      | Ok label =>
          if retained label then
            match imread w imagePath with
            | None => Raise cv2_error
            | Some image =>
                let image := cvtColor_BGR2RGB image in
                let image := resize_224 image in
                load_images w rest (data ++ [image]) (labels ++ [label])
            end
          else load_images w rest data labels
      end
  end.

Definition preprocess_data (data_dir prep_dir : string) (w : world)
  : res unit * world :=
  let imagePaths := list_images w data_dir in
  match load_images w imagePaths [] [] with
  | Raise e => (Raise e, w)
  | Ok (data, labels) =>
      let data := map (divide 255) data in
      match Sklearn.LabelBinarizer_fit_transform labels with
      | Raise e => (Raise e, w)
      | Ok labels =>
          match Keras.to_categorical labels with
          | Raise e => (Raise e, w)
          | Ok labels =>
              let w := ensure_dir prep_dir w in
              (Ok tt,
               <["/" +:+ prep_dir +:+ "/data.npz" :=
                   Npz [("data"%string, data); ("labels"%string, labels)]]> w)
          end
      end
  end.

(** An input directory is valid when every listed path lies in a
    directory, every qualifying file is an image the decoder reads, and at
    least one file qualifies. *)
Definition valid_input (w : world) (data_dir : string) : Prop :=
  let imagePaths := list_images w data_dir in
  Forall (fun p => exists label, parent_label p = Ok label) imagePaths /\
  Forall (fun p => qualifies p = true -> is_Some (imread w p)) imagePaths /\
  Exists (fun p => qualifies p = true) imagePaths.

End Steps.

(** [train_test_split(data, labels, test_size=0.40, stratify=labels,
    random_state=42)]; [arrangement] is the order the seeded random state
    gives the rows. *)
Definition traintestsplit_data (prep_dir file_name traintest_dir : string)
    (arrangement : list nat) (w : world) : res unit * world :=
  match np_load_key w ("/" +:+ prep_dir +:+ "/data.npz") "data" with
  | Raise e => (Raise e, w)
  | Ok data =>
      match np_load_key w ("/" +:+ prep_dir +:+ "/data.npz") "labels" with
      | Raise e => (Raise e, w)
      | Ok labels =>
          match Sklearn.train_test_split data labels (40 # 100)
                  (Some labels) arrangement with
          | Raise e => (Raise e, w)
          | Ok (trainX, testX, trainY, testY) =>
              let w := ensure_dir traintest_dir w in
              let w :=
                np_savez2 ("/" +:+ traintest_dir +:+ "/train_data.npz")
                  trainX trainY w in
              let w :=
                np_savez2 ("/" +:+ traintest_dir +:+ "/val_data.npz")
                  testX testY w in
              (Ok tt, w)
          end
      end
  end.

(** *** evaluate_model and plot_confusion_matrix *)

(** The Keras model of the two steps. *)
Class Tensorflow (model : Type) : Type := {
  (** [tf.keras.models.load_model(model_dir)] *)
  load_model : world -> string -> res model;
  (** [model.predict(x, batch_size=n)] *)
  predict : model -> ndarray -> nat -> res ndarray
}.

(** The serialisers of the metadata file. *)
Class Serialisers : Type := {
  (** [pd.DataFrame(data, columns=...).to_csv(columns=..., header=False,
      index=False)] *)
  to_csv : list (string * string * nat) -> string;
  (** [json.dumps] of the metadata with that source and these labels *)
  json_dumps : string -> list string -> string
}.

(** The order [np.argmax] looks for the largest value in: a missing value
    is above every number. *)
Definition cell_gt (a b : nd) : bool :=
  match a, b with
  | Num p, Num q => negb (Qle_bool p q)
  | NaN, Num _ => true
  | _, _ => false
  end.

(** The first position of the largest cell, from position [i] on. *)
Fixpoint argmax_from (best : nd) (best_i i : nat) (cells : list nd) : nat :=
  match cells with
  | [] => best_i
  | c :: cells' =>
      if cell_gt c best then argmax_from c i (S i) cells'
      else argmax_from best best_i (S i) cells'
  end.

Definition is_number (c : nd) : bool :=
  match c with
  | Num _ | NaN => true
  | _ => false
  end.

(** [np.argmax] along axis 1, on one row: a row without cells has no
    largest cell, and a cell of a one-dimensional array is no row. *)
Definition argmax_row (row : nd) : res nat :=
  match row with
  | Arr (c :: cells) =>
      if forallb is_number (c :: cells) then Ok (argmax_from c 0 1 cells)
      else Raise TypeError
  | _ => Raise ValueError
  end.

(** [np.argmax(a, axis=1)]. *)
Fixpoint argmax_axis1 (a : ndarray) : res (list nat) :=
  match a with
  | [] => Ok []
  | row :: a' =>
      match argmax_row row with
      | Raise e => Raise e
      | Ok i =>
          match argmax_axis1 a' with
          | Raise e => Raise e
          | Ok l => Ok (i :: l)
          end
      end
  end.

(** The number of samples of true class [t] that are predicted as [p]. *)
Definition count_pairs (t p : nat) (y_true y_pred : list nat) : nat :=
  length (List.filter (fun '(a, b) => (a =? t) && (b =? p))
            (zip y_true y_pred)).

(** [sklearn.metrics.confusion_matrix(y_true, y_pred)] without [labels]:
    one row and one column per class that occurs in either argument, in
    increasing order. *)
Definition confusion_matrix (y_true y_pred : list nat)
  : res (list (list nat)) :=
  if negb (length y_true =? length y_pred) then Raise ValueError else
  let present := merge_sort le (remove_dups (y_true ++ y_pred)) in
  Ok (map (fun t => map (fun p => count_pairs t p y_true y_pred) present)
        present).

(** The inner loop: [for predicted_index, count in enumerate(target_row)]. *)
Fixpoint row_entries (labels : list string) (target_index predicted_index : nat)
    (target_row : list nat) (data : list (string * string * nat))
  : res (list (string * string * nat)) :=
  match target_row with
  | [] => Ok data
  | count :: rest =>
      match labels !! target_index with
      | None => Raise IndexError
      | Some target =>
          match labels !! predicted_index with
          | None => Raise IndexError
          | Some predicted =>
              row_entries labels target_index (S predicted_index) rest
                (data ++ [(target, predicted, count)])
          end
      end
  end.

(** The outer loop:
    [for target_index, target_row in enumerate(confusion_matrix)]. *)
Fixpoint matrix_entries (labels : list string) (target_index : nat)
    (matrix : list (list nat)) (data : list (string * string * nat))
  : res (list (string * string * nat)) :=
  match matrix with
  | [] => Ok data
  | target_row :: rest =>
      match row_entries labels target_index 0 target_row data with
      | Raise e => Raise e
      | Ok data => matrix_entries labels (S target_index) rest data
      end
  end.

Section Evaluation.
Context {model : Type} `{Tensorflow model} `{Serialisers}.

(** The step returns the class indices [predIdxs] it prints. *)
Definition evaluate_model (traintest_dir model_dir : string) (w : world)
  : res (list nat) :=
  match np_load_file w (traintest_dir +:+ "/val_data.npz") 0 with
  | Raise e => Raise e
  | Ok testX =>
      match np_load_file w (traintest_dir +:+ "/val_data.npz") 1 with
      | Raise e => Raise e
      | Ok testY =>
          match load_model w model_dir with
          | Raise e => Raise e
          | Ok model =>
              match predict model testX 10 with
              | Raise e => Raise e
              | Ok predIdxs => argmax_axis1 predIdxs
              end
          end
      end
  end.

(** [model.predict(testX)] uses the default batch size, 32. *)
Definition plot_confusion_matrix (traintest_dir model_dir : string)
    (labels : list string) (mlpipeline_ui_metadata_path : string) (w : world)
  : res unit * world :=
  match np_load_file w (traintest_dir +:+ "/val_data.npz") 0 with
  | Raise e => (Raise e, w)
  | Ok testX =>
  match np_load_file w (traintest_dir +:+ "/val_data.npz") 1 with
  | Raise e => (Raise e, w)
  | Ok testY =>
  match load_model w model_dir with
  | Raise e => (Raise e, w)
  | Ok model =>
  match argmax_axis1 testY with
  | Raise e => (Raise e, w)
  | Ok y_true =>
  match predict model testX 32 with
  | Raise e => (Raise e, w)
  | Ok scores =>
  match argmax_axis1 scores with
  | Raise e => (Raise e, w)
  | Ok y_pred =>
  match confusion_matrix y_true y_pred with
  | Raise e => (Raise e, w)
  | Ok matrix =>
  match matrix_entries labels 0 matrix [] with
  | Raise e => (Raise e, w)
  | Ok data =>
      match w !! mlpipeline_ui_metadata_path with
      | Some Directory => (Raise OSError, w)
      | _ =>
          (Ok tt,
           <[mlpipeline_ui_metadata_path :=
               Blob (json_dumps (to_csv data) labels)]> w)
      end
  end end end end end end end end.

End Evaluation.

(** The function components of the notebook with the outputs their
    signatures declare. *)
Definition preprocess_data_comp : Kfp.component :=
  {| Kfp.comp_name := "preprocess_data";
     Kfp.comp_outputs := ["prep_dir"]%string |}.
Definition traintestsplit_data_comp : Kfp.component :=
  {| Kfp.comp_name := "traintestsplit_data";
     Kfp.comp_outputs := ["traintest_dir"]%string |}.
Definition train_model_comp : Kfp.component :=
  {| Kfp.comp_name := "train_model";
     Kfp.comp_outputs := ["model_dir"]%string |}.
Definition evaluate_model_comp : Kfp.component :=
  {| Kfp.comp_name := "evaluate_model"; Kfp.comp_outputs := [] |}.
Definition plot_confusion_matrix_comp : Kfp.component :=
  {| Kfp.comp_name := "plot_confusion_matrix";
     Kfp.comp_outputs := ["mlpipeline_ui_metadata"]%string |}.

Section PipelineDefinition.
Import Kfp.
Local Open Scope pipeline_scope.

(** The four components loaded from a URL; their descriptors are not part
    of the repository. *)
Variables download_and_extract_comp convert_model_to_onnx_comp
          upload_model_comp deploy_model_with_kserve_comp : component.

Definition covid19_lung_classification_pipeline : Pipeline unit :=
  let* download_and_extract_task :=
    call download_and_extract_comp
      [param "dataset_url"; param "dataset_file_name"] in
  let* data_path := outputs download_and_extract_task "data_path" in
  let* preprocess_data_task := call preprocess_data_comp [data_path] in
  let* prep_dir := outputs preprocess_data_task "prep_dir" in
  let* traintestsplit_data_task :=
    call traintestsplit_data_comp [prep_dir; param "dataset_file_name"] in
  let* traintest := output traintestsplit_data_task in
  let* train_model_task := call train_model_comp [traintest] in
  let* _ := set_gpu_limit train_model_task 1 in
  let* traintest := output traintestsplit_data_task in
  let* model := output train_model_task in
  let* evaluate_model_task := call evaluate_model_comp [traintest; model] in
  let* traintest := output traintestsplit_data_task in
  let* model := output train_model_task in
  let* plot_confusion_matrix_task :=
    call plot_confusion_matrix_comp [traintest; model; param "labels"] in
  let* model := output train_model_task in
  let* convert_model_to_onnx_task :=
    call convert_model_to_onnx_comp [model] in
  let* onnx := output convert_model_to_onnx_task in
  let* upload_model_task :=
    call upload_model_comp
      [onnx; param "minio_url"; param "minio_user"; param "minio_pass";
       param "model_name"] in
  let* deploy_model_with_kserve_task :=
    call deploy_model_with_kserve_comp [param "model_name"] in
  after deploy_model_with_kserve_task upload_model_task.

(** The parameters the pipeline function declares. *)
Definition pipeline_parameters : list string :=
  ["labels"; "dataset_url"; "dataset_file_name"; "data_dir"; "prep_dir";
   "traintest_dir"; "model_dir"; "model_name"; "minio_url"; "minio_user";
   "minio_pass"]%string.

End PipelineDefinition.

End Covid.

(* ===================================================================== *)
(** ** The insurance notebook                                            *)
(* ===================================================================== *)

Module Insurance.

Import Pandas.

Section Steps.
Context `{Library}.

Definition catFeats : list string := ["sex"; "smoker"; "region"]%string.

(** [for cf in catFeats: print(insurancedf[cf].value_counts())]: only the
    column lookups can raise. *)
Fixpoint print_value_counts (cfs : list string) (df : DataFrame) : res unit :=
  match cfs with
  | [] => Ok tt
  | cf :: cfs' =>
      match column cf df with
      | Raise e => Raise e
      | Ok _ => print_value_counts cfs' df
      end
  end.

(** [for cf in catFeats:
       insurancedf[cf] = LabelEncoder().fit_transform(insurancedf[cf].values)] *)
Fixpoint encode_columns (cfs : list string) (df : DataFrame) : res DataFrame :=
  match cfs with
  | [] => Ok df
  | cf :: cfs' =>
      match column cf df with
      | Raise e => Raise e
      | Ok values =>
          match LabelEncoder_fit_transform values with
          | Raise e => Raise e
          | Ok codes =>
              match set_column cf codes df with
              | Raise e => Raise e
              | Ok df' => encode_columns cfs' df'
              end
          end
      end
  end.

Definition preprocess_data (data_dir prep_data_dir : string) (w : world)
  : res unit * world :=
  let data := data_dir +:+ "/insurance.csv" in
  match read_csv w data [" "; "null"]%string with
  | Raise e => (Raise e, w)
  | Ok insurancedf =>
      match print_value_counts catFeats insurancedf with
      | Raise e => (Raise e, w)
      | Ok _ =>
          match encode_columns catFeats insurancedf with
          | Raise e => (Raise e, w)
          | Ok insurancedf =>
              let w := ensure_dir prep_data_dir w in
              (Ok tt,
               to_pickle insurancedf (prep_data_dir +:+ "/insurancedf.pkl") w)
          end
      end
  end.

End Steps.

(** The cell of the exploratory notebook that puts [charges] behind
    the columns [get_dummies] added:
    [ch = insurancedfOH["charges"]], then [drop(labels=['charges'], axis=1,
    inplace=True)], then [insert(len(insurancedfOH.columns), 'charges', ch)]. *)
Definition move_charges_last (insurancedfOH : DataFrame) : res DataFrame :=
  match column "charges" insurancedfOH with
  | Raise e => Raise e
  | Ok ch =>
      match drop_column "charges" insurancedfOH with
      | Raise e => Raise e
      | Ok insurancedfOH =>
          insert_column (length (columns insurancedfOH)) "charges" ch
            insurancedfOH
      end
  end.

(** The regression library [train_model] and [evaluate_model] call. *)
Class Regression : Type := {
  (** [LinearRegression().fit(X, y)], pickled; [fit] refuses some inputs *)
  LinearRegression_fit_dumps : list (list nd) -> list nd -> res string;
  (** [pickle.load(f).predict(X)] for the bytes of a pickled model *)
  loads_predict : string -> ndarray -> res ndarray
}.

Section Training.
Context `{Library} `{Regression}.

(** [insurancedf.values[:, :-1]]: every row without its last cell. *)
Definition features (df : DataFrame) : list (list nd) :=
  map (take (length (columns df) - 1)) (rows df).

(** [insurancedf.values[:, -1]]: the last cell of every row; a frame
    without columns has no last column. *)
Definition target (df : DataFrame) : res (list nd) :=
  match length (columns df) with
  | O => Raise IndexError
  | S last => Ok (map (fun r => default NaN (r !! last)) (rows df))
  end.

(** [arrangement] is the order [random_state=0] gives the rows. *)
Definition train_model (prep_data_dir model_dir traintest_dir : string)
    (arrangement : list nat) (w : world) : res unit * world :=
  match read_pickle w (prep_data_dir +:+ "/insurancedf.pkl") with
  | Raise e => (Raise e, w)
  | Ok insurancedf =>
      let X := features insurancedf in
      match target insurancedf with
      | Raise e => (Raise e, w)
      | Ok y =>
          match Sklearn.train_test_split X y (3 # 10)
                  (@None (list nd)) arrangement with
          | Raise e => (Raise e, w)
          | Ok (X_train, X_test, y_train, y_test) =>
              match LinearRegression_fit_dumps X_train y_train with
              | Raise e => (Raise e, w)
              | Ok linreg =>
                  let w := ensure_dir model_dir w in
                  let w := ensure_dir traintest_dir w in
                  let w :=
                    np_savez2 (traintest_dir +:+ "/train_data.npz")
                      (map Arr X_train) y_train w in
                  let w :=
                    np_savez2 (traintest_dir +:+ "/val_data.npz")
                      (map Arr X_test) y_test w in
                  let filename := model_dir +:+ "/finalized_model.sav" in
                  (Ok tt, <[filename := Blob linreg]> w)
              end
          end
      end
  end.

(** The step returns the array [ypred] it prints. *)
Definition evaluate_model (traintest_dir model_dir : string) (w : world)
  : res ndarray :=
  match np_load_file w (traintest_dir +:+ "/val_data.npz") 0 with
  | Raise e => Raise e
  | Ok X_test =>
      match w !! (model_dir +:+ "/finalized_model.sav") with
      | None => Raise (FileNotFoundError (model_dir +:+ "/finalized_model.sav"))
      | Some (Blob model) => loads_predict model X_test
      | Some _ => Raise OSError
      end
  end.

End Training.

(** The function components of the notebook with the outputs their
    signatures declare. *)
Definition preprocess_data_comp : Kfp.component :=
  {| Kfp.comp_name := "preprocess_data";
     Kfp.comp_outputs := ["prep_data_dir"]%string |}.
Definition train_model_comp : Kfp.component :=
  {| Kfp.comp_name := "train_model";
     Kfp.comp_outputs := ["model_dir"; "traintest_dir"]%string |}.
Definition evaluate_model_comp : Kfp.component :=
  {| Kfp.comp_name := "evaluate_model"; Kfp.comp_outputs := [] |}.

Section PipelineDefinition.
Import Kfp.
Local Open Scope pipeline_scope.

(** The component loaded from a URL. *)
Variable download_and_extract_comp : component.

Definition insurance_pipeline : Pipeline unit :=
  let* download_and_extract_task :=
    call download_and_extract_comp
      [param "dataset_url"; param "dataset_file_name"] in
  let* data_path := outputs download_and_extract_task "data_path" in
  let* preprocess_data_task := call preprocess_data_comp [data_path] in
  let* prep := output preprocess_data_task in
  let* train_model_task := call train_model_comp [prep] in
  let* _ := set_gpu_limit train_model_task 1 in
  let* traintest := outputs train_model_task "traintest_dir" in
  let* model := outputs train_model_task "model_dir" in
  let* evaluate_model_task := call evaluate_model_comp [traintest; model] in
  set_gpu_limit evaluate_model_task 1.

(** The parameters the pipeline function declares. *)
Definition pipeline_parameters : list string :=
  ["dataset_url"; "dataset_file_name"; "data_dir"; "prep_data_dir";
   "model_dir"; "model_name"; "minio_url"; "minio_user"; "minio_pass"]%string.

End PipelineDefinition.

End Insurance.

(* ===================================================================== *)
(** ** The fraud notebook                                                *)
(* ===================================================================== *)

Module Fraud.

Import Pandas.

Section Steps.
Context `{Library}.

Definition preprocess_data (data_dir prep_data_dir : string) (w : world)
  : res unit * world :=
  let data := data_dir +:+ "/card_transdata_big.csv" in
  match read_csv w data [] with
  | Raise e => (Raise e, w)
  | Ok df =>
      let w := ensure_dir prep_data_dir w in
      (Ok tt, to_pickle df (prep_data_dir +:+ "/df.pkl") w)
  end.

(** [y = df.fraud]: attribute access on a frame. *)
Definition fraud_attribute (df : DataFrame) : res (list nd) :=
  match column "fraud" df with
  | Ok y => Ok y
  | Raise _ => Raise (AttributeError "fraud")
  end.

(** [arrangement] is the order [random_state=42] gives the rows,
    [mlp_state] the random state of the classifier. *)
Definition train_model (prep_data_dir model_dir traintest_dir : string)
    (arrangement : list nat) (mlp_state : N) (w : world) : res unit * world :=
  match read_pickle w (prep_data_dir +:+ "/df.pkl") with
  | Raise e => (Raise e, w)
  | Ok df =>
      match fraud_attribute df with
      | Raise e => (Raise e, w)
      | Ok y =>
          match drop_column "fraud" df with
          | Raise e => (Raise e, w)
          | Ok X =>
              match Sklearn.train_test_split (rows X) y (2 # 10)
                      (@None (list nd)) arrangement with
              | Raise e => (Raise e, w)
              | Ok (X_train, X_test, y_train, y_test) =>
                  let mlp := MLPClassifier_fit_dumps mlp_state X_train y_train in
                  let w := ensure_dir model_dir w in
                  let w := ensure_dir traintest_dir w in
                  let filename := model_dir +:+ "/trained_model.sav" in
                  let w := <[filename := Blob mlp]> w in
                  let w :=
                    np_savez2 (traintest_dir +:+ "/train_data.npz")
                      (map Arr X_train) y_train w in
                  let w :=
                    np_savez2 (traintest_dir +:+ "/val_data.npz")
                      (map Arr X_test) y_test w in
                  (Ok tt, w)
              end
          end
      end
  end.

End Steps.

(** The classifier and the metrics [evaluate_model] calls. *)
Class Classifier : Type := {
  (** [pickle.load(f).predict(X)] for the bytes of a pickled classifier *)
  loads_predict : string -> ndarray -> res ndarray;
  (** [precision_score], [recall_score] and [f1_score] of
      [(y_test, preds)] with [average='weighted'] *)
  weighted_scores : ndarray -> ndarray -> res (Q * Q * Q)
}.

(** [a == b] on two cells: numbers by value, a missing value equals
    nothing. *)
Definition cell_eqb (a b : nd) : bool :=
  match a, b with
  | Num p, Num q => Qeq_bool p q
  | Str s, Str s' => String.eqb s s'
  | _, _ => false
  end.

(** [np.mean(preds == y_test)]: the share of positions that agree; the
    mean of no value is [nan], and two arrays of different lengths compare
    as the one value [False]. *)
Definition accuracy (preds y_test : ndarray) : nd :=
  if length preds =? length y_test then
    match preds with
    | [] => NaN
    | _ :: _ =>
        Num (inject_Z (Z.of_nat
               (length (List.filter (fun '(p, y) => cell_eqb p y)
                          (zip preds y_test))))
             / inject_Z (Z.of_nat (length preds)))
    end
  else Num 0.

Section Evaluation.
Context `{Classifier}.

(** The step returns the accuracy it prints; the three scores are
    computed after it and printed only. *)
Definition evaluate_model (prep_data_dir model_dir : string) (w : world)
  : res nd :=
  match np_load_file w (prep_data_dir +:+ "/val_data.npz") 0 with
  | Raise e => Raise e
  | Ok X_test =>
      match np_load_file w (prep_data_dir +:+ "/val_data.npz") 1 with
      | Raise e => Raise e
      | Ok y_test =>
          match w !! (model_dir +:+ "/trained_model.sav") with
          | None =>
              Raise (FileNotFoundError (model_dir +:+ "/trained_model.sav"))
          | Some (Blob mlp) =>
              match loads_predict mlp X_test with
              | Raise e => Raise e
              | Ok preds =>
                  let accuracy := accuracy preds y_test in
                  match weighted_scores y_test preds with
                  | Raise e => Raise e
                  | Ok _ => Ok accuracy
                  end
              end
          | Some _ => Raise OSError
          end
      end
  end.

End Evaluation.

(** The function components of the notebook with the outputs their
    signatures declare. *)
Definition preprocess_data_comp : Kfp.component :=
  {| Kfp.comp_name := "preprocess_data";
     Kfp.comp_outputs := ["prep_data_dir"]%string |}.
Definition train_model_comp : Kfp.component :=
  {| Kfp.comp_name := "train_model";
     Kfp.comp_outputs := ["model_dir"; "traintest_dir"]%string |}.
Definition evaluate_model_comp : Kfp.component :=
  {| Kfp.comp_name := "evaluate_model"; Kfp.comp_outputs := [] |}.

Section PipelineDefinition.
Import Kfp.
Local Open Scope pipeline_scope.

(** The component loaded from a URL. *)
Variable download_and_extract_comp : component.

Definition fraud_detection_pipeline : Pipeline unit :=
  let* download_and_extract_task :=
    call download_and_extract_comp
      [param "dataset_url"; param "dataset_file_name"] in
  let* data_path := outputs download_and_extract_task "data_path" in
  let* preprocess_data_task := call preprocess_data_comp [data_path] in
  let* prep := output preprocess_data_task in
  let* train_model_task := call train_model_comp [prep] in
  let* _ := set_gpu_limit train_model_task 1 in
  let* traintest := outputs train_model_task "traintest_dir" in
  let* model := outputs train_model_task "model_dir" in
  let* evaluate_model_task := call evaluate_model_comp [traintest; model] in
  set_gpu_limit evaluate_model_task 1.

(** The parameters the pipeline function declares. *)
Definition pipeline_parameters : list string :=
  ["dataset_url"; "dataset_file_name"; "data_dir"; "prep_data_dir";
   "model_dir"; "model_name"; "minio_url"; "minio_user"; "minio_pass"]%string.

End PipelineDefinition.

End Fraud.

(* ===================================================================== *)
(** ** The fingerprint notebook                                          *)
(* ===================================================================== *)

Module Fingerprint.

(** *** preprocess_data

    The body is run statement by statement over the frame of the call: the
    local names with the values bound to them, and the file system.  An
    assignment binds a name, a name in an expression is looked up. *)

Inductive pyval : Type :=
| PStr (s : string)
| PArr (a : ndarray).

Record frame : Type := {
  locals : gmap string pyval;
  fs : world
}.

Definition Stmt (A : Type) : Type := frame -> res A * frame.

Definition ret {A : Type} (a : A) : Stmt A := fun f => (Ok a, f).

Definition raise {A : Type} (e : exn) : Stmt A := fun f => (Raise e, f).

Definition bind {A B : Type} (m : Stmt A) (k : A -> Stmt B) : Stmt B :=
  fun f =>
    match m f with
    | (Ok a, f') => k a f'
    | (Raise e, f') => (Raise e, f')
    end.

Declare Scope stmt_scope.
Notation "'let*' x ':=' m 'in' k" := (bind m (fun x => k))
  (at level 10, x name, m at level 100, k at level 200) : stmt_scope.
Notation "m ';;' k" := (bind m (fun _ => k))
  (at level 100, k at level 200, right associativity) : stmt_scope.

Section Preprocess.
Local Open Scope stmt_scope.

(** [x = value] *)
Definition assign (x : string) (v : pyval) : Stmt unit :=
  fun f => (Ok tt, {| locals := <[x := v]> (locals f); fs := fs f |}).

(** A name in an expression: [NameError] when nothing is bound to it.
    The names of the body are the two parameters and the variables it
    assigns; the modules and functions it imports are resolved where they
    are called, and the notebook defines no global of any other name the
    body reads. *)
Definition lookup_name (x : string) : Stmt pyval :=
  fun f =>
    match locals f !! x with
    | Some v => (Ok v, f)
    | None => (Raise (NameError x), f)
    end.

Definition array_name (x : string) : Stmt ndarray :=
  let* v := lookup_name x in
  match v with
  | PArr a => ret a
  | PStr _ => raise TypeError
  end.

Definition string_name (x : string) : Stmt string :=
  let* v := lookup_name x in
  match v with
  | PStr s => ret s
  | PArr _ => raise TypeError
  end.

Definition lift {A : Type} (r : world -> res A) : Stmt A :=
  fun f => (r (fs f), f).

Definition update_fs (g : world -> world) : Stmt unit :=
  fun f => (Ok tt, {| locals := locals f; fs := g (fs f) |}).

(** [x = np.load(f'{data_dir}/<file>')['data']] *)
Definition assign_npz (x file : string) : Stmt unit :=
  let* data_dir := string_name "data_dir" in
  let* a := lift (fun w => np_load_key w (data_dir +:+ "/" +:+ file) "data") in
  assign x (PArr a).

(** [y = np.load(f'{data_dir}/<file>')] *)
Definition assign_npy (y file : string) : Stmt unit :=
  let* data_dir := string_name "data_dir" in
  let* a := lift (fun w => np_load w (data_dir +:+ "/" +:+ file)) in
  assign y (PArr a).

(** [np.savez(f'/{prep_data_dir}/<file>', a, b)]: the path and the two
    arguments are evaluated, then the archive is written. *)
Definition savez (file a b : string) : Stmt unit :=
  let* prep_data_dir := string_name "prep_data_dir" in
  let* a0 := array_name a in
  let* a1 := array_name b in
  update_fs (np_savez2 ("/" +:+ prep_data_dir +:+ "/" +:+ file) a0 a1).

(** [print(a.shape, b.shape)] and [print(len(a), len(b))]: the two names
    are looked up; what is printed is not modelled. *)
Definition print2 (a b : string) : Stmt unit :=
  let* _ := array_name a in
  let* _ := array_name b in
  ret tt.

(** The statements up to the creation of the output directory.
    [arrangement] is the permutation the unseeded random state gives
    [train_test_split]. *)
Definition load_and_split (arrangement : list nat) : Stmt unit :=
  assign_npz "x_real" "x_real.npz" ;;
  assign_npy "y_real" "y_real.npy" ;;
  assign_npz "x_easy" "x_easy.npz" ;;
  assign_npy "y_easy" "y_easy.npy" ;;
  assign_npz "x_medium" "x_medium.npz" ;;
  assign_npy "y_medium" "y_medium.npy" ;;
  assign_npz "x_hard" "x_hard.npz" ;;
  assign_npy "y_hard" "y_hard.npy" ;;
  let* x_easy := array_name "x_easy" in
  let* x_medium := array_name "x_medium" in
  let* x_hard := array_name "x_hard" in
  assign "x_data" (PArr (x_easy ++ x_medium ++ x_hard)) ;;
  let* y_easy := array_name "y_easy" in
  let* y_medium := array_name "y_medium" in
  let* y_hard := array_name "y_hard" in
  assign "label_data" (PArr (y_easy ++ y_medium ++ y_hard)) ;;
  let* x_data := array_name "x_data" in
  let* label_data := array_name "label_data" in
  match Sklearn.train_test_split x_data label_data (1 # 10)
          (@None (list nd)) arrangement with
  | Raise e => raise e
  | Ok (x_train, x_val, label_train, label_val) =>
      assign "x_train" (PArr x_train) ;;
      assign "x_val" (PArr x_val) ;;
      assign "label_train" (PArr label_train) ;;
      assign "label_val" (PArr label_val) ;;
      print2 "x_data" "label_data" ;;
      print2 "x_train" "label_train" ;;
      print2 "x_val" "label_val" ;;
      print2 "x_real" "y_real" ;;
      let* prep_data_dir := string_name "prep_data_dir" in
      update_fs (ensure_dir prep_data_dir)
  end.

(** The three [np.savez] calls that end the function. *)
Definition save_bundles : Stmt unit :=
  savez "train_data.npz" "x_train" "laWhatWhatbel_train" ;;
  savez "val_data.npz" "x_val" "label_val" ;;
  savez "real_data.npz" "x_real" "y_real".

Definition preprocess_data_body (arrangement : list nat) : Stmt unit :=
  load_and_split arrangement ;; save_bundles.

(** The call binds the two parameters and runs the body. *)
Definition call_frame (data_dir prep_data_dir : string) (w : world) : frame :=
  {| locals := <["prep_data_dir" := PStr prep_data_dir]>
                 (<["data_dir" := PStr data_dir]> ∅);
     fs := w |}.

Definition preprocess_data (data_dir prep_data_dir : string)
    (arrangement : list nat) (w : world) : res unit * world :=
  let '(r, f) :=
    preprocess_data_body arrangement (call_frame data_dir prep_data_dir w) in
  (r, fs f).

End Preprocess.

(** A statement is quiet when it leaves the file system alone whatever
    its outcome, and it writes last when it leaves the file system alone
    unless it completes. *)
Definition quiet {A : Type} (m : Stmt A) : Prop :=
  forall f r f', m f = (r, f') -> fs f' = fs f.

Definition writes_last {A : Type} (m : Stmt A) : Prop :=
  forall f e f', m f = (Raise e, f') -> fs f' = fs f.

(** *** train_model: the reference dictionary and the pair generator *)

(** [key = y.astype(str); key = ''.join(key).zfill(6)] for an integer
    label vector. *)
Definition label_key (l : list Z) : string := zfill 6 (join (map str l)).

(** [for i, y in enumerate(y_real): label_real_dict[key] = i] *)
Definition make_label_real_dict (y_real : list (list Z)) : dict nat :=
  fold_left (fun d iy => setitem (label_key (snd iy)) (fst iy) d)
    (imap pair y_real) [].

(** The image operations the generator calls. *)
Class ImageOps (image : Type) : Type := {
  (** [a.astype(np.float32) / 255.] on one image *)
  scaled : image -> image;
  (** a row of [np.empty((batch_size, 90, 90, 1))] *)
  np_empty_row : image;
  (** [seq.augment_images(batch)] for the blur and affine sequence, under
      the random state of the augmentation library *)
  augment_images : N -> list image -> list image
}.

Section Generator.
Context {image : Type} `{ImageOps image}.

Record DataGenerator : Type := {
  x : list image;
  label : list (list Z);
  x_real : list image;
  label_real_dict : dict nat;
  batch_size : nat;
  shuffle : bool
}.

(** [sklearn.utils.shuffle(x, label)]: both arrays in the order of one
    random arrangement of the indices. *)
Definition on_epoch_end (arrangement : list nat) (self : DataGenerator)
  : DataGenerator :=
  if shuffle self then
    {| x := omap (fun i => x self !! i) arrangement;
       label := omap (fun i => label self !! i) arrangement;
       x_real := x_real self; label_real_dict := label_real_dict self;
       batch_size := batch_size self; shuffle := shuffle self |}
  else self.

Definition __init__ (x0 : list image) (label0 : list (list Z))
    (x_real0 : list image) (label_real_dict0 : dict nat)
    (batch_size0 : nat) (shuffle0 : bool) (arrangement : list nat)
  : DataGenerator :=
  on_epoch_end arrangement
    {| x := x0; label := label0; x_real := x_real0;
       label_real_dict := label_real_dict0;
       batch_size := batch_size0; shuffle := shuffle0 |}.

(** [int(np.floor(len(self.x) / self.batch_size))] *)
Definition __len__ (self : DataGenerator) : nat :=
  length (x self) / batch_size self.

(** The [while True] loop: draw an entry of the dictionary until its key
    differs from [match_key].  [fuel] bounds the number of draws. *)
Fixpoint sample_unmatched (fuel : nat) (t : tape)
    (entries : list (string * nat)) (match_key : string) (pos : nat)
  : outcome (string * nat * nat) :=
  match fuel with
  | O => OutOfFuel
  | S fuel' =>
      match choice t entries pos with
      | (Raise e, _) => Fault e
      | (Ok (unmatch_key, unmatch_idx), pos') =>
          if String.eqb unmatch_key match_key
          then sample_unmatched fuel' t entries match_key pos'
          else Done (unmatch_key, unmatch_idx, pos')
      end
  end.

(** The body of the loop over the labels of the batch: the reference
    image and the pair label for one probe. *)
Definition pair_probe (fuel : nat) (t : tape) (self : DataGenerator)
    (l : list Z) (pos : nat) : outcome (image * Q * nat) :=
  let match_key := label_key l in
  let '(r, pos) := random t pos in
  if Qlt_le_dec (1 # 2) r then
    match getitem match_key (label_real_dict self) with
    | None => Fault (KeyError match_key)
    | Some idx =>
        match x_real self !! idx with
        | None => Fault IndexError
        | Some im => Done (im, 1%Q, pos)
        end
    end
  else
    match sample_unmatched fuel t (items (label_real_dict self))
            match_key pos with
    | Done (_, unmatch_idx, pos) =>
        match x_real self !! unmatch_idx with
        | None => Fault IndexError
        | Some im => Done (im, 0%Q, pos)
        end
    | Fault e => Fault e
    | OutOfFuel => OutOfFuel
    end.

(** [for i, l in enumerate(label_batch)]: row [i] of [x2_batch] and of
    [y_batch] is overwritten. *)
Fixpoint fill_batch (fuel : nat) (t : tape) (self : DataGenerator)
    (i : nat) (label_batch : list (list Z))
    (x2_batch : list image) (y_batch : list Q) (pos : nat)
  : outcome (list image * list Q * nat) :=
  match label_batch with
  | [] => Done (x2_batch, y_batch, pos)
  | l :: rest =>
      match pair_probe fuel t self l pos with
      | Done (im, y, pos') =>
          fill_batch fuel t self (S i) rest
            (<[i := im]> x2_batch) (<[i := y]> y_batch) pos'
      | Fault e => Fault e
      | OutOfFuel => OutOfFuel
      end
  end.

(** [self[index]]: one batch [([x1, x2], y)].  [aug_state] is the random
    state of the augmentation library. *)
Definition __getitem__ (fuel : nat) (t : tape) (aug_state : N)
    (self : DataGenerator) (index : nat) (pos : nat)
  : outcome (list image * list image * list Q * nat) :=
  let x1_batch :=
    slice (index * batch_size self) ((index + 1) * batch_size self) (x self) in
  let label_batch :=
    slice (index * batch_size self) ((index + 1) * batch_size self)
      (label self) in
  let x2_batch := repeat np_empty_row (batch_size self) in
  let y_batch := repeat 0%Q (batch_size self) in
  let x1_batch :=
    if shuffle self then augment_images aug_state x1_batch else x1_batch in
  match fill_batch fuel t self 0 label_batch x2_batch y_batch pos with
  | Done (x2_batch, y_batch, pos') =>
      Done (map scaled x1_batch, map scaled x2_batch, y_batch, pos')
  | Fault e => Fault e
  | OutOfFuel => OutOfFuel
  end.

(** The two generators [train_model] builds and hands to
    [model.fit_generator]; the batch size is the default. *)
Definition train_gen (x_train : list image) (label_train : list (list Z))
    (x_real0 : list image) (y_real : list (list Z)) (arrangement : list nat)
  : DataGenerator :=
  __init__ x_train label_train x_real0 (make_label_real_dict y_real)
    16 false arrangement.

Definition val_gen (x_val : list image) (label_val : list (list Z))
    (x_real0 : list image) (y_real : list (list Z)) (arrangement : list nat)
  : DataGenerator :=
  __init__ x_val label_val x_real0 (make_label_real_dict y_real)
    16 false arrangement.

(** *** evaluate_model: the random probe

    [random_idx = random.randint(0, len(x_val))], then [x_val[random_idx]]
    and [label_val[random_idx]]. *)
Definition pick_probe (t : tape) (x_val : list image)
    (label_val : list (list Z)) (pos : nat)
  : res (image * list Z) * nat :=
  match randint t 0 (length x_val) pos with
  | (Raise e, pos') => (Raise e, pos')
  | (Ok random_idx, pos') =>
      match x_val !! random_idx with
      | None => (Raise IndexError, pos')
      | Some random_img =>
          match label_val !! random_idx with
          | None => (Raise IndexError, pos')
          | Some random_label => (Ok (random_img, random_label), pos')
          end
      end
  end.

End Generator.

Arguments DataGenerator image : clear implicits.

(** *** evaluate_model: the probe, its match and the other reference

    The body after the arrays and the model are loaded.  [predict] is the
    loaded model applied to one pair of images; a 90 by 90 image reshapes
    to a batch of one. *)
Section Evaluate.
Context {image : Type} `{ImageOps image}.

(** The local variables the step ends with. *)
Record evaluation : Type := {
  random_img : image;
  random_label : list Z;
  rx : image;
  ry : list Z;
  pred_rx : Q;
  ux : image;
  uy : list Z;
  pred_ux : Q
}.

(** [seq.augment_image(img)] is [seq.augment_images([img])[0]]. *)
Definition augment_image (aug_state : N) (img : image) : res image :=
  match augment_images aug_state [img] with
  | im :: _ => Ok im
  | [] => Raise IndexError
  end.

Definition evaluate_model (predict : image -> image -> res Q) (t : tape)
    (aug_state : N) (x_val : list image) (label_val : list (list Z))
    (x_real0 : list image) (y_real : list (list Z)) (pos : nat)
  : res evaluation * nat :=
  let label_real_dict := make_label_real_dict y_real in
  match pick_probe t x_val label_val pos with
  | (Raise e, pos) => (Raise e, pos)
  | (Ok (random_img, random_label), pos) =>
  match augment_image aug_state random_img with
  | Raise e => (Raise e, pos)
  | Ok random_img =>
  let random_img := scaled random_img in
  let match_key := label_key random_label in
  match getitem match_key label_real_dict with
  | None => (Raise (KeyError match_key), pos)
  | Some idx =>
  match x_real0 !! idx with
  | None => (Raise IndexError, pos)
  | Some rx =>
  let rx := scaled rx in
  match y_real !! idx with
  | None => (Raise IndexError, pos)
  | Some ry =>
  match predict random_img rx with
  | Raise e => (Raise e, pos)
  | Ok pred_rx =>
  match choice t (items label_real_dict) pos with
  | (Raise e, pos) => (Raise e, pos)
  | (Ok (unmatch_key, unmatch_idx), pos) =>
  match x_real0 !! unmatch_idx with
  | None => (Raise IndexError, pos)
  | Some ux =>
  let ux := scaled ux in
  match y_real !! unmatch_idx with
  | None => (Raise IndexError, pos)
  | Some uy =>
  match predict random_img ux with
  | Raise e => (Raise e, pos)
  | Ok pred_ux =>
      (Ok {| random_img := random_img; random_label := random_label;
             rx := rx; ry := ry; pred_rx := pred_rx;
             ux := ux; uy := uy; pred_ux := pred_ux |}, pos)
  end end end end end end end end end end.

End Evaluate.

Arguments evaluation image : clear implicits.

(** *** The pipeline *)

Definition preprocess_data_comp : Kfp.component :=
  {| Kfp.comp_name := "preprocess_data";
     Kfp.comp_outputs := ["prep_data_dir"]%string |}.
Definition train_model_comp : Kfp.component :=
  {| Kfp.comp_name := "train_model";
     Kfp.comp_outputs := ["model_dir"]%string |}.
Definition evaluate_model_comp : Kfp.component :=
  {| Kfp.comp_name := "evaluate_model"; Kfp.comp_outputs := [] |}.

Section PipelineDefinition.
Import Kfp.
Local Open Scope pipeline_scope.

Variables download_and_extract_comp convert_model_to_onnx_comp
          upload_model_comp deploy_model_with_kserve_comp : component.

Definition fingerprint_pipeline : Pipeline unit :=
  let* download_and_extract_task :=
    call download_and_extract_comp
      [param "dataset_url"; param "dataset_file_name"] in
  let* data_path := outputs download_and_extract_task "data_path" in
  let* preprocess_data_task := call preprocess_data_comp [data_path] in
  let* prep := output preprocess_data_task in
  let* train_model_task := call train_model_comp [prep] in
  let* _ := set_gpu_limit train_model_task 1 in
  let* prep := output preprocess_data_task in
  let* model := output train_model_task in
  let* evaluate_model_task := call evaluate_model_comp [prep; model] in
  let* _ := set_gpu_limit evaluate_model_task 1 in
  let* model := output train_model_task in
  let* convert_model_to_onnx_task :=
    call convert_model_to_onnx_comp [model] in
  let* onnx := output convert_model_to_onnx_task in
  let* upload_model_task :=
    call upload_model_comp
      [onnx; param "minio_url"; param "minio_user"; param "minio_pass";
       param "model_name"] in
  let* deploy_model_with_kserve_task :=
    call deploy_model_with_kserve_comp [param "model_name"] in
  after deploy_model_with_kserve_task upload_model_task.

(** The parameters the pipeline function declares. *)
Definition pipeline_parameters : list string :=
  ["dataset_url"; "dataset_file_name"; "data_dir"; "prep_data_dir";
   "model_dir"; "model_name"; "minio_url"; "minio_user"; "minio_pass"]%string.

End PipelineDefinition.

End Fingerprint.

(* ===================================================================== *)
(** ** Concrete inputs                                                   *)
(* ===================================================================== *)

Module Samples.

Import Fingerprint.

(** Images reduced to one intensity. *)
#[global] Instance intensity_ops : ImageOps Q := {|
  scaled := fun q => (q / 255)%Q;
  np_empty_row := 0%Q;
  augment_images := fun state batch =>
    map (fun q => q + inject_Z (Z.of_N state))%Q batch
|}.

(** Three reference prints of three subjects, two probes. *)
Definition y_real : list (list Z) := [[1; 0; 0; 1]; [2; 0; 0; 1]; [3; 1; 1; 1]]%Z.
Definition x_real : list Q := [10; 20; 30]%Q.
Definition x_probe : list Q := [11; 31]%Q.
Definition label_probe : list (list Z) := [[1; 0; 0; 1]; [3; 1; 1; 1]]%Z.

(** A generator as [train_model] builds it, with a batch of two. *)
Definition gen2 : DataGenerator Q :=
  __init__ x_probe label_probe x_real (make_label_real_dict y_real) 2 false [].

(** A tape: the first cell is the largest coin, cell [pos] after it
    holds [pos].  The first coin is above one half, the second is not; the
    draws that follow pick entry 2 (the match of the second probe), then
    entry 0, and every entry comes back every three cells. *)
Definition tape2 : tape :=
  fun pos =>
    match pos with
    | 0 => (2 ^ 53 - 1)%N
    | S _ => N.of_nat pos
    end.

(** A reference set with one subject only. *)
Definition one_subject : dict nat := make_label_real_dict [[1; 0; 0; 1]]%Z.

(** The input files of the fingerprint preprocessing step: one row per
    difficulty. *)
Definition print (v : Z) : nd := Arr [Num (inject_Z v)].
Definition subject (v : Z) : nd := Arr [Num (inject_Z v); Num 0; Num 0; Num 1].

Definition fingerprint_world : world :=
  list_to_map
    [("/in/x_real.npz", Npz [("data", [print 10])]);
     ("/in/y_real.npy", Npy [subject 1]);
     ("/in/x_easy.npz", Npz [("data", [print 11])]);
     ("/in/y_easy.npy", Npy [subject 1]);
     ("/in/x_medium.npz", Npz [("data", [print 12])]);
     ("/in/y_medium.npy", Npy [subject 1]);
     ("/in/x_hard.npz", Npz [("data", [print 13])]);
     ("/in/y_hard.npy", Npy [subject 1])]%string.

(** A covid data set of five images, four of them in a class directory. *)
Definition image_libs : Covid.ImageLibs := {|
  Covid.list_images := fun _ data_dir =>
    if String.eqb data_dir "/data"
    then ["/data/covid/a.png"; "/data/normal/b.png"; "/data/other/c.png";
          "/data/covid/d.png"; "/data/normal/e.png"]%string
    else [];
  Covid.imdecode := fun content =>
    Some (Arr [Num (inject_Z (Z.of_nat (String.length content)))]);
  Covid.cvtColor_BGR2RGB := fun image => image;
  Covid.resize_224 := fun image => image
|}.

Definition covid_world : world :=
  list_to_map
    [("/data/covid/a.png", Blob "a"); ("/data/normal/b.png", Blob "bb");
     ("/data/other/c.png", Blob "ccc"); ("/data/covid/d.png", Blob "dddd");
     ("/data/normal/e.png", Blob "eeeee")]%string.

(** The world after the covid preprocessing step, the array it wrote,
    and the world after the split step. *)
Definition covid_prep_world : world :=
  snd (@Covid.preprocess_data image_libs "/data" "/prep" covid_world).

Definition covid_data : ndarray :=
  match np_load_key covid_prep_world "//prep/data.npz" "data" with
  | Ok data => data
  | Raise _ => []
  end.

Definition covid_split_world : world :=
  snd (Covid.traintestsplit_data "/prep" "data.zip" "/traintest" [3; 0; 2; 1]
         covid_prep_world).

(** A toy frame library: one row per character of the file, a numeric
    column, the three categorical columns and a [fraud] column. *)
Definition frame_of (content : string) : Pandas.DataFrame :=
  {| Pandas.columns := ["distance"; "sex"; "smoker"; "region"; "fraud"]%string;
     Pandas.rows :=
       map (fun c => [Num (inject_Z (Z.of_nat (nat_of_ascii c)));
                      Str "female"; Str "no"; Str "southwest"; Num 0])
         (list_ascii_of_string content) |}.

Definition pandas_lib : Pandas.Library := {|
  Pandas.parse_csv := fun content _ => Ok (frame_of content);
  Pandas.pickle_dumps := fun df =>
    string_of_list_ascii (map (fun _ => "r"%char) (Pandas.rows df));
  Pandas.pickle_loads := fun content => Ok (frame_of content);
  Pandas.LabelEncoder_fit_transform := fun values =>
    Ok (map (fun _ => Num 0) values);
  Pandas.MLPClassifier_fit_dumps := fun _ _ _ => "mlp"%string
|}.

Definition fraud_world : world :=
  list_to_map [("/prep/df.pkl", Blob "abcdefg")]%string.

Definition fraud_split_world : world :=
  snd (@Fraud.train_model pandas_lib "/prep" "/model" "/traintest"
         [6; 5; 4; 3; 2; 1; 0] 0%N fraud_world).

(** Descriptors for the four components that are loaded from a URL. *)
Definition download_and_extract_comp : Kfp.component :=
  {| Kfp.comp_name := "download-and-extract-from-url";
     Kfp.comp_outputs := ["data_path"]%string |}.
Definition convert_model_to_onnx_comp : Kfp.component :=
  {| Kfp.comp_name := "convert-model-to-onnx";
     Kfp.comp_outputs := ["converted_model"]%string |}.
Definition upload_model_comp : Kfp.component :=
  {| Kfp.comp_name := "upload-model"; Kfp.comp_outputs := [] |}.
Definition deploy_model_with_kserve_comp : Kfp.component :=
  {| Kfp.comp_name := "deploy-model-with-kserve"; Kfp.comp_outputs := [] |}.

(** The tasks the two pipeline functions create with these descriptors. *)
Definition covid_ops : list Kfp.ContainerOp :=
  match Kfp.build (Covid.covid19_lung_classification_pipeline
                     download_and_extract_comp convert_model_to_onnx_comp
                     upload_model_comp deploy_model_with_kserve_comp) with
  | Ok ops => ops
  | Raise _ => []
  end.

Definition fingerprint_ops : list Kfp.ContainerOp :=
  match Kfp.build (Fingerprint.fingerprint_pipeline
                     download_and_extract_comp convert_model_to_onnx_comp
                     upload_model_comp deploy_model_with_kserve_comp) with
  | Ok ops => ops
  | Raise _ => []
  end.

(** Two containers that hold the same insurance and fraud files and
    differ otherwise. *)
Definition csv_world_1 : world :=
  list_to_map
    [("/data/insurance.csv", Blob "abc");
     ("/data/card_transdata_big.csv", Blob "abcd")]%string.

Definition csv_world_2 : world :=
  list_to_map
    [("/data/insurance.csv", Blob "abc");
     ("/data/card_transdata_big.csv", Blob "abcd");
     ("/prep", Directory); ("/tmp/other", Blob "x")]%string.

(** A model for the fingerprint evaluation step: the difference of the
    two intensities; and the run of the step on a tape of zeros. *)
Definition distance (a b : Q) : res Q := Ok (a - b)%Q.

Definition evaluation_same : evaluation Q :=
  match evaluate_model distance (fun _ => 0%N) 0 x_probe label_probe
          x_real y_real 0 with
  | (Ok ev, _) => ev
  | (Raise _, _) =>
      {| random_img := 0; random_label := []; rx := 0; ry := []; pred_rx := 0;
         ux := 0; uy := []; pred_ux := 0 |}%Q
  end.

(** A generator that shuffles. *)
Definition gen_shuffling : DataGenerator Q :=
  {| Fingerprint.x := x_probe; Fingerprint.label := label_probe;
     Fingerprint.x_real := x_real;
     Fingerprint.label_real_dict := make_label_real_dict y_real;
     Fingerprint.batch_size := 2; Fingerprint.shuffle := true |}.

(** The labels the covid preprocessing step wrote. *)
Definition covid_labels : ndarray :=
  match np_load_key covid_prep_world "//prep/data.npz" "labels" with
  | Ok labels => labels
  | Raise _ => []
  end.

(** A toy regression library: the model remembers the number of rows
    it was fitted on and predicts that number. *)
Definition regression_lib : Insurance.Regression := {|
  Insurance.LinearRegression_fit_dumps := fun X y =>
    Ok (string_of_list_ascii (map (fun _ => "m"%char) X));
  Insurance.loads_predict := fun model X =>
    Ok (map (fun _ => Num (inject_Z (Z.of_nat (String.length model)))) X)
|}.

Definition insurance_world : world :=
  list_to_map [("/prep/insurancedf.pkl", Blob "abcdefg")]%string.

Definition insurance_split_world : world :=
  snd (@Insurance.train_model pandas_lib regression_lib
         "/prep" "/model" "/traintest" [6; 5; 4; 3; 2; 1; 0] insurance_world).

(** A toy classifier that predicts no fraud. *)
Definition classifier_lib : Fraud.Classifier := {|
  Fraud.loads_predict := fun model X => Ok (map (fun _ => Num 0) X);
  Fraud.weighted_scores := fun y_test preds => Ok (1, 1, 1)%Q
|}.

(** A model that scores every image as [normal], and a validation
    bundle with two [normal] images. *)
Definition always_normal : Covid.Tensorflow unit := {|
  Covid.load_model := fun _ _ => Ok tt;
  Covid.predict := fun _ x _ => Ok (map (fun _ => Arr [Num 0; Num 1]) x)
|}.

Definition plain_text : Covid.Serialisers := {|
  Covid.to_csv := fun data =>
    join (map (fun '(t, p, count) =>
                 t +:+ "," +:+ p +:+ "," +:+ str (Z.of_nat count) +:+ ";")
            data);
  Covid.json_dumps := fun source labels => source
|}.

Definition normal_only_world : world :=
  list_to_map
    [("/traintest/val_data.npz",
      Npz [("arr_0", [Arr [Num 7]; Arr [Num 8]]);
           ("arr_1", [Arr [Num 0; Num 1]; Arr [Num 0; Num 1]])])]%string.

(** A model that scores an image by its first cell, and a validation
    bundle with images of both classes. *)
Definition threshold : Covid.Tensorflow unit := {|
  Covid.load_model := fun _ _ => Ok tt;
  Covid.predict := fun _ x _ =>
    Ok (map (fun image =>
               match image with
               | Arr (Num q :: _) => Arr [Num (1 - q); Num q]
               | _ => Arr [Num 1; Num 1]
               end) x)
|}.

Definition mixed_world : world :=
  list_to_map
    [("/traintest/val_data.npz",
      Npz [("arr_0", [Arr [Num (1 # 4)]; Arr [Num (3 # 4)]; Arr [Num (1 # 2)]]);
           ("arr_1", [Arr [Num 1; Num 0]; Arr [Num 0; Num 1];
                      Arr [Num 1; Num 0]])])]%string.

(** A frame as [get_dummies] leaves it: the dummy columns behind
    [charges]. *)
Definition frame_charges : Pandas.DataFrame :=
  {| Pandas.columns := ["age"; "charges"; "region_northeast";
                        "region_southwest"]%string;
     Pandas.rows := [[Num 19; Num 1688; Num 0; Num 1];
                     [Num 33; Num 4449; Num 1; Num 0]] |}.

End Samples.

(* ===================================================================== *)
(** * Properties                                                         *)
(* ===================================================================== *)

(** ** The random module *)

Lemma randbelow_lt (t : tape) (n pos : nat) :
  0 < n -> fst (randbelow t n pos) < n.
Proof.
  intros Hn. unfold randbelow. simpl.
  assert (Hlt : (t pos mod N.of_nat n < N.of_nat n)%N)
    by (apply N.mod_lt; lia).
  lia.
Qed.

Lemma randbelow_const (v n pos : nat) :
  v < n -> randbelow (fun _ => N.of_nat v) n pos = (v, S pos).
Proof.
  intros Hv. unfold randbelow. f_equal.
  rewrite N.mod_small by lia. lia.
Qed.

Lemma choice_pos {A : Type} (t : tape) (seq : list A) (pos : nat) (a : A) (pos' : nat) :
  choice t seq pos = (Ok a, pos') -> pos' = S pos /\ a ∈ seq.
Proof.
  unfold choice. destruct seq as [|a0 seq]; [discriminate|].
  destruct (randbelow t (length (a0 :: seq)) pos) as [i p] eqn:Hr.
  destruct ((a0 :: seq) !! i) as [b|] eqn:Hl; [|discriminate].
  intros [= <- <-]. split.
  - unfold randbelow in Hr. congruence.
  - eapply list_elem_of_lookup_2; eauto.
Qed.

Lemma choice_nonempty {A : Type} (t : tape) (seq : list A) (pos : nat) :
  seq <> [] -> exists a, choice t seq pos = (Ok a, S pos) /\ a ∈ seq.
Proof.
  intros Hne. unfold choice. destruct seq as [|a0 seq]; [done|].
  assert (Hlt : fst (randbelow t (length (a0 :: seq)) pos) < length (a0 :: seq))
    by (apply randbelow_lt; simpl; lia).
  destruct (randbelow t (length (a0 :: seq)) pos) as [i p] eqn:Hr.
  simpl in Hlt.
  destruct (lookup_lt_is_Some_2 (a0 :: seq) i Hlt) as [b Hb].
  rewrite Hb. exists b. split.
  - unfold randbelow in Hr. congruence.
  - eapply list_elem_of_lookup_2; eauto.
Qed.

(** ** The fingerprint notebook: the probe of the evaluation step *)

Section FingerprintEvaluate.
Context {image : Type}.
Implicit Types (x_val : list image) (label_val : list (list Z)).

(** Every index [randint(0, len(x_val))] returns is at most [len(x_val)],
    and each such index is returned on some tape. *)
Lemma randint_inclusive (n r : nat) :
  (exists t pos, fst (randint t 0 n pos) = Ok r) <-> r <= n.
Proof.
  split.
  - intros (t & pos & Hr). unfold randint in Hr.
    replace (n <? 0) with false in Hr by (symmetry; apply Nat.ltb_ge; lia).
    assert (Hlt : fst (randbelow t (n + 1 - 0) pos) < n + 1 - 0)
      by (apply randbelow_lt; lia).
    destruct (randbelow t (n + 1 - 0) pos) as [v p]. simpl in *.
    injection Hr as <-. lia.
  - intros Hle. exists (fun _ => N.of_nat r), 0.
    unfold randint.
    replace (n <? 0) with false by (symmetry; apply Nat.ltb_ge; lia).
    rewrite (randbelow_const r (n + 1 - 0) 0) by lia. reflexivity.
Qed.

(** An index inside the array is read from both arrays. *)
Lemma pick_probe_in_range x_val label_val (t : tape) (pos r : nat) :
  fst (randint t 0 (length x_val) pos) = Ok r ->
  r < length x_val -> length label_val = length x_val ->
  exists img l, fst (Fingerprint.pick_probe t x_val label_val pos) = Ok (img, l).
Proof.
  intros Hr Hlt Hlen. unfold Fingerprint.pick_probe.
  destruct (randint t 0 (length x_val) pos) as [[v|e] p]; simpl in Hr; [|done].
  injection Hr as ->.
  destruct (lookup_lt_is_Some_2 x_val r Hlt) as [img ->].
  destruct (lookup_lt_is_Some_2 label_val r ltac:(lia)) as [l ->].
  eauto.
Qed.

(** C9: the probe index is drawn from the inclusive range
    [[0, len(x_val)]]; for every non-empty validation set the draw
    [len(x_val)] is one the generator can return, the option-valued
    accesses [x_val !! len(x_val)] and (for labels of the same length)
    [label_val !! len(x_val)] are [None], and on every tape that yields
    this draw the step raises [IndexError]. *)
Theorem pick_probe_out_of_bounds x_val label_val :
  x_val <> [] ->
  exists random_idx : nat,
    random_idx = length x_val /\
    (exists t pos, fst (randint t 0 (length x_val) pos) = Ok random_idx) /\
    x_val !! random_idx = None /\
    (length label_val = length x_val -> label_val !! random_idx = None) /\
    forall t pos,
      fst (randint t 0 (length x_val) pos) = Ok random_idx ->
      fst (Fingerprint.pick_probe t x_val label_val pos) = Raise IndexError.
Proof.
  intros _. exists (length x_val). split; [reflexivity|]. split.
  { apply randint_inclusive. lia. }
  assert (Hnone : x_val !! length x_val = None)
    by (apply lookup_ge_None_2; lia).
  split; [exact Hnone|].
  split; [intros Hlen; apply lookup_ge_None_2; lia|].
  intros t pos Hr. unfold Fingerprint.pick_probe.
  destruct (randint t 0 (length x_val) pos) as [[v|e] p]; simpl in Hr; [|done].
  injection Hr as ->. rewrite Hnone. reflexivity.
Qed.

End FingerprintEvaluate.

Lemma pick_probe_out_of_bounds_witness :
  Samples.x_probe <> [] /\
  exists random_idx : nat,
    random_idx = length Samples.x_probe /\
    (exists t pos, fst (randint t 0 (length Samples.x_probe) pos) = Ok random_idx) /\
    Samples.x_probe !! random_idx = None /\
    (length Samples.label_probe = length Samples.x_probe ->
     Samples.label_probe !! random_idx = None) /\
    forall t pos,
      fst (randint t 0 (length Samples.x_probe) pos) = Ok random_idx ->
      fst (Fingerprint.pick_probe t Samples.x_probe Samples.label_probe pos)
      = Raise IndexError.
Proof.
  split; [discriminate|].
  apply (pick_probe_out_of_bounds Samples.x_probe Samples.label_probe).
  discriminate.
Defined.

(** ** The fingerprint notebook: the rejection loop of the generator *)

Section FingerprintSampling.
Import Fingerprint.
Implicit Types (entries : list (string * nat)) (match_key : string).

(** A sample the loop returns is an entry with another key, drawn at the
    last position read; every draw before it had the match key. *)
Lemma sample_unmatched_Done fuel t entries match_key pos k idx pos' :
  sample_unmatched fuel t entries match_key pos = Done (k, idx, pos') ->
  (k, idx) ∈ entries /\ k <> match_key /\ pos < pos' /\
  fst (choice t entries (pos' - 1)) = Ok (k, idx) /\
  forall p, pos <= p < pos' - 1 ->
    exists j, fst (choice t entries p) = Ok (match_key, j).
Proof.
  revert pos. induction fuel as [|fuel IH]; intros pos; simpl; [discriminate|].
  destruct (choice t entries pos) as [[[k0 i0]|e] p0] eqn:Hc; [|discriminate].
  apply choice_pos in Hc as Hc'. destruct Hc' as [-> Hin].
  destruct (String.eqb k0 match_key) eqn:Hk.
  - apply String.eqb_eq in Hk. subst k0. intros Hrec.
    destruct (IH _ Hrec) as (Hin' & Hne & Hlt & Hlast & Hbefore).
    split; [assumption|]. split; [assumption|]. split; [lia|].
    split; [assumption|].
    intros p Hp. destruct (decide (p = pos)) as [->|Hpp].
    + exists i0. rewrite Hc. reflexivity.
    + apply Hbefore. lia.
  - apply String.eqb_neq in Hk. intros [= -> -> <-].
    split; [assumption|]. split; [assumption|]. split; [lia|]. split.
    + replace (S pos - 1) with pos by lia. rewrite Hc. reflexivity.
    + intros p Hp. lia.
Qed.

(** More fuel does not change a result. *)
Lemma sample_unmatched_mono fuel fuel' t entries match_key pos r :
  sample_unmatched fuel t entries match_key pos = Done r ->
  fuel <= fuel' ->
  sample_unmatched fuel' t entries match_key pos = Done r.
Proof.
  revert fuel' pos. induction fuel as [|fuel IH]; intros fuel' pos; simpl;
    [discriminate|].
  intros Hd Hle. destruct fuel' as [|fuel']; [lia|]. simpl.
  destruct (choice t entries pos) as [[[k0 i0]|e] p0]; [|discriminate].
  destruct (String.eqb k0 match_key); [|exact Hd].
  apply IH; [exact Hd|lia].
Qed.

(** With every key equal to the match key and at least one entry, every
    draw is rejected: the loop is still running after any number of
    iterations. *)
Lemma sample_unmatched_diverges fuel t entries match_key pos :
  entries <> [] ->
  (forall k idx, (k, idx) ∈ entries -> k = match_key) ->
  sample_unmatched fuel t entries match_key pos = OutOfFuel.
Proof.
  intros Hne Hall. revert pos.
  induction fuel as [|fuel IH]; intros pos; simpl; [reflexivity|].
  destruct (choice_nonempty t entries pos Hne) as ([k0 i0] & -> & Hin).
  rewrite (Hall _ _ Hin), String.eqb_refl. apply IH.
Qed.

(** On an empty dictionary the first draw raises. *)
Lemma sample_unmatched_empty fuel t match_key pos :
  sample_unmatched (S fuel) t [] match_key pos = Fault IndexError.
Proof. reflexivity. Qed.

(** If the draw [n] positions ahead has another key, the loop returns
    within [n + 1] iterations. *)
Lemma sample_unmatched_terminates t entries match_key n :
  forall pos k idx,
    fst (choice t entries (pos + n)) = Ok (k, idx) -> k <> match_key ->
    exists r, forall fuel, n < fuel ->
      sample_unmatched fuel t entries match_key pos = Done r.
Proof.
  induction n as [|n IH]; intros pos k idx Hc Hne.
  - replace (pos + 0) with pos in Hc by lia.
    exists (k, idx, S pos). intros fuel Hf.
    destruct fuel as [|fuel]; [lia|]. simpl.
    destruct (choice t entries pos) as [[[k0 i0]|e] p0] eqn:Hc0;
      simpl in Hc; [|discriminate].
    injection Hc as -> ->. apply choice_pos in Hc0 as [-> _].
    apply String.eqb_neq in Hne. rewrite Hne. reflexivity.
  - assert (Hne' : entries <> []).
    { intros ->. simpl in Hc. discriminate. }
    destruct (choice_nonempty t entries pos Hne') as ([k0 i0] & Hc0 & _).
    destruct (String.eqb k0 match_key) eqn:Hk.
    + replace (pos + S n) with (S pos + n) in Hc by lia.
      destruct (IH _ _ _ Hc Hne) as [r Hr]. exists r.
      intros fuel Hf. destruct fuel as [|fuel]; [lia|]. simpl.
      rewrite Hc0, Hk. apply Hr. lia.
    + exists (k0, i0, S pos). intros fuel Hf.
      destruct fuel as [|fuel]; [lia|]. simpl. rewrite Hc0, Hk. reflexivity.
Qed.

(** A draw reads one cell of the tape. *)
Lemma choice_ext {A : Type} (t t' : tape) (seq : list A) (pos : nat) :
  t pos = t' pos -> choice t seq pos = choice t' seq pos.
Proof. intros Heq. unfold choice, randbelow. by rewrite Heq. Qed.

(** The loop reads the cells from where it starts to where it ends, and
    no other. *)
Lemma sample_unmatched_local fuel t t' entries match_key pos k idx pos' :
  (forall p, pos <= p < pos' -> t p = t' p) ->
  sample_unmatched fuel t entries match_key pos = Done (k, idx, pos') ->
  sample_unmatched fuel t' entries match_key pos = Done (k, idx, pos').
Proof.
  revert pos. induction fuel as [|fuel IH]; intros pos Hagree; simpl;
    [discriminate|].
  intros Hs.
  assert (Hlt : pos < pos').
  { change (sample_unmatched (S fuel) t entries match_key pos
            = Done (k, idx, pos')) in Hs.
    by apply sample_unmatched_Done in Hs as (_ & _ & ? & _). }
  assert (H0 : t pos = t' pos) by (apply Hagree; lia).
  rewrite <- (choice_ext t t' entries pos H0).
  destruct (choice t entries pos) as [[[k0 i0]|e] p0] eqn:Hc; [|discriminate].
  apply choice_pos in Hc as [-> _].
  destruct (String.eqb k0 match_key); [|exact Hs].
  apply IH; [|exact Hs]. intros p Hp. apply Hagree. lia.
Qed.

(** C10, as the code has it: the loop returns a sample only if the
    dictionary has a key that differs from the match key; on a non-empty
    dictionary all of whose keys equal the match key it never ends,
    whatever the tape; it ends with a sample on every tape that
    eventually yields an entry with another key; and on the empty
    dictionary its first draw raises [IndexError]. *)
Theorem sample_unmatched_termination t entries match_key pos :
  (forall fuel r,
     sample_unmatched fuel t entries match_key pos = Done r ->
     exists k idx, (k, idx) ∈ entries /\ k <> match_key) /\
  (entries <> [] ->
   (forall k idx, (k, idx) ∈ entries -> k = match_key) ->
   forall fuel, sample_unmatched fuel t entries match_key pos = OutOfFuel) /\
  (forall n k idx,
     fst (choice t entries (pos + n)) = Ok (k, idx) -> k <> match_key ->
     exists r, forall fuel, n < fuel ->
       sample_unmatched fuel t entries match_key pos = Done r) /\
  (entries = [] ->
   forall fuel, sample_unmatched (S fuel) t entries match_key pos
                = Fault IndexError).
Proof.
  split; [|split; [|split]].
  - intros fuel [[k idx] pos'] Hd.
    apply sample_unmatched_Done in Hd as (Hin & Hne & _). eauto.
  - intros Hne Hall fuel. by apply sample_unmatched_diverges.
  - intros n k idx. apply sample_unmatched_terminates.
  - intros -> fuel. apply sample_unmatched_empty.
Qed.

End FingerprintSampling.

(** The statement of C10 without the restriction to a non-empty
    dictionary fails: every key of the empty dictionary equals the match
    key, and the loop ends at its first draw, with [IndexError]. *)
Lemma sample_unmatched_empty_dict_ends :
  ~ (forall (entries : list (string * nat)) (match_key : string),
       (forall k idx, (k, idx) ∈ entries -> k = match_key) ->
       forall fuel t pos,
         Fingerprint.sample_unmatched fuel t entries match_key pos = OutOfFuel).
Proof.
  intros Hloop.
  specialize (Hloop [] "000000"%string).
  assert (Hall : forall (k : string) (idx : nat),
             (k, idx) ∈ @nil (string * nat) -> k = "000000"%string).
  { intros k idx Hin. inversion Hin. }
  specialize (Hloop Hall 1 (fun _ => 0%N) 0).
  simpl in Hloop. discriminate.
Qed.

Lemma sample_unmatched_termination_witness :
  Fingerprint.sample_unmatched 5 (fun _ => 0%N) Samples.one_subject
    "001001" 0 = OutOfFuel /\
  exists r, forall fuel, 1 < fuel ->
    Fingerprint.sample_unmatched fuel Samples.tape2
      (Fingerprint.make_label_real_dict Samples.y_real) "003111" 2 = Done r.
Proof.
  split.
  - apply (sample_unmatched_termination (fun _ => 0%N) Samples.one_subject
             "001001"%string 0).
    + discriminate.
    + intros k idx Hin. vm_compute in Hin.
      apply list_elem_of_singleton in Hin. congruence.
  - apply (proj1 (proj2 (proj2 (sample_unmatched_termination Samples.tape2
             (Fingerprint.make_label_real_dict Samples.y_real)
             "003111"%string 2))) 1 "001001"%string 0).
    + reflexivity.
    + discriminate.
Defined.

(** ** The fingerprint notebook: the batches of the generator *)

Section FingerprintGenerator.
Import Fingerprint.
Context {image : Type} `{ImageOps image}.
Implicit Types (self : DataGenerator image) (l : list Z).

(** *** The dictionary keeps one entry per key *)

Lemma keys_setitem {V : Type} (k : string) (v : V) (d : dict V) :
  keys (setitem k v d) = if decide (k ∈ keys d) then keys d else keys d ++ [k].
Proof.
  unfold keys. induction d as [|[k' v'] d IH]; simpl; [reflexivity|].
  destruct (String.eqb k' k) eqn:Hk.
  - apply String.eqb_eq in Hk. subst k'. simpl.
    rewrite decide_True; [reflexivity|]. apply list_elem_of_here.
  - apply String.eqb_neq in Hk. simpl. rewrite IH.
    destruct (decide (k ∈ map fst d)) as [Hin|Hnin].
    + rewrite decide_True; [reflexivity|]. by apply list_elem_of_further.
    + rewrite decide_False; [reflexivity|].
      intros Hin. apply elem_of_cons in Hin as [->|Hin]; done.
Qed.

Lemma NoDup_keys_setitem {V : Type} (k : string) (v : V) (d : dict V) :
  NoDup (keys d) -> NoDup (keys (setitem k v d)).
Proof.
  intros Hnd. rewrite keys_setitem. case_decide; [assumption|].
  apply NoDup_app. split; [assumption|]. split.
  - intros x Hx Hx'. apply list_elem_of_singleton in Hx'. by subst.
  - apply NoDup_singleton.
Qed.

Lemma NoDup_keys_make_label_real_dict (y_real : list (list Z)) :
  NoDup (keys (make_label_real_dict y_real)).
Proof.
  unfold make_label_real_dict.
  assert (Hgen : forall (l : list (nat * list Z)) (d : dict nat),
             NoDup (keys d) ->
             NoDup (keys (fold_left
               (fun d iy => setitem (label_key (snd iy)) (fst iy) d) l d))).
  { induction l as [|iy l IH]; intros d Hd; simpl; [assumption|].
    apply IH. by apply NoDup_keys_setitem. }
  apply Hgen. apply NoDup_nil_2.
Qed.

Lemma setitem_elem_of {V : Type} (k : string) (v : V) (d : dict V) k' v' :
  (k', v') ∈ setitem k v d -> (k', v') ∈ d \/ v' = v.
Proof.
  induction d as [|[k0 v0] d IH]; simpl.
  - intros Hin. apply list_elem_of_singleton in Hin. injection Hin as _ ->.
    by right.
  - destruct (String.eqb k0 k).
    + intros Hin. apply elem_of_cons in Hin as [[= -> ->]|Hin]; [by right|].
      left. by apply list_elem_of_further.
    + intros Hin. apply elem_of_cons in Hin as [[= -> ->]|Hin].
      * left. apply list_elem_of_here.
      * destruct (IH Hin) as [Hd| ->]; [|by right].
        left. by apply list_elem_of_further.
Qed.

(** The dictionary maps a key to a row index of [y_real]. *)
Lemma make_label_real_dict_index (y_real : list (list Z)) k idx :
  (k, idx) ∈ make_label_real_dict y_real -> idx < length y_real.
Proof.
  unfold make_label_real_dict.
  assert (Hgen : forall (l : list (nat * list Z)) (d : dict nat),
             (forall k' v', (k', v') ∈ d -> v' < length y_real) ->
             (forall i y, (i, y) ∈ l -> i < length y_real) ->
             forall k' v',
               (k', v') ∈ fold_left
                 (fun d iy => setitem (label_key (snd iy)) (fst iy) d) l d ->
               v' < length y_real).
  { induction l as [|[i y] l IH]; intros d Hd Hl k' v'; simpl.
    - apply Hd.
    - apply IH.
      + intros k0 v0 Hin. apply setitem_elem_of in Hin as [Hin| ->].
        * by eapply Hd.
        * eapply Hl. apply list_elem_of_here.
      + intros i0 y0 Hin. eapply Hl. by apply list_elem_of_further. }
  apply Hgen.
  - intros k' v' Hin. by apply not_elem_of_nil in Hin.
  - intros i y Hin. apply elem_of_lookup_imap in Hin as (j & y' & Heq & Hj).
    injection Heq as -> ->. by eapply lookup_lt_Some.
Qed.

Lemma getitem_elem_of {V : Type} (k : string) (d : dict V) (v : V) :
  getitem k d = Some v -> (k, v) ∈ d.
Proof.
  induction d as [|[k0 v0] d IH]; simpl; [discriminate|].
  destruct (String.eqb k0 k) eqn:Hk.
  - apply String.eqb_eq in Hk. intros [= ->]. subst. apply list_elem_of_here.
  - intros Hg. apply list_elem_of_further. by apply IH.
Qed.

(** With one entry per key, an entry sits at exactly one position: one
    value of the uniform draw selects it. *)
Lemma entry_selected_once (d : dict nat) (e : string * nat) :
  NoDup (keys d) -> e ∈ items d ->
  exists! v, v < length (items d) /\ items d !! v = Some e.
Proof.
  intros Hnd Hin. unfold items in *.
  assert (Hnd' : NoDup d).
  { unfold keys in Hnd. eapply NoDup_fmap_1. exact Hnd. }
  apply list_elem_of_lookup in Hin as [v Hv].
  exists v. split.
  - split; [|assumption]. eapply lookup_lt_Some; eauto.
  - intros v' [_ Hv']. eapply NoDup_lookup; eauto.
Qed.

Lemma label_real_dict_init (x0 : list image) label0 (x_real0 : list image)
    d bs shuf arrangement :
  label_real_dict (__init__ x0 label0 x_real0 d bs shuf arrangement) = d /\
  x_real (__init__ x0 label0 x_real0 d bs shuf arrangement) = x_real0 /\
  batch_size (__init__ x0 label0 x_real0 d bs shuf arrangement) = bs /\
  shuffle (__init__ x0 label0 x_real0 d bs shuf arrangement) = shuf.
Proof. unfold __init__, on_epoch_end. simpl. destruct shuf; simpl; auto. Qed.

(** *** One probe *)

Lemma random_pos (t : tape) (pos : nat) : snd (random t pos) = S pos.
Proof. reflexivity. Qed.

Lemma pair_probe_Done fuel t self l pos im lab pos' :
  pair_probe fuel t self l pos = Done (im, lab, pos') ->
  pos < pos' /\
  (((1 # 2 < fst (random t pos))%Q /\ lab = 1%Q /\
    exists idx, getitem (label_key l) (label_real_dict self) = Some idx /\
                x_real self !! idx = Some im)
   \/
   ((fst (random t pos) <= 1 # 2)%Q /\ lab = 0%Q /\
    exists k idx,
      (k, idx) ∈ items (label_real_dict self) /\ k <> label_key l /\
      fst (choice t (items (label_real_dict self)) (pos' - 1)) = Ok (k, idx) /\
      (forall p, S pos <= p < pos' - 1 ->
         exists j, fst (choice t (items (label_real_dict self)) p)
                   = Ok (label_key l, j)) /\
      x_real self !! idx = Some im)).
Proof.
  unfold pair_probe.
  pose proof (random_pos t pos) as Hp.
  destruct (random t pos) as [r p]. simpl in Hp. subst p. simpl fst.
  destruct (Qlt_le_dec (1 # 2) r) as [Hgt|Hle].
  - destruct (getitem (label_key l) (label_real_dict self)) as [idx|] eqn:Hg;
      [|discriminate].
    destruct (x_real self !! idx) as [im0|] eqn:Hx; [|discriminate].
    intros [= -> <- <-]. split; [lia|]. left. eauto.
  - destruct (sample_unmatched fuel t (items (label_real_dict self))
                (label_key l) (S pos)) as [[[k idx] p2]|e|] eqn:Hs;
      [|discriminate|discriminate].
    destruct (x_real self !! idx) as [im0|] eqn:Hx; [|discriminate].
    intros [= -> <- <-].
    apply sample_unmatched_Done in Hs as (Hin & Hne & Hlt & Hlast & Hbefore).
    split; [lia|]. right. split; [assumption|]. split; [reflexivity|].
    exists k, idx. auto.
Qed.

(** The pair of a probe is a function of the cells between the position
    where the probe starts and the position where it ends: probes that
    read disjoint parts of the tape do not influence each other. *)
Lemma pair_probe_local fuel t t' self l pos im lab pos' :
  (forall p, pos <= p < pos' -> t p = t' p) ->
  pair_probe fuel t self l pos = Done (im, lab, pos') ->
  pair_probe fuel t' self l pos = Done (im, lab, pos').
Proof.
  intros Hagree Hp.
  assert (Hlt : pos < pos') by (by apply pair_probe_Done in Hp as [? _]).
  assert (H0 : t pos = t' pos) by (apply Hagree; lia).
  revert Hp. unfold pair_probe, random. rewrite <- H0.
  destruct (Qlt_le_dec _ _); [done|].
  destruct (sample_unmatched fuel t (items (label_real_dict self))
              (label_key l) (S pos)) as [[[k idx] p2]|e|] eqn:Hs;
    [|discriminate|discriminate].
  destruct (x_real self !! idx) as [im0|] eqn:Hx; [|discriminate].
  intros [= -> <- ->].
  assert (Hrest : forall p, S pos <= p < pos' -> t p = t' p)
    by (intros p Hpp; apply Hagree; lia).
  rewrite (sample_unmatched_local fuel t t' _ _ _ _ _ _ Hrest Hs).
  by rewrite Hx.
Qed.

(** *** The loop over the batch *)

Lemma fill_batch_Done fuel t self labels :
  forall i x2 y pos x2' y' pos',
    fill_batch fuel t self i labels x2 y pos = Done (x2', y', pos') ->
    i + length labels <= length x2 -> length y = length x2 ->
    length x2' = length x2 /\ length y' = length y /\
    (forall k, k < i -> x2' !! k = x2 !! k /\ y' !! k = y !! k) /\
    exists cut : nat -> nat,
      cut 0 = pos /\ cut (length labels) = pos' /\
      forall j l, labels !! j = Some l ->
        exists im lab,
          pair_probe fuel t self l (cut j) = Done (im, lab, cut (S j)) /\
          x2' !! (i + j) = Some im /\ y' !! (i + j) = Some lab.
Proof.
  induction labels as [|l labels IH]; intros i x2 y pos x2' y' pos'; simpl.
  - intros [= <- <- <-] _ _. split; [reflexivity|]. split; [reflexivity|].
    split; [auto|]. exists (fun _ => pos). split; [reflexivity|].
    split; [reflexivity|]. intros j l Hj. rewrite lookup_nil in Hj. discriminate.
  - destruct (pair_probe fuel t self l pos) as [[[im lab] p1]|e|] eqn:Hp;
      [|discriminate|discriminate].
    intros Hrec Hlen Hy.
    apply IH in Hrec as (Hl2 & Hly & Hkeep & cut & Hc0 & Hcn & Hcut);
      [| rewrite length_insert; lia | rewrite !length_insert; lia].
    rewrite length_insert in Hl2. rewrite length_insert in Hly.
    split; [assumption|]. split; [assumption|]. split.
    { intros k Hk. destruct (Hkeep k ltac:(lia)) as [Hx2 Hy2].
      rewrite Hx2, Hy2. rewrite !list_lookup_insert_ne by lia. auto. }
    exists (fun j => match j with 0 => pos | S j' => cut j' end).
    split; [reflexivity|]. split; [assumption|].
    intros j l0 Hj. destruct j as [|j]; simpl in Hj.
    + injection Hj as <-. exists im, lab. rewrite Hc0.
      split; [assumption|]. replace (i + 0) with i by lia.
      destruct (Hkeep i ltac:(lia)) as [Hx2 Hy2]. rewrite Hx2, Hy2.
      rewrite !list_lookup_insert_eq by lia. auto.
    + destruct (Hcut j l0 Hj) as (im0 & lab0 & Hpp & Hx & Hyy).
      exists im0, lab0. split; [assumption|].
      replace (i + S j) with (S i + j) by lia. auto.
Qed.

(** *** One batch *)

Lemma getitem_Done fuel t aug self index pos x1 x2 y pos' :
  __getitem__ fuel t aug self index pos = Done (x1, x2, y, pos') ->
  let label_batch :=
    slice (index * batch_size self) ((index + 1) * batch_size self)
      (label self) in
  length y = batch_size self /\ length x2 = batch_size self /\
  exists cut : nat -> nat,
    cut 0 = pos /\ cut (length label_batch) = pos' /\
    forall i l, label_batch !! i = Some l ->
      exists im lab,
        pair_probe fuel t self l (cut i) = Done (im, lab, cut (S i)) /\
        x2 !! i = Some (scaled im) /\ y !! i = Some lab.
Proof.
  unfold __getitem__.
  set (label_batch :=
         slice (index * batch_size self) ((index + 1) * batch_size self)
           (label self)).
  intros Hg.
  destruct (fill_batch fuel t self 0 label_batch
              (repeat np_empty_row (batch_size self))
              (repeat 0%Q (batch_size self)) pos)
    as [[[x2b yb] p]|e|] eqn:Hf; [|discriminate|discriminate].
  injection Hg as <- <- <- <-.
  apply fill_batch_Done in Hf as (Hl2 & Hly & _ & cut & Hc0 & Hcn & Hcut).
  - rewrite repeat_length in Hl2, Hly.
    split; [assumption|]. split; [by rewrite length_map|].
    exists cut. split; [assumption|]. split; [assumption|].
    intros i l Hi. destruct (Hcut i l Hi) as (im & lab & Hp & Hx & Hy).
    exists im, lab. split; [assumption|]. split; [|assumption].
    simpl in Hx. change (map scaled x2b) with (scaled <$> x2b).
    rewrite list_lookup_fmap, Hx. reflexivity.
  - rewrite repeat_length. subst label_batch. unfold slice.
    rewrite length_take. simpl. lia.
  - by rewrite !repeat_length.
Qed.

(** A batch is returned when every probe has a reference image and meets
    an entry with another key among the draws that follow its coin. *)
Lemma fill_batch_returns t self labels :
  (forall l, l ∈ labels ->
     exists idx im, getitem (label_key l) (label_real_dict self) = Some idx /\
                    x_real self !! idx = Some im) ->
  (forall k idx, (k, idx) ∈ items (label_real_dict self) ->
     is_Some (x_real self !! idx)) ->
  (forall l pos, l ∈ labels ->
     exists n k idx,
       fst (choice t (items (label_real_dict self)) (pos + n)) = Ok (k, idx) /\
       k <> label_key l) ->
  forall i x2 y pos,
    exists fuel0, forall fuel, fuel0 <= fuel ->
      exists r, fill_batch fuel t self i labels x2 y pos = Done r.
Proof.
  intros Href Hidx Hrec.
  induction labels as [|l labels IH]; intros i x2 y pos.
  - exists 0. intros fuel _. simpl. eauto.
  - assert (Hl : l ∈ l :: labels) by apply list_elem_of_here.
    assert (Hp : exists fuel1 im lab p1, forall fuel, fuel1 <= fuel ->
               pair_probe fuel t self l pos = Done (im, lab, p1)).
    { unfold pair_probe.
      pose proof (random_pos t pos) as Hpos.
      destruct (random t pos) as [r p]. simpl in Hpos. subst p.
      destruct (Qlt_le_dec (1 # 2) r).
      - destruct (Href l Hl) as (idx & im & -> & ->).
        exists 0, im, 1%Q, (S pos). reflexivity.
      - destruct (Hrec l (S pos) Hl) as (n & k & idx & Hc & Hne).
        destruct (sample_unmatched_terminates t _ _ n _ _ _ Hc Hne)
          as [[[k' idx'] p'] Hs].
        assert (Hin : (k', idx') ∈ items (label_real_dict self)).
        { specialize (Hs (S n) ltac:(lia)).
          by apply sample_unmatched_Done in Hs as (? & _). }
        destruct (Hidx _ _ Hin) as [im Him].
        exists (S n), im, 0%Q, p'. intros fuel Hf.
        rewrite Hs by lia. rewrite Him. reflexivity. }
    destruct Hp as (fuel1 & im & lab & p1 & Hp).
    assert (Href' : forall l0, l0 ∈ labels ->
              exists idx im0,
                getitem (label_key l0) (label_real_dict self) = Some idx /\
                x_real self !! idx = Some im0)
      by (intros l0 Hl0; apply Href; by apply list_elem_of_further).
    assert (Hrec' : forall l0 pos0, l0 ∈ labels ->
              exists n k idx,
                fst (choice t (items (label_real_dict self)) (pos0 + n))
                = Ok (k, idx) /\ k <> label_key l0)
      by (intros l0 pos0 Hl0; apply Hrec; by apply list_elem_of_further).
    destruct (IH Href' Hrec' (S i) (<[i := im]> x2) (<[i := lab]> y) p1)
      as [fuel2 Hrest].
    exists (Nat.max fuel1 fuel2). intros fuel Hf. simpl.
    rewrite Hp by lia. apply Hrest. lia.
Qed.

Lemma getitem_returns t aug self index pos :
  let label_batch :=
    slice (index * batch_size self) ((index + 1) * batch_size self)
      (label self) in
  (forall l, l ∈ label_batch ->
     exists idx im, getitem (label_key l) (label_real_dict self) = Some idx /\
                    x_real self !! idx = Some im) ->
  (forall k idx, (k, idx) ∈ items (label_real_dict self) ->
     is_Some (x_real self !! idx)) ->
  (forall l p, l ∈ label_batch ->
     exists n k idx,
       fst (choice t (items (label_real_dict self)) (p + n)) = Ok (k, idx) /\
       k <> label_key l) ->
  exists fuel0, forall fuel, fuel0 <= fuel ->
    exists r, __getitem__ fuel t aug self index pos = Done r.
Proof.
  intros label_batch Href Hidx Hrec.
  destruct (fill_batch_returns t self label_batch Href Hidx Hrec 0
              (repeat np_empty_row (batch_size self))
              (repeat 0%Q (batch_size self)) pos) as [fuel0 Hf].
  exists fuel0. intros fuel Hfuel. unfold __getitem__.
  fold label_batch. destruct (Hf fuel Hfuel) as [[[x2 y] p] ->]. eauto.
Qed.


(** The batches [__len__] counts are full: each has [batch_size] probes. *)
Lemma batches_are_full self index :
  length (label self) = length (x self) -> index < __len__ self ->
  length (slice (index * batch_size self) ((index + 1) * batch_size self)
            (label self)) = batch_size self.
Proof.
  unfold __len__, slice. intros Hlen Hi.
  rewrite length_take, length_drop, Hlen.
  destruct (batch_size self) as [|bs]; [simpl in Hi; lia|].
  assert (Hle : (index + 1) * S bs <= length (x self)).
  { transitivity (length (x self) / S bs * S bs).
    - apply Nat.mul_le_mono_r. lia.
    - rewrite Nat.mul_comm. apply Nat.Div0.mul_div_le. }
  lia.
Qed.

(** C2 fails on the code: both generators [train_model] builds have
    [shuffle] off, the flag that guards the augmentation, so the probes of
    every batch they return are the stored images, only rescaled; the
    augmentation library is not called. *)
Theorem generators_do_not_augment (x_train x_val : list image)
    label_train label_val (x_real0 : list image) y_real arrangement
    fuel t aug_state index pos :
  shuffle (train_gen x_train label_train x_real0 y_real arrangement) = false /\
  shuffle (val_gen x_val label_val x_real0 y_real arrangement) = false /\
  match __getitem__ fuel t aug_state
          (train_gen x_train label_train x_real0 y_real arrangement)
          index pos with
  | Done (x1, _, _, _) =>
      x1 = map scaled (slice (index * 16) ((index + 1) * 16) x_train)
  | _ => True
  end /\
  match __getitem__ fuel t aug_state
          (val_gen x_val label_val x_real0 y_real arrangement)
          index pos with
  | Done (x1, _, _, _) =>
      x1 = map scaled (slice (index * 16) ((index + 1) * 16) x_val)
  | _ => True
  end.
Proof.
  split; [reflexivity|]. split; [reflexivity|].
  unfold train_gen, val_gen, __init__, on_epoch_end, __getitem__. simpl.
  split.
  - destruct (fill_batch _ _ _ _ _ _ _ _) as [[[x2 y] p]|e|]; auto.
  - destruct (fill_batch _ _ _ _ _ _ _ _) as [[[x2 y] p]|e|]; auto.
Qed.

End FingerprintGenerator.

(** On [Samples.tape2] the entry of subject 2 comes back after every
    position. *)
Lemma tape2_recurrent (p : nat) :
  fst (choice Samples.tape2
         (items (Fingerprint.make_label_real_dict Samples.y_real))
         (p + (2 * p + 1)))
  = Ok ("002001"%string, 1).
Proof.
  replace (p + (2 * p + 1)) with (S (p * 3)) by lia.
  change (items (Fingerprint.make_label_real_dict Samples.y_real))
    with [("001001"%string, 0); ("002001"%string, 1); ("003111"%string, 2)].
  unfold choice, randbelow, Samples.tape2.
  change (length [("001001"%string, 0); ("002001"%string, 1);
                  ("003111"%string, 2)]) with 3.
  rewrite <- Nat2N.inj_mod, Nat2N.id.
  replace (S (p * 3)) with (1 + p * 3) by lia.
  rewrite Nat.Div0.mod_add. reflexivity.
Qed.


(** C2 at a concrete input: with an augmentation that changes every
    image, the probes of the training generator's batch are the stored
    ones. *)
Lemma train_gen_batch_not_augmented :
  let g := Fingerprint.train_gen Samples.x_probe Samples.label_probe
             Samples.x_real Samples.y_real [] in
  Fingerprint.__getitem__ 5 Samples.tape2 7 g 0 0
  = Done ([11 / 255; 31 / 255]%Q,
          ([10 / 255; 10 / 255] ++ repeat (0 / 255) 14)%Q,
          ([1; 0] ++ repeat 0 14)%Q, 4) /\
  map Fingerprint.scaled (Fingerprint.augment_images 7 Samples.x_probe)
  <> [11 / 255; 31 / 255]%Q.
Proof. split; [reflexivity|]. vm_compute. discriminate. Qed.

(** ** Paths *)

Lemma string_length_append (a b : string) :
  String.length (a +:+ b) = String.length a + String.length b.
Proof. induction a as [|c a IH]; simpl; [reflexivity|]. by rewrite IH. Qed.

(** A file inside a directory is not the directory. *)
Lemma path_inside_ne (pre dir file : string) :
  pre +:+ dir +:+ "/" +:+ file <> dir.
Proof.
  intros Heq. apply (f_equal String.length) in Heq.
  rewrite !string_length_append in Heq. simpl in Heq. lia.
Qed.

(** ** The fingerprint notebook: the preprocessing step *)

Section FingerprintPreprocess.
Import Fingerprint.
Local Open Scope stmt_scope.

Lemma bind_Ok {A B : Type} (m : Stmt A) (k : A -> Stmt B) f b f' :
  bind m k f = (Ok b, f') ->
  exists a f1, m f = (Ok a, f1) /\ k a f1 = (Ok b, f').
Proof.
  unfold bind. destruct (m f) as [[a|e] f1]; [eauto|discriminate].
Qed.

Lemma lookup_name_Ok x f v f' :
  lookup_name x f = (Ok v, f') -> f' = f /\ locals f !! x = Some v.
Proof.
  unfold lookup_name. destruct (locals f !! x); [|discriminate].
  intros [= <- <-]. auto.
Qed.

Lemma array_name_Ok x f a f' :
  array_name x f = (Ok a, f') -> f' = f /\ locals f !! x = Some (PArr a).
Proof.
  unfold array_name. intros Hb.
  apply bind_Ok in Hb as (v & f1 & Hl & Hm).
  apply lookup_name_Ok in Hl as [-> Hl].
  destruct v; [discriminate|]. injection Hm as <- <-. auto.
Qed.

Lemma string_name_Ok x f s f' :
  string_name x f = (Ok s, f') -> f' = f /\ locals f !! x = Some (PStr s).
Proof.
  unfold string_name. intros Hb.
  apply bind_Ok in Hb as (v & f1 & Hl & Hm).
  apply lookup_name_Ok in Hl as [-> Hl].
  destruct v; [|discriminate]. injection Hm as <- <-. auto.
Qed.

Lemma assign_npz_Ok x file f f' :
  assign_npz x file f = (Ok tt, f') ->
  exists a, f' = {| locals := <[x := PArr a]> (locals f); fs := fs f |}.
Proof.
  unfold assign_npz. intros Hb.
  apply bind_Ok in Hb as (d & f1 & Hd & Hb).
  apply string_name_Ok in Hd as [-> _].
  apply bind_Ok in Hb as (a & f2 & Ha & Hb).
  unfold lift in Ha. injection Ha as _ <-.
  unfold assign in Hb. injection Hb as <-. eauto.
Qed.

Lemma assign_npy_Ok y file f f' :
  assign_npy y file f = (Ok tt, f') ->
  exists a, f' = {| locals := <[y := PArr a]> (locals f); fs := fs f |}.
Proof.
  unfold assign_npy. intros Hb.
  apply bind_Ok in Hb as (d & f1 & Hd & Hb).
  apply string_name_Ok in Hd as [-> _].
  apply bind_Ok in Hb as (a & f2 & Ha & Hb).
  unfold lift in Ha. injection Ha as _ <-.
  unfold assign in Hb. injection Hb as <-. eauto.
Qed.

Lemma print2_Ok a b f f' : print2 a b f = (Ok tt, f') -> f' = f.
Proof.
  unfold print2. intros Hb.
  apply bind_Ok in Hb as (x & f1 & Ha & Hb). apply array_name_Ok in Ha as [-> _].
  apply bind_Ok in Hb as (y & f2 & Ha & Hb). apply array_name_Ok in Ha as [-> _].
  by injection Hb.
Qed.

(** Names and file system after the statements before the saves: the
    arrays are bound, the output directory exists, nothing else changed. *)
Lemma load_and_split_Ok arrangement f0 f :
  load_and_split arrangement f0 = (Ok tt, f) ->
  exists x_real y_real x_easy y_easy x_medium y_medium x_hard y_hard
         x_data label_data x_train x_val label_train label_val prep,
    locals f !! "prep_data_dir"%string = Some (PStr prep) /\
    fs f = ensure_dir prep (fs f0) /\
    locals f =
      <["label_val" := PArr label_val]> (<["label_train" := PArr label_train]>
      (<["x_val" := PArr x_val]> (<["x_train" := PArr x_train]>
      (<["label_data" := PArr label_data]> (<["x_data" := PArr x_data]>
      (<["y_hard" := PArr y_hard]> (<["x_hard" := PArr x_hard]>
      (<["y_medium" := PArr y_medium]> (<["x_medium" := PArr x_medium]>
      (<["y_easy" := PArr y_easy]> (<["x_easy" := PArr x_easy]>
      (<["y_real" := PArr y_real]> (<["x_real" := PArr x_real]>
      (locals f0)))))))))))))).
Proof.
  unfold load_and_split. intros Hb.
  apply bind_Ok in Hb as ([] & f1 & H1 & Hb). apply assign_npz_Ok in H1 as [x_real ->].
  apply bind_Ok in Hb as ([] & f2 & H2 & Hb). apply assign_npy_Ok in H2 as [y_real ->].
  apply bind_Ok in Hb as ([] & f3 & H3 & Hb). apply assign_npz_Ok in H3 as [x_easy ->].
  apply bind_Ok in Hb as ([] & f4 & H4 & Hb). apply assign_npy_Ok in H4 as [y_easy ->].
  apply bind_Ok in Hb as ([] & f5 & H5 & Hb). apply assign_npz_Ok in H5 as [x_medium ->].
  apply bind_Ok in Hb as ([] & f6 & H6 & Hb). apply assign_npy_Ok in H6 as [y_medium ->].
  apply bind_Ok in Hb as ([] & f7 & H7 & Hb). apply assign_npz_Ok in H7 as [x_hard ->].
  apply bind_Ok in Hb as ([] & f8 & H8 & Hb). apply assign_npy_Ok in H8 as [y_hard ->].
  simpl locals in Hb. simpl fs in Hb.
  apply bind_Ok in Hb as (xe & f9 & H9 & Hb). apply array_name_Ok in H9 as [-> _].
  apply bind_Ok in Hb as (xm & f9 & H9 & Hb). apply array_name_Ok in H9 as [-> _].
  apply bind_Ok in Hb as (xh & f9 & H9 & Hb). apply array_name_Ok in H9 as [-> _].
  apply bind_Ok in Hb as ([] & f9 & H9 & Hb). unfold assign in H9. injection H9 as <-.
  apply bind_Ok in Hb as (ye & f9 & H9 & Hb). apply array_name_Ok in H9 as [-> _].
  apply bind_Ok in Hb as (ym & f9 & H9 & Hb). apply array_name_Ok in H9 as [-> _].
  apply bind_Ok in Hb as (yh & f9 & H9 & Hb). apply array_name_Ok in H9 as [-> _].
  apply bind_Ok in Hb as ([] & f9 & H9 & Hb). unfold assign in H9. injection H9 as <-.
  apply bind_Ok in Hb as (xd & f9 & H9 & Hb). apply array_name_Ok in H9 as [-> _].
  apply bind_Ok in Hb as (ld & f9 & H9 & Hb). apply array_name_Ok in H9 as [-> _].
  destruct (Sklearn.train_test_split xd ld (1 # 10) None arrangement)
    as [[[[x_train x_val] label_train] label_val]|e]; [|discriminate].
  apply bind_Ok in Hb as ([] & f9 & H9 & Hb). unfold assign in H9. injection H9 as <-.
  apply bind_Ok in Hb as ([] & f9 & H9 & Hb). unfold assign in H9. injection H9 as <-.
  apply bind_Ok in Hb as ([] & f9 & H9 & Hb). unfold assign in H9. injection H9 as <-.
  apply bind_Ok in Hb as ([] & f9 & H9 & Hb). unfold assign in H9. injection H9 as <-.
  apply bind_Ok in Hb as ([] & f9 & H9 & Hb). apply print2_Ok in H9 as ->.
  apply bind_Ok in Hb as ([] & f9 & H9 & Hb). apply print2_Ok in H9 as ->.
  apply bind_Ok in Hb as ([] & f9 & H9 & Hb). apply print2_Ok in H9 as ->.
  apply bind_Ok in Hb as ([] & f9 & H9 & Hb). apply print2_Ok in H9 as ->.
  apply bind_Ok in Hb as (prep & f9 & H9 & Hb). apply string_name_Ok in H9 as [-> Hprep].
  unfold update_fs in Hb. injection Hb as <-. simpl in *.
  exists x_real, y_real, x_easy, y_easy, x_medium, y_medium, x_hard, y_hard,
    (xe ++ xm ++ xh), (ye ++ ym ++ yh), x_train, x_val, label_train, label_val, prep.
  split; [exact Hprep|]. split; reflexivity.
Qed.

(** The frame in which the saves start: the output path and the training
    images are bound, the misspelt name is not, and the file system has
    gained the output directory only. *)
Lemma load_and_split_frame data_dir prep_data_dir arrangement w f :
  load_and_split arrangement (call_frame data_dir prep_data_dir w) = (Ok tt, f) ->
  locals f !! "prep_data_dir"%string = Some (PStr prep_data_dir) /\
  (exists x_train, locals f !! "x_train"%string = Some (PArr x_train)) /\
  locals f !! "laWhatWhatbel_train"%string = None /\
  fs f = ensure_dir prep_data_dir w.
Proof.
  intros Hload.
  apply load_and_split_Ok in Hload
    as (x_real & y_real & x_easy & y_easy & x_medium & y_medium & x_hard
        & y_hard & x_data & label_data & x_train & x_val & label_train
        & label_val & prep & Hprep & Hfs & Hlocals).
  assert (Hp : prep = prep_data_dir).
  { rewrite Hlocals in Hprep. simpl in Hprep.
    rewrite !lookup_insert_ne in Hprep by discriminate.
    rewrite lookup_insert_eq in Hprep. congruence. }
  subst prep. split; [assumption|]. split; [|split; [|assumption]].
  - exists x_train. rewrite Hlocals.
    rewrite !lookup_insert_ne by discriminate. apply lookup_insert_eq.
  - rewrite Hlocals. simpl.
    rewrite !lookup_insert_ne by discriminate. apply lookup_empty.
Qed.

(** In such a frame the first save raises while its arguments are
    evaluated, and the frame is left as it was. *)
Lemma save_bundles_raises f prep x_train :
  locals f !! "prep_data_dir"%string = Some (PStr prep) ->
  locals f !! "x_train"%string = Some (PArr x_train) ->
  locals f !! "laWhatWhatbel_train"%string = None ->
  save_bundles f = (Raise (NameError "laWhatWhatbel_train"), f).
Proof.
  intros Hprep Hx Hn.
  unfold save_bundles, savez, bind, string_name, array_name, bind,
    lookup_name, ret.
  rewrite Hprep, Hx, Hn. reflexivity.
Qed.

(** C3: whenever the statements before the saves complete, the first
    [np.savez] raises [NameError] for the misspelt name
    [laWhatWhatbel_train] before anything is written: the step ends with
    that fault, the only change to the file system is the output
    directory, and none of the three bundles is written. *)
Theorem preprocess_data_name_error data_dir prep_data_dir arrangement w f :
  load_and_split arrangement (call_frame data_dir prep_data_dir w) = (Ok tt, f) ->
  preprocess_data data_dir prep_data_dir arrangement w
  = (Raise (NameError "laWhatWhatbel_train"), ensure_dir prep_data_dir w) /\
  forall file,
    ensure_dir prep_data_dir w !! ("/" +:+ prep_data_dir +:+ "/" +:+ file)
    = w !! ("/" +:+ prep_data_dir +:+ "/" +:+ file).
Proof.
  intros Hload. split.
  - unfold preprocess_data, preprocess_data_body.
    unfold bind at 1. rewrite Hload.
    apply load_and_split_frame in Hload as (Hprep & [x_train Hx] & Hn & Hfs).
    rewrite (save_bundles_raises f _ _ Hprep Hx Hn). by rewrite Hfs.
  - intros file. unfold ensure_dir.
    destruct (w !! prep_data_dir); [reflexivity|].
    apply lookup_insert_ne. intros Heq. symmetry in Heq.
    by apply path_inside_ne in Heq.
Qed.

(** On no input does the step complete. *)
Lemma preprocess_data_never_completes data_dir prep_data_dir arrangement w :
  fst (preprocess_data data_dir prep_data_dir arrangement w) <> Ok tt.
Proof.
  unfold preprocess_data, preprocess_data_body. unfold bind at 1.
  destruct (load_and_split arrangement (call_frame data_dir prep_data_dir w))
    as [[[]|e] f] eqn:Hload; [|discriminate].
  apply load_and_split_frame in Hload as (Hprep & [x_train Hx] & Hn & _).
  rewrite (save_bundles_raises f _ _ Hprep Hx Hn). discriminate.
Qed.

End FingerprintPreprocess.

(** ** scikit-learn: the sizes and the rows of a split *)

Section SklearnFacts.
Import Sklearn.

Lemma validate_shuffle_split_Ok (n_samples : nat) (test_size : Q)
    (n_train n_test : nat) :
  validate_shuffle_split n_samples test_size = Ok (n_train, n_test) ->
  Z.of_nat n_test = Qceiling (test_size * inject_Z (Z.of_nat n_samples)) /\
  n_train + n_test = n_samples /\ 0 < n_train.
Proof.
  unfold validate_shuffle_split.
  destruct (Qlt_le_dec 0 test_size) as [Hpos|]; [|discriminate].
  destruct (Qlt_le_dec test_size 1) as [Hlt|]; [|discriminate].
  set (c := Qceiling (test_size * inject_Z (Z.of_nat n_samples))).
  destruct (n_samples - Z.to_nat c =? 0) eqn:Hz; [discriminate|].
  intros [= <- <-]. apply Nat.eqb_neq in Hz.
  assert (Hn : (0 <= inject_Z (Z.of_nat n_samples))%Q).
  { rewrite <- (Zle_Qle 0). lia. }
  assert (Hc0 : (0 <= c)%Z).
  { rewrite <- (Qceiling_Z 0). apply Qceiling_resp_le.
    apply Qmult_le_0_compat; [by apply Qlt_le_weak|assumption]. }
  split; [lia|]. split; lia.
Qed.

(** A fraction strictly between zero and one leaves a train fold as soon
    as [test_size * n <= n - 1]. *)
Lemma validate_shuffle_split_returns (n_samples : nat) (test_size : Q) :
  (0 < test_size)%Q -> (test_size < 1)%Q ->
  (test_size * inject_Z (Z.of_nat n_samples)
   <= inject_Z (Z.of_nat n_samples - 1))%Q ->
  exists n_train n_test,
    validate_shuffle_split n_samples test_size = Ok (n_train, n_test).
Proof.
  intros Hpos Hlt Hroom. unfold validate_shuffle_split.
  destruct (Qlt_le_dec 0 test_size) as [_|Hle];
    [|exfalso; by apply (Qlt_not_le _ _ Hpos)].
  destruct (Qlt_le_dec test_size 1) as [_|Hle];
    [|exfalso; by apply (Qlt_not_le _ _ Hlt)].
  set (c := Qceiling (test_size * inject_Z (Z.of_nat n_samples))).
  assert (Hc : (c <= Z.of_nat n_samples - 1)%Z).
  { rewrite <- (Qceiling_Z (Z.of_nat n_samples - 1)).
    by apply Qceiling_resp_le. }
  assert (Hc0 : (0 <= c)%Z).
  { rewrite <- (Qceiling_Z 0). apply Qceiling_resp_le.
    apply Qmult_le_0_compat; [by apply Qlt_le_weak|].
    rewrite <- (Zle_Qle 0). lia. }
  destruct (n_samples - Z.to_nat c =? 0) eqn:Hz; [|eauto].
  apply Nat.eqb_eq in Hz. lia.
Qed.

(** For the fractions of the notebooks two rows are enough. *)
Lemma split_fractions_leave_room (n : nat) :
  2 <= n ->
  ((40 # 100) * inject_Z (Z.of_nat n) <= inject_Z (Z.of_nat n - 1))%Q /\
  ((2 # 10) * inject_Z (Z.of_nat n) <= inject_Z (Z.of_nat n - 1))%Q.
Proof.
  intros Hn. unfold Qle, Qmult, inject_Z. simpl. lia.
Qed.

(** The test fold has [ceil(test_size * n)] rows, which is the floor or
    the ceiling of [test_size * n]. *)
Lemma ceiling_within_rounding (q : Q) (k : nat) :
  Z.of_nat k = Qceiling q ->
  (Qfloor q <= Z.of_nat k <= Qceiling q)%Z.
Proof.
  intros ->. split; [|lia].
  rewrite Zle_Qle. apply Qle_floor_ceiling.
Qed.

Lemma safe_indexing_Ok {A : Type} (a : list A) (indices : list nat)
    (rows : list A) :
  safe_indexing a indices = Ok rows ->
  Forall2 (fun i row => a !! i = Some row) indices rows.
Proof.
  unfold safe_indexing.
  destruct (mapM (fun i => a !! i) indices) as [r|] eqn:Hm; [|discriminate].
  intros [= <-]. by apply mapM_Some_1.
Qed.

Lemma safe_indexing_in_range {A : Type} (a : list A) (indices : list nat) :
  Forall (fun i => i < length a) indices ->
  exists rows, safe_indexing a indices = Ok rows.
Proof.
  intros Hall. unfold safe_indexing.
  destruct (mapM (fun i => a !! i) indices) as [r|] eqn:Hm; [eauto|].
  apply mapM_None_1 in Hm. apply Exists_exists in Hm as (i & Hi & Hnone).
  rewrite Forall_forall in Hall. specialize (Hall i Hi).
  apply lookup_ge_None_1 in Hnone. lia.
Qed.

(** What a split returns: two folds of row indices, disjoint segments of
    the arrangement, of the sizes [_validate_shuffle_split] computes; the
    rows of both arrays are taken at the same indices. *)
Lemma train_test_split_Ok {A B C : Type} `{EqDecision C}
    (X : list A) (y : list B) (test_size : Q) (stratify : option (list C))
    (arrangement : list nat) X_train X_test y_train y_test :
  train_test_split X y test_size stratify arrangement
  = Ok (X_train, X_test, y_train, y_test) ->
  length X = length y /\
  exists n_train n_test,
    validate_shuffle_split (length X) test_size = Ok (n_train, n_test) /\
    let test := slice 0 n_test arrangement in
    let train := slice n_test (n_test + n_train) arrangement in
    Forall2 (fun i row => X !! i = Some row) train X_train /\
    Forall2 (fun i row => y !! i = Some row) train y_train /\
    Forall2 (fun i row => X !! i = Some row) test X_test /\
    Forall2 (fun i row => y !! i = Some row) test y_test.
Proof.
  unfold train_test_split.
  destruct (length X =? length y) eqn:Hlen; simpl; [|discriminate].
  apply Nat.eqb_eq in Hlen.
  destruct (validate_shuffle_split (length X) test_size)
    as [[n_train n_test]|e] eqn:Hv; [|discriminate].
  match goal with |- context [match ?c with Ok _ => _ | Raise _ => _ end] =>
    destruct c as [[]|e]; [|discriminate] end.
  destruct (safe_indexing X (slice n_test (n_test + n_train) arrangement))
    as [r1|] eqn:H1; [|discriminate].
  destruct (safe_indexing X (slice 0 n_test arrangement))
    as [r2|] eqn:H2; [|discriminate].
  destruct (safe_indexing y (slice n_test (n_test + n_train) arrangement))
    as [r3|] eqn:H3; [|discriminate].
  destruct (safe_indexing y (slice 0 n_test arrangement))
    as [r4|] eqn:H4; [|discriminate].
  intros [= <- <- <- <-]. split; [assumption|].
  exists n_train, n_test. split; [reflexivity|]. simpl.
  auto using safe_indexing_Ok.
Qed.

(** The sizes of the folds when the arrangement orders all the rows. *)
Lemma train_test_split_sizes {A B C : Type} `{EqDecision C}
    (X : list A) (y : list B) (test_size : Q) (stratify : option (list C))
    (arrangement : list nat) X_train X_test y_train y_test :
  train_test_split X y test_size stratify arrangement
  = Ok (X_train, X_test, y_train, y_test) ->
  Permutation arrangement (seq 0 (length X)) ->
  length X_train = length y_train /\ length X_test = length y_test /\
  length X_train + length X_test = length X /\
  Z.of_nat (length X_test)
  = Qceiling (test_size * inject_Z (Z.of_nat (length X))).
Proof.
  intros Hs Hperm.
  apply train_test_split_Ok in Hs
    as (Hlen & n_train & n_test & Hv & Htr & Hytr & Hte & Hyte).
  apply validate_shuffle_split_Ok in Hv as (Hc & Hsum & Hpos).
  apply Permutation_length in Hperm. rewrite length_seq in Hperm.
  apply Forall2_length in Htr, Hytr, Hte, Hyte.
  unfold slice in *. rewrite length_take, length_drop in *.
  split; [lia|]. split; [lia|]. split; [lia|].
  rewrite <- Hc. lia.
Qed.

(** Without [stratify], a split of two rows or more along a permutation
    of the rows returns. *)
Lemma train_test_split_returns {A B : Type}
    (X : list A) (y : list B) (test_size : Q) (arrangement : list nat)
    (n_train n_test : nat) :
  length X = length y ->
  validate_shuffle_split (length X) test_size = Ok (n_train, n_test) ->
  Permutation arrangement (seq 0 (length X)) ->
  exists r, train_test_split X y test_size (@None (list nd)) arrangement = Ok r.
Proof.
  intros Hlen Hv Hperm. unfold train_test_split.
  rewrite Hlen, Nat.eqb_refl. simpl. rewrite <- Hlen, Hv.
  assert (Hrange : Forall (fun i => i < length X) arrangement).
  { rewrite Forall_forall. intros i Hi. rewrite Hperm in Hi.
    apply elem_of_seq in Hi. lia. }
  assert (Hsl : forall a b, Forall (fun i => i < length X) (slice a b arrangement)).
  { intros a b. unfold slice. by apply Forall_take, Forall_drop. }
  destruct (safe_indexing_in_range X _ (Hsl n_test (n_test + n_train))) as [r1 ->].
  destruct (safe_indexing_in_range X _ (Hsl 0 n_test)) as [r2 ->].
  rewrite Hlen in Hsl.
  destruct (safe_indexing_in_range y _ (Hsl n_test (n_test + n_train))) as [r3 ->].
  destruct (safe_indexing_in_range y _ (Hsl 0 n_test)) as [r4 ->].
  eauto.
Qed.

End SklearnFacts.

(** ** The covid notebook: preprocessing *)

Section CovidPreprocess.
Import Covid.
Context `{ImageLibs}.

(** The loop appends one image and one label per qualifying path, in
    the order of the paths. *)
Lemma load_images_Ok w imagePaths :
  forall data labels data' labels',
    load_images w imagePaths data labels = Ok (data', labels') ->
    exists images,
      data' = data ++ images /\
      labels' = labels ++ map label_of (List.filter qualifies imagePaths) /\
      Forall2 (fun p image =>
                 exists raw, imread w p = Some raw /\
                             image = resize_224 (cvtColor_BGR2RGB raw))
        (List.filter qualifies imagePaths) images.
Proof.
  induction imagePaths as [|p rest IH]; intros data labels data' labels'; simpl.
  - intros [= <- <-]. exists []. rewrite !app_nil_r. auto.
  - destruct (parent_label p) as [label|e] eqn:Hp; [|discriminate].
    assert (Hq : qualifies p = retained label)
      by (unfold qualifies; by rewrite Hp).
    assert (Hlab : label_of p = label) by (unfold label_of; by rewrite Hp).
    rewrite Hq. destruct (retained label).
    + destruct (imread w p) as [raw|] eqn:Hi; [|discriminate].
      intros Hrec. apply IH in Hrec as (images & -> & -> & Hall).
      exists (resize_224 (cvtColor_BGR2RGB raw) :: images).
      rewrite <- !app_assoc. simpl. rewrite Hlab.
      split; [reflexivity|]. split; [reflexivity|].
      constructor; [eauto|assumption].
    + intros Hrec. apply IH in Hrec as (images & -> & -> & Hall). eauto.
Qed.

Lemma load_images_returns w imagePaths :
  Forall (fun p => exists label, parent_label p = Ok label) imagePaths ->
  Forall (fun p => qualifies p = true -> is_Some (imread w p)) imagePaths ->
  forall data labels, exists r, load_images w imagePaths data labels = Ok r.
Proof.
  induction imagePaths as [|p rest IH]; intros Hdir Hdec data labels; simpl.
  - eauto.
  - apply Forall_cons in Hdir as [[label Hp] Hdir].
    apply Forall_cons in Hdec as [Hq Hdec].
    unfold qualifies in Hq. rewrite Hp in *.
    destruct (retained label).
    + destruct (Hq eq_refl) as [raw ->]. by apply IH.
    + by apply IH.
Qed.

Lemma LabelBinarizer_length labels y :
  Sklearn.LabelBinarizer_fit_transform labels = Ok y ->
  length y = length labels.
Proof.
  unfold Sklearn.LabelBinarizer_fit_transform.
  destruct labels as [|l labels]; [discriminate|].
  destruct (merge_sort Sklearn.str_le (remove_dups (l :: labels)))
    as [|c1 [|c2 [|c3 cs]]]; intros [= <-]; simpl; by rewrite ?length_map.
Qed.

(** On labels that are not empty the binarizer returns rows that are not
    empty. *)
Lemma LabelBinarizer_returns labels :
  labels <> [] ->
  exists y, Sklearn.LabelBinarizer_fit_transform labels = Ok y /\
            Forall (fun row => row <> []) y.
Proof.
  intros Hne. unfold Sklearn.LabelBinarizer_fit_transform.
  destruct labels as [|l labels]; [done|].
  destruct (merge_sort Sklearn.str_le (remove_dups (l :: labels)))
    as [|c1 [|c2 [|c3 cs]]] eqn:Hs.
  - exfalso.
    assert (Hin : l ∈ merge_sort Sklearn.str_le (remove_dups (l :: labels))).
    { rewrite merge_sort_Permutation. apply elem_of_remove_dups.
      apply list_elem_of_here. }
    rewrite Hs in Hin. by apply not_elem_of_nil in Hin.
  - eexists. split; [reflexivity|]. apply Forall_forall.
    intros row Hrow. apply list_elem_of_fmap in Hrow as (? & -> & _). done.
  - eexists. split; [reflexivity|]. apply Forall_forall.
    intros row Hrow. apply list_elem_of_fmap in Hrow as (? & -> & _). done.
  - eexists. split; [reflexivity|]. apply Forall_forall.
    intros row Hrow. apply list_elem_of_fmap in Hrow as (? & -> & _). done.
Qed.

Lemma to_categorical_length y labels :
  Keras.to_categorical y = Ok labels -> length labels = length y.
Proof.
  unfold Keras.to_categorical. destruct (concat y); [discriminate|].
  destruct (forallb _ y); intros [= <-]; by rewrite length_map.
Qed.

Lemma to_categorical_returns y :
  y <> [] -> Forall (fun row => row <> []) y ->
  exists labels, Keras.to_categorical y = Ok labels.
Proof.
  intros Hne Hrows. unfold Keras.to_categorical.
  destruct y as [|row y]; [done|].
  apply Forall_cons in Hrows as [Hrow _].
  destruct row as [|v row]; [done|]. simpl.
  destruct (_ && _); eauto.
Qed.

(** What a completed run wrote: one data row and one label row per
    qualifying file. *)
Lemma preprocess_data_Ok data_dir prep_dir w w' :
  preprocess_data data_dir prep_dir w = (Ok tt, w') ->
  exists data labels,
    w' = <["/" +:+ prep_dir +:+ "/data.npz" :=
             Npz [("data"%string, data); ("labels"%string, labels)]]>
           (ensure_dir prep_dir w) /\
    length data = length (List.filter qualifies (list_images w data_dir)) /\
    length labels = length (List.filter qualifies (list_images w data_dir)) /\
    Forall2 (fun p row =>
               exists raw, imread w p = Some raw /\
                 row = divide 255 (resize_224 (cvtColor_BGR2RGB raw)))
      (List.filter qualifies (list_images w data_dir)) data.
Proof.
  unfold preprocess_data.
  destruct (load_images w (list_images w data_dir) [] [])
    as [[data labels]|e] eqn:Hl; [|discriminate].
  destruct (Sklearn.LabelBinarizer_fit_transform labels) as [y|e] eqn:Hb;
    [|discriminate].
  destruct (Keras.to_categorical y) as [cat|e] eqn:Hc; [|discriminate].
  intros [= <-].
  apply load_images_Ok in Hl as (images & -> & -> & Hall). simpl in *.
  apply LabelBinarizer_length in Hb. apply to_categorical_length in Hc.
  rewrite length_map in Hb.
  exists (map (divide 255) images), cat.
  split; [reflexivity|]. apply Forall2_length in Hall as Hlen.
  split; [by rewrite length_map|]. split; [congruence|].
  change (map (divide 255) images) with (divide 255 <$> images).
  apply Forall2_fmap_r. eapply Forall2_impl; [exact Hall|].
  intros p image (raw & Hr & ->). eauto.
Qed.

(** Without a qualifying file the label binarizer has no sample and the
    step raises. *)
Lemma preprocess_data_no_qualifying_file data_dir prep_dir w :
  Forall (fun p => exists label, parent_label p = Ok label)
    (list_images w data_dir) ->
  List.filter qualifies (list_images w data_dir) = [] ->
  preprocess_data data_dir prep_dir w = (Raise ValueError, w).
Proof.
  intros Hdir Hnone. unfold preprocess_data.
  assert (Hdec : Forall (fun p => qualifies p = true -> is_Some (imread w p))
                   (list_images w data_dir)).
  { apply Forall_forall. intros p Hp Hq.
    assert (Hin : In p (List.filter qualifies (list_images w data_dir)))
      by (apply filter_In; split; [by apply list_elem_of_In|assumption]).
    rewrite Hnone in Hin. inversion Hin. }
  destruct (load_images_returns w _ Hdir Hdec [] []) as [[data labels] Hl].
  rewrite Hl. apply load_images_Ok in Hl as (images & -> & -> & _).
  rewrite Hnone. reflexivity.
Qed.

(** C5: on a valid input directory the step completes and writes
    [data.npz] with a [data] array and a [labels] array that both have as
    many rows as there are qualifying files, a file qualifying exactly
    when the name of its parent directory is [covid] or [normal]. *)
Theorem preprocess_data_row_count data_dir prep_dir w :
  valid_input w data_dir ->
  exists data labels,
    preprocess_data data_dir prep_dir w
    = (Ok tt,
       <["/" +:+ prep_dir +:+ "/data.npz" :=
           Npz [("data"%string, data); ("labels"%string, labels)]]>
         (ensure_dir prep_dir w)) /\
    length data = length (List.filter qualifies (list_images w data_dir)) /\
    length labels = length (List.filter qualifies (list_images w data_dir)) /\
    forall p, p ∈ list_images w data_dir ->
      (qualifies p = true <->
       exists label, parent_label p = Ok label /\
                     (label = "covid" \/ label = "normal")%string).
Proof.
  intros (Hdir & Hdec & Hsome).
  assert (Hrun : exists w', preprocess_data data_dir prep_dir w = (Ok tt, w')).
  { unfold preprocess_data.
    destruct (load_images_returns w _ Hdir Hdec [] []) as [[data labels] Hl].
    rewrite Hl. apply load_images_Ok in Hl as (images & -> & -> & Hall).
    simpl in *.
    assert (Hne : map label_of (List.filter qualifies (list_images w data_dir))
                  <> []).
    { apply Exists_exists in Hsome as (p & Hp & Hq).
      intros Hnil. apply (f_equal length) in Hnil.
      rewrite length_map in Hnil. simpl in Hnil.
      apply length_zero_iff_nil in Hnil.
      assert (Hin : In p (List.filter qualifies (list_images w data_dir))).
      { apply filter_In. split; [by apply list_elem_of_In|assumption]. }
      rewrite Hnil in Hin. inversion Hin. }
    destruct (LabelBinarizer_returns _ Hne) as (y & Hb & Hrows).
    rewrite Hb.
    assert (Hy : y <> []).
    { apply LabelBinarizer_length in Hb. intros ->. simpl in Hb.
      symmetry in Hb. by apply length_zero_iff_nil in Hb. }
    destruct (to_categorical_returns y Hy Hrows) as [cat Hc].
    rewrite Hc. eauto. }
  destruct Hrun as [w' Hrun].
  destruct (preprocess_data_Ok _ _ _ _ Hrun) as (data & labels & -> & Hd & Hl & _).
  exists data, labels. split; [assumption|]. split; [assumption|].
  split; [assumption|].
  intros p _. unfold qualifies, retained.
  destruct (parent_label p) as [label|e]; split.
  - intros Hq. exists label. split; [reflexivity|].
    apply orb_true_iff in Hq as [Hq|Hq]; apply String.eqb_eq in Hq; auto.
  - intros (l & [= <-] & [->| ->]); reflexivity.
  - discriminate.
  - intros (l & [=] & _).
Qed.

End CovidPreprocess.

Lemma preprocess_data_row_count_witness :
  @Covid.valid_input Samples.image_libs Samples.covid_world "/data" /\
  exists data labels,
    @Covid.preprocess_data Samples.image_libs "/data" "/prep" Samples.covid_world
    = (Ok tt,
       <["/" +:+ "/prep" +:+ "/data.npz" :=
           Npz [("data"%string, data); ("labels"%string, labels)]]>
         (ensure_dir "/prep" Samples.covid_world)) /\
    length data
    = length (List.filter Covid.qualifies
                (@Covid.list_images Samples.image_libs Samples.covid_world "/data")) /\
    length labels
    = length (List.filter Covid.qualifies
                (@Covid.list_images Samples.image_libs Samples.covid_world "/data")) /\
    forall p,
      p ∈ @Covid.list_images Samples.image_libs Samples.covid_world "/data" ->
      (Covid.qualifies p = true <->
       exists label, Covid.parent_label p = Ok label /\
                     (label = "covid" \/ label = "normal")%string).
Proof.
  assert (Hvalid : @Covid.valid_input Samples.image_libs Samples.covid_world
                     "/data").
  { split; [|split].
    - repeat constructor; eexists; reflexivity.
    - repeat constructor; intros _; eexists; reflexivity.
    - constructor. reflexivity. }
  split; [exact Hvalid|].
  exact (@preprocess_data_row_count Samples.image_libs "/data" "/prep"
           Samples.covid_world Hvalid).
Defined.

(** ** The covid and fraud notebooks: the split *)

Section Splits.
Import Covid.

(** What a completed run of the covid split step read and wrote. *)
Lemma traintestsplit_data_Ok prep_dir file_name traintest_dir arrangement w w' :
  traintestsplit_data prep_dir file_name traintest_dir arrangement w = (Ok tt, w') ->
  exists data labels trainX testX trainY testY,
    np_load_key w ("/" +:+ prep_dir +:+ "/data.npz") "data" = Ok data /\
    np_load_key w ("/" +:+ prep_dir +:+ "/data.npz") "labels" = Ok labels /\
    Sklearn.train_test_split data labels (40 # 100) (Some labels) arrangement
    = Ok (trainX, testX, trainY, testY) /\
    w' = np_savez2 ("/" +:+ traintest_dir +:+ "/val_data.npz") testX testY
           (np_savez2 ("/" +:+ traintest_dir +:+ "/train_data.npz")
              trainX trainY (ensure_dir traintest_dir w)).
Proof.
  unfold traintestsplit_data.
  destruct (np_load_key w _ "data") as [data|e] eqn:Hd; [|discriminate].
  destruct (np_load_key w _ "labels") as [labels|e] eqn:Hl; [|discriminate].
  destruct (Sklearn.train_test_split data labels (40 # 100) (Some labels)
              arrangement)
    as [[[[trainX testX] trainY] testY]|e] eqn:Hs; [|discriminate].
  intros [= <-]. exists data, labels, trainX, testX, trainY, testY.
  split; [reflexivity|]. split; [reflexivity|]. split; [exact Hs|]. reflexivity.
Qed.

Section Fraud.
Import Pandas.
Context `{Library}.

Lemma column_length name df values :
  column name df = Ok values -> length values = length (rows df).
Proof.
  unfold column. destruct (column_index name (columns df)); [|discriminate].
  intros [= <-]. by rewrite length_map.
Qed.

Lemma drop_column_length name df df' :
  drop_column name df = Ok df' -> length (rows df') = length (rows df).
Proof.
  unfold drop_column. destruct (column_index name (columns df)); [|discriminate].
  intros [= <-]. simpl. by rewrite length_map.
Qed.

(** What a completed run of the fraud training step read and wrote. *)
Lemma train_model_Ok prep_data_dir model_dir traintest_dir arrangement
    mlp_state w w' :
  Fraud.train_model prep_data_dir model_dir traintest_dir arrangement
    mlp_state w = (Ok tt, w') ->
  exists df X y X_train X_test y_train y_test,
    read_pickle w (prep_data_dir +:+ "/df.pkl") = Ok df /\
    length (rows X) = length (rows df) /\ length y = length (rows df) /\
    Sklearn.train_test_split (rows X) y (2 # 10) (@None (list nd)) arrangement
    = Ok (X_train, X_test, y_train, y_test) /\
    w' = np_savez2 (traintest_dir +:+ "/val_data.npz") (map Arr X_test) y_test
           (np_savez2 (traintest_dir +:+ "/train_data.npz")
              (map Arr X_train) y_train
              (<[model_dir +:+ "/trained_model.sav" :=
                   Blob (MLPClassifier_fit_dumps mlp_state X_train y_train)]>
                 (ensure_dir traintest_dir (ensure_dir model_dir w)))).
Proof.
  unfold Fraud.train_model.
  destruct (read_pickle w _) as [df|e] eqn:Hdf; [|discriminate].
  unfold Fraud.fraud_attribute.
  destruct (column "fraud" df) as [y|e] eqn:Hy; [|discriminate].
  destruct (drop_column "fraud" df) as [X|e] eqn:HX; [|discriminate].
  destruct (Sklearn.train_test_split (rows X) y (2 # 10) None arrangement)
    as [[[[X_train X_test] y_train] y_test]|e] eqn:Hs; [|discriminate].
  intros [= <-]. exists df, X, y, X_train, X_test, y_train, y_test.
  split; [reflexivity|].
  split; [by eapply drop_column_length|].
  split; [by eapply column_length|]. split; [exact Hs|reflexivity].
Qed.

(** The fraud training step completes on a stored frame with a [fraud]
    column and two rows or more. *)
Lemma train_model_returns prep_data_dir model_dir traintest_dir arrangement
    mlp_state w df i :
  read_pickle w (prep_data_dir +:+ "/df.pkl") = Ok df ->
  column_index "fraud" (columns df) = Some i ->
  2 <= length (rows df) ->
  Permutation arrangement (seq 0 (length (rows df))) ->
  exists w', Fraud.train_model prep_data_dir model_dir traintest_dir
               arrangement mlp_state w = (Ok tt, w').
Proof.
  intros Hdf Hcol Hn Hperm. unfold Fraud.train_model, Fraud.fraud_attribute.
  rewrite Hdf. unfold column, drop_column. rewrite Hcol. simpl.
  destruct (validate_shuffle_split_returns (length (rows df)) (2 # 10))
    as (n_train & n_test & Hv); [reflexivity|reflexivity| |].
  { by apply split_fractions_leave_room. }
  destruct (train_test_split_returns (map (delete i) (rows df))
              (map (fun r => default NaN (r !! i)) (rows df)) (2 # 10)
              arrangement n_train n_test)
    as [[[[X_train X_test] y_train] y_test] Hs].
  - by rewrite !length_map.
  - by rewrite length_map.
  - by rewrite length_map.
  - rewrite Hs. eauto.
Qed.

(** The covid split step completes on a stored bundle that passes the
    checks of the splitter. *)
Lemma traintestsplit_data_returns prep_dir file_name traintest_dir arrangement
    w data labels n_train n_test :
  np_load_key w ("/" +:+ prep_dir +:+ "/data.npz") "data" = Ok data ->
  np_load_key w ("/" +:+ prep_dir +:+ "/data.npz") "labels" = Ok labels ->
  length data = length labels ->
  Sklearn.validate_shuffle_split (length data) (40 # 100)
  = Ok (n_train, n_test) ->
  Sklearn.stratified_checks labels n_train n_test = Ok tt ->
  Permutation arrangement (seq 0 (length data)) ->
  exists w', traintestsplit_data prep_dir file_name traintest_dir arrangement w
             = (Ok tt, w').
Proof.
  intros Hd Hl Hlen Hv Hchecks Hperm. unfold traintestsplit_data.
  rewrite Hd, Hl. unfold Sklearn.train_test_split.
  rewrite Hlen, Nat.eqb_refl. simpl. rewrite <- Hlen, Hv, Hchecks.
  assert (Hrange : Forall (fun j => j < length data) arrangement).
  { rewrite Forall_forall. intros j Hj. rewrite Hperm in Hj.
    apply elem_of_seq in Hj. lia. }
  assert (Hsl : forall a b,
             Forall (fun j => j < length data) (slice a b arrangement)).
  { intros a b. unfold slice. by apply Forall_take, Forall_drop. }
  destruct (safe_indexing_in_range data _ (Hsl n_test (n_test + n_train)))
    as [r1 ->].
  destruct (safe_indexing_in_range data _ (Hsl 0 n_test)) as [r2 ->].
  rewrite Hlen in Hsl.
  destruct (safe_indexing_in_range labels _ (Hsl n_test (n_test + n_train)))
    as [r3 ->].
  destruct (safe_indexing_in_range labels _ (Hsl 0 n_test)) as [r4 ->].
  eauto.
Qed.

(** C4: a completed covid split step (test fraction 0.40) and a completed
    fraud training step (test fraction 0.2), run on [n] rows with an
    arrangement of those rows, write a train bundle and a validation
    bundle whose sizes sum to [n]; the validation bundle has
    [ceil(f * n)] rows, which lies between the floor and the ceiling of
    [f * n]. *)
Theorem split_sizes :
  (forall prep_dir file_name traintest_dir arrangement w w' data,
     np_load_key w ("/" +:+ prep_dir +:+ "/data.npz") "data" = Ok data ->
     Permutation arrangement (seq 0 (length data)) ->
     traintestsplit_data prep_dir file_name traintest_dir arrangement w
     = (Ok tt, w') ->
     exists trainX testX trainY testY,
       w' = np_savez2 ("/" +:+ traintest_dir +:+ "/val_data.npz") testX testY
              (np_savez2 ("/" +:+ traintest_dir +:+ "/train_data.npz")
                 trainX trainY (ensure_dir traintest_dir w)) /\
       length trainX = length trainY /\ length testX = length testY /\
       length trainX + length testX = length data /\
       Z.of_nat (length testX)
       = Qceiling ((40 # 100) * inject_Z (Z.of_nat (length data))) /\
       (Qfloor ((40 # 100) * inject_Z (Z.of_nat (length data)))
        <= Z.of_nat (length testX)
        <= Qceiling ((40 # 100) * inject_Z (Z.of_nat (length data))))%Z) /\
  (forall prep_data_dir model_dir traintest_dir arrangement mlp_state w w' df,
     read_pickle w (prep_data_dir +:+ "/df.pkl") = Ok df ->
     Permutation arrangement (seq 0 (length (rows df))) ->
     Fraud.train_model prep_data_dir model_dir traintest_dir arrangement
       mlp_state w = (Ok tt, w') ->
     exists X_train X_test y_train y_test,
       w' = np_savez2 (traintest_dir +:+ "/val_data.npz")
              (map Arr X_test) y_test
              (np_savez2 (traintest_dir +:+ "/train_data.npz")
                 (map Arr X_train) y_train
                 (<[model_dir +:+ "/trained_model.sav" :=
                      Blob (MLPClassifier_fit_dumps mlp_state X_train y_train)]>
                    (ensure_dir traintest_dir (ensure_dir model_dir w)))) /\
       length (map Arr X_train) = length y_train /\
       length (map Arr X_test) = length y_test /\
       length (map Arr X_train) + length (map Arr X_test) = length (rows df) /\
       Z.of_nat (length (map Arr X_test))
       = Qceiling ((2 # 10) * inject_Z (Z.of_nat (length (rows df)))) /\
       (Qfloor ((2 # 10) * inject_Z (Z.of_nat (length (rows df))))
        <= Z.of_nat (length (map Arr X_test))
        <= Qceiling ((2 # 10) * inject_Z (Z.of_nat (length (rows df)))))%Z).
Proof.
  split.
  - intros prep_dir file_name traintest_dir arrangement w w' data Hdata Hperm Hrun.
    apply traintestsplit_data_Ok in Hrun
      as (data0 & labels & trainX & testX & trainY & testY & Hd & _ & Hs & ->).
    rewrite Hdata in Hd. injection Hd as <-.
    apply train_test_split_sizes in Hs as (H1 & H2 & H3 & H4); [|assumption].
    exists trainX, testX, trainY, testY.
    split; [reflexivity|]. split; [assumption|]. split; [assumption|].
    split; [assumption|]. split; [assumption|].
    by apply ceiling_within_rounding.
  - intros prep_data_dir model_dir traintest_dir arrangement mlp_state w w' df
      Hdf Hperm Hrun.
    apply train_model_Ok in Hrun
      as (df0 & X & y & X_train & X_test & y_train & y_test
          & Hd & HX & Hy & Hs & ->).
    rewrite Hdf in Hd. injection Hd as <-.
    apply train_test_split_sizes in Hs as (H1 & H2 & H3 & H4);
      [|by rewrite HX].
    rewrite HX in H3, H4.
    exists X_train, X_test, y_train, y_test. rewrite !length_map.
    split; [reflexivity|]. split; [assumption|]. split; [assumption|].
    split; [assumption|]. split; [assumption|].
    by apply ceiling_within_rounding.
Qed.

End Fraud.

End Splits.

Lemma split_sizes_witness :
  (np_load_key Samples.covid_prep_world ("/" +:+ "/prep" +:+ "/data.npz") "data"
   = Ok Samples.covid_data /\
   Permutation [3; 0; 2; 1] (seq 0 (length Samples.covid_data)) /\
   Covid.traintestsplit_data "/prep" "data.zip" "/traintest" [3; 0; 2; 1]
     Samples.covid_prep_world = (Ok tt, Samples.covid_split_world) /\
   exists trainX testX trainY testY,
     Samples.covid_split_world
     = np_savez2 ("/" +:+ "/traintest" +:+ "/val_data.npz") testX testY
         (np_savez2 ("/" +:+ "/traintest" +:+ "/train_data.npz")
            trainX trainY (ensure_dir "/traintest" Samples.covid_prep_world)) /\
     length trainX = length trainY /\ length testX = length testY /\
     length trainX + length testX = length Samples.covid_data /\
     Z.of_nat (length testX)
     = Qceiling ((40 # 100) * inject_Z (Z.of_nat (length Samples.covid_data))) /\
     (Qfloor ((40 # 100) * inject_Z (Z.of_nat (length Samples.covid_data)))
      <= Z.of_nat (length testX)
      <= Qceiling ((40 # 100) * inject_Z (Z.of_nat (length Samples.covid_data))))%Z)
  /\
  (@Pandas.read_pickle Samples.pandas_lib Samples.fraud_world
     ("/prep" +:+ "/df.pkl") = Ok (Samples.frame_of "abcdefg") /\
   Permutation [6; 5; 4; 3; 2; 1; 0]
     (seq 0 (length (Pandas.rows (Samples.frame_of "abcdefg")))) /\
   @Fraud.train_model Samples.pandas_lib "/prep" "/model" "/traintest"
     [6; 5; 4; 3; 2; 1; 0] 0%N Samples.fraud_world
   = (Ok tt, Samples.fraud_split_world) /\
   exists X_train X_test y_train y_test,
     Samples.fraud_split_world
     = np_savez2 ("/traintest" +:+ "/val_data.npz") (map Arr X_test) y_test
         (np_savez2 ("/traintest" +:+ "/train_data.npz")
            (map Arr X_train) y_train
            (<["/model" +:+ "/trained_model.sav" :=
                 Blob (@Pandas.MLPClassifier_fit_dumps Samples.pandas_lib
                         0%N X_train y_train)]>
               (ensure_dir "/traintest" (ensure_dir "/model" Samples.fraud_world)))) /\
     length (map Arr X_train) = length y_train /\
     length (map Arr X_test) = length y_test /\
     length (map Arr X_train) + length (map Arr X_test)
     = length (Pandas.rows (Samples.frame_of "abcdefg")) /\
     Z.of_nat (length (map Arr X_test))
     = Qceiling ((2 # 10) * inject_Z (Z.of_nat
                   (length (Pandas.rows (Samples.frame_of "abcdefg"))))) /\
     (Qfloor ((2 # 10) * inject_Z (Z.of_nat
                (length (Pandas.rows (Samples.frame_of "abcdefg")))))
      <= Z.of_nat (length (map Arr X_test))
      <= Qceiling ((2 # 10) * inject_Z (Z.of_nat
                     (length (Pandas.rows (Samples.frame_of "abcdefg"))))))%Z).
Proof.
  assert (H1 : np_load_key Samples.covid_prep_world
                 ("/" +:+ "/prep" +:+ "/data.npz") "data"
               = Ok Samples.covid_data) by (vm_compute; reflexivity).
  assert (H2 : Permutation [3; 0; 2; 1] (seq 0 (length Samples.covid_data)))
    by (apply (bool_decide_unpack _); vm_compute; reflexivity).
  assert (H3 : Covid.traintestsplit_data "/prep" "data.zip" "/traintest"
                 [3; 0; 2; 1] Samples.covid_prep_world
               = (Ok tt, Samples.covid_split_world))
    by (vm_compute; reflexivity).
  assert (H4 : @Pandas.read_pickle Samples.pandas_lib Samples.fraud_world
                 ("/prep" +:+ "/df.pkl") = Ok (Samples.frame_of "abcdefg"))
    by (vm_compute; reflexivity).
  assert (H5 : Permutation [6; 5; 4; 3; 2; 1; 0]
                 (seq 0 (length (Pandas.rows (Samples.frame_of "abcdefg")))))
    by (apply (bool_decide_unpack _); vm_compute; reflexivity).
  assert (H6 : @Fraud.train_model Samples.pandas_lib "/prep" "/model"
                 "/traintest" [6; 5; 4; 3; 2; 1; 0] 0%N Samples.fraud_world
               = (Ok tt, Samples.fraud_split_world))
    by (vm_compute; reflexivity).
  split.
  - split; [exact H1|]. split; [exact H2|]. split; [exact H3|].
    exact (proj1 (@split_sizes Samples.pandas_lib) _ _ _ _ _ _ _ H1 H2 H3).
  - split; [exact H4|]. split; [exact H5|]. split; [exact H6|].
    exact (proj2 (@split_sizes Samples.pandas_lib) _ _ _ _ _ _ _ _ H4 H5 H6).
Defined.

(** ** The covid notebook: rows stay aligned *)

Section CovidAlignment.
Import Covid.
Context `{ImageLibs}.

(** C7: the bundle a completed preprocessing step writes has a [data]
    and a [labels] array of equal length, one label row per retained
    image; the two bundles a completed split step writes each hold the
    feature rows and the label rows found at the same row indices of the
    input arrays, in the same order, so each bundle has as many labels as
    features. *)
Theorem bundles_keep_rows_aligned :
  (forall data_dir prep_dir w w',
     preprocess_data data_dir prep_dir w = (Ok tt, w') ->
     exists data labels,
       w' !! ("/" +:+ prep_dir +:+ "/data.npz")
       = Some (Npz [("data"%string, data); ("labels"%string, labels)]) /\
       length data = length labels /\
       length labels
       = length (List.filter qualifies (list_images w data_dir))) /\
  (forall prep_dir file_name traintest_dir arrangement w w',
     traintestsplit_data prep_dir file_name traintest_dir arrangement w
     = (Ok tt, w') ->
     exists data labels train test trainX testX trainY testY,
       np_load_key w ("/" +:+ prep_dir +:+ "/data.npz") "data" = Ok data /\
       np_load_key w ("/" +:+ prep_dir +:+ "/data.npz") "labels" = Ok labels /\
       w' = np_savez2 ("/" +:+ traintest_dir +:+ "/val_data.npz") testX testY
              (np_savez2 ("/" +:+ traintest_dir +:+ "/train_data.npz")
                 trainX trainY (ensure_dir traintest_dir w)) /\
       Forall2 (fun i row => data !! i = Some row) train trainX /\
       Forall2 (fun i row => labels !! i = Some row) train trainY /\
       Forall2 (fun i row => data !! i = Some row) test testX /\
       Forall2 (fun i row => labels !! i = Some row) test testY /\
       length trainX = length trainY /\ length testX = length testY).
Proof.
  split.
  - intros data_dir prep_dir w w' Hrun.
    apply preprocess_data_Ok in Hrun as (data & labels & -> & Hd & Hl & _).
    exists data, labels. split; [apply lookup_insert_eq|].
    split; [congruence|assumption].
  - intros prep_dir file_name traintest_dir arrangement w w' Hrun.
    apply traintestsplit_data_Ok in Hrun
      as (data & labels & trainX & testX & trainY & testY & Hd & Hl & Hs & ->).
    apply train_test_split_Ok in Hs
      as (_ & n_train & n_test & _ & Htr & Hytr & Hte & Hyte).
    exists data, labels, (slice n_test (n_test + n_train) arrangement),
      (slice 0 n_test arrangement), trainX, testX, trainY, testY.
    split; [assumption|]. split; [assumption|]. split; [reflexivity|].
    split; [assumption|]. split; [assumption|].
    split; [assumption|]. split; [assumption|].
    apply Forall2_length in Htr, Hytr, Hte, Hyte. split; congruence.
Qed.

End CovidAlignment.

Lemma bundles_keep_rows_aligned_witness :
  (@Covid.preprocess_data Samples.image_libs "/data" "/prep" Samples.covid_world
   = (Ok tt, Samples.covid_prep_world) /\
   exists data labels,
     Samples.covid_prep_world !! ("/" +:+ "/prep" +:+ "/data.npz")
     = Some (Npz [("data"%string, data); ("labels"%string, labels)]) /\
     length data = length labels /\
     length labels
     = length (List.filter Covid.qualifies
                 (@Covid.list_images Samples.image_libs Samples.covid_world
                    "/data"))) /\
  (Covid.traintestsplit_data "/prep" "data.zip" "/traintest" [3; 0; 2; 1]
     Samples.covid_prep_world = (Ok tt, Samples.covid_split_world) /\
   exists data labels train test trainX testX trainY testY,
     np_load_key Samples.covid_prep_world ("/" +:+ "/prep" +:+ "/data.npz")
       "data" = Ok data /\
     np_load_key Samples.covid_prep_world ("/" +:+ "/prep" +:+ "/data.npz")
       "labels" = Ok labels /\
     Samples.covid_split_world
     = np_savez2 ("/" +:+ "/traintest" +:+ "/val_data.npz") testX testY
         (np_savez2 ("/" +:+ "/traintest" +:+ "/train_data.npz")
            trainX trainY (ensure_dir "/traintest" Samples.covid_prep_world)) /\
     Forall2 (fun i row => data !! i = Some row) train trainX /\
     Forall2 (fun i row => labels !! i = Some row) train trainY /\
     Forall2 (fun i row => data !! i = Some row) test testX /\
     Forall2 (fun i row => labels !! i = Some row) test testY /\
     length trainX = length trainY /\ length testX = length testY).
Proof.
  assert (H1 : @Covid.preprocess_data Samples.image_libs "/data" "/prep"
                 Samples.covid_world = (Ok tt, Samples.covid_prep_world))
    by (vm_compute; reflexivity).
  assert (H2 : Covid.traintestsplit_data "/prep" "data.zip" "/traintest"
                 [3; 0; 2; 1] Samples.covid_prep_world
               = (Ok tt, Samples.covid_split_world))
    by (vm_compute; reflexivity).
  split.
  - split; [exact H1|].
    exact (proj1 (@bundles_keep_rows_aligned Samples.image_libs) _ _ _ _ H1).
  - split; [exact H2|].
    exact (proj2 (@bundles_keep_rows_aligned Samples.image_libs) _ _ _ _ _ _ H2).
Defined.

(** The fingerprint preprocessing step on files that load and split. *)
Lemma preprocess_data_name_error_witness :
  Fingerprint.load_and_split [2; 0; 1]
    (Fingerprint.call_frame "/in" "/out" Samples.fingerprint_world)
  = (Ok tt,
     snd (Fingerprint.load_and_split [2; 0; 1]
            (Fingerprint.call_frame "/in" "/out" Samples.fingerprint_world))) /\
  (Fingerprint.preprocess_data "/in" "/out" [2; 0; 1] Samples.fingerprint_world
   = (Raise (NameError "laWhatWhatbel_train"),
      ensure_dir "/out" Samples.fingerprint_world) /\
   forall file,
     ensure_dir "/out" Samples.fingerprint_world
       !! ("/" +:+ "/out" +:+ "/" +:+ file)
     = Samples.fingerprint_world !! ("/" +:+ "/out" +:+ "/" +:+ file)).
Proof.
  assert (H1 : Fingerprint.load_and_split [2; 0; 1]
                 (Fingerprint.call_frame "/in" "/out" Samples.fingerprint_world)
               = (Ok tt,
                  snd (Fingerprint.load_and_split [2; 0; 1]
                         (Fingerprint.call_frame "/in" "/out"
                            Samples.fingerprint_world))))
    by (vm_compute; reflexivity).
  split; [exact H1|].
  exact (preprocess_data_name_error "/in" "/out" [2; 0; 1]
           Samples.fingerprint_world _ H1).
Defined.

(** ** The insurance and fraud notebooks: preprocessing reads its input only *)

Section Determinism.
Import Pandas.
Context `{Library}.


End Determinism.


(** ** The pipeline graphs *)

Section PipelineGraphs.
Import Kfp.
Variables download_and_extract_comp convert_model_to_onnx_comp
          upload_model_comp deploy_model_with_kserve_comp : component.

Lemma pipeline_bind_Ok {A B : Type} (m : Pipeline A) (k : A -> Pipeline B)
    ops b ops' :
  bind m k ops = (Ok b, ops') ->
  exists a ops1, m ops = (Ok a, ops1) /\ k a ops1 = (Ok b, ops').
Proof.
  unfold bind. destruct (m ops) as [[a|e] ops1]; [eauto|discriminate].
Qed.

Lemma outputs_Ok task key ops p ops' :
  outputs task key ops = (Ok p, ops') ->
  ops' = ops /\ p = {| name := key; op_name := Some task |}.
Proof.
  unfold outputs. destruct (ops !! task) as [op|]; [|discriminate].
  destruct (existsb _ _); [|discriminate]. intros [= <- <-]. auto.
Qed.

Lemma output_Ok task ops p ops' :
  output task ops = (Ok p, ops') ->
  ops' = ops /\ exists key, p = {| name := key; op_name := Some task |}.
Proof.
  unfold output. destruct (ops !! task) as [op|]; [|discriminate].
  destruct (comp_outputs (op_component op)) as [|key [|key' keys]];
    [discriminate| |discriminate].
  intros [= <- <-]. eauto.
Qed.

Ltac pipeline_step H :=
  let Hs := fresh "Hs" in
  apply pipeline_bind_Ok in H as (? & ? & Hs & H);
  first
    [ apply outputs_Ok in Hs as [-> ->]
    | apply output_Ok in Hs as [-> [? ->]]
    | unfold call in Hs; injection Hs as <- <-
    | unfold set_gpu_limit in Hs; injection Hs as <-
    | unfold after in Hs; injection Hs as <- ].

(** The tasks of the covid pipeline, numbered in order of creation:
    0 download, 1 preprocess, 2 split, 3 train, 4 evaluate, 5 confusion
    matrix, 6 convert, 7 upload, 8 deploy. *)
Lemma covid_pipeline_edges ops :
  build (Covid.covid19_lung_classification_pipeline download_and_extract_comp
           convert_model_to_onnx_comp upload_model_comp
           deploy_model_with_kserve_comp) = Ok ops ->
  data_edges ops
  = [(0, 1); (1, 2); (2, 3); (2, 4); (3, 4); (2, 5); (3, 5); (3, 6); (6, 7)] /\
  after_edges ops = [(7, 8)] /\
  length ops = 9 /\
  (exists upload deploy,
     ops !! 7 = Some upload /\ op_component upload = upload_model_comp /\
     ops !! 8 = Some deploy /\
     op_component deploy = deploy_model_with_kserve_comp /\
     producers deploy = [] /\ dependent_names deploy = [7]).
Proof.
  unfold build.
  destruct (Covid.covid19_lung_classification_pipeline _ _ _ _ [])
    as [[[]|e] ops0] eqn:Hb; [|discriminate].
  intros [= <-]. unfold Covid.covid19_lung_classification_pipeline in Hb.
  do 19 pipeline_step Hb.
  unfold after in Hb. injection Hb as <-.
  split; [reflexivity|]. split; [reflexivity|].
  split; [reflexivity|]. eexists _, _. repeat (split; [reflexivity|]).
  reflexivity.
Qed.

(** The tasks of the fingerprint pipeline: 0 download, 1 preprocess,
    2 train, 3 evaluate, 4 convert, 5 upload, 6 deploy. *)
Lemma fingerprint_pipeline_edges ops :
  build (Fingerprint.fingerprint_pipeline download_and_extract_comp
           convert_model_to_onnx_comp upload_model_comp
           deploy_model_with_kserve_comp) = Ok ops ->
  data_edges ops = [(0, 1); (1, 2); (1, 3); (2, 3); (2, 4); (4, 5)] /\
  after_edges ops = [(5, 6)] /\
  length ops = 7 /\
  (exists upload deploy,
     ops !! 5 = Some upload /\ op_component upload = upload_model_comp /\
     ops !! 6 = Some deploy /\
     op_component deploy = deploy_model_with_kserve_comp /\
     producers deploy = [] /\ dependent_names deploy = [5]).
Proof.
  unfold build.
  destruct (Fingerprint.fingerprint_pipeline _ _ _ _ [])
    as [[[]|e] ops0] eqn:Hb; [|discriminate].
  intros [= <-]. unfold Fingerprint.fingerprint_pipeline in Hb.
  do 15 pipeline_step Hb.
  unfold after in Hb. injection Hb as <-.
  split; [reflexivity|]. split; [reflexivity|].
  split; [reflexivity|]. eexists _, _. repeat (split; [reflexivity|]).
  reflexivity.
Qed.

(** C8: in the task graph of the covid pipeline and in that of the
    fingerprint pipeline, as built for any descriptors of the components
    loaded from a URL, exactly one ordering edge does not come from
    passing a task's output to another task: the edge from the upload task
    to the deployment task, which [after] adds.  The deployment task takes
    no output of any task, and [after] on the upload task is its only
    ordering. *)
Theorem pipeline_edges_from_data_but_one :
  (forall ops,
     build (Covid.covid19_lung_classification_pipeline
              download_and_extract_comp convert_model_to_onnx_comp
              upload_model_comp deploy_model_with_kserve_comp) = Ok ops ->
     exists upload_task deploy_task upload deploy,
       ops !! upload_task = Some upload /\
       op_component upload = upload_model_comp /\
       ops !! deploy_task = Some deploy /\
       op_component deploy = deploy_model_with_kserve_comp /\
       producers deploy = [] /\ dependent_names deploy = [upload_task] /\
       after_edges ops = [(upload_task, deploy_task)] /\
       ((upload_task, deploy_task) ∉ data_edges ops) /\
       (forall e, e ∈ edges ops ->
          (e ∈ data_edges ops) \/ e = (upload_task, deploy_task)) /\
       length (edges ops) = S (length (data_edges ops))) /\
  (forall ops,
     build (Fingerprint.fingerprint_pipeline
              download_and_extract_comp convert_model_to_onnx_comp
              upload_model_comp deploy_model_with_kserve_comp) = Ok ops ->
     exists upload_task deploy_task upload deploy,
       ops !! upload_task = Some upload /\
       op_component upload = upload_model_comp /\
       ops !! deploy_task = Some deploy /\
       op_component deploy = deploy_model_with_kserve_comp /\
       producers deploy = [] /\ dependent_names deploy = [upload_task] /\
       after_edges ops = [(upload_task, deploy_task)] /\
       ((upload_task, deploy_task) ∉ data_edges ops) /\
       (forall e, e ∈ edges ops ->
          (e ∈ data_edges ops) \/ e = (upload_task, deploy_task)) /\
       length (edges ops) = S (length (data_edges ops))).
Proof.
  split; intros ops Hb.
  - apply covid_pipeline_edges in Hb
      as (Hd & Ha & _ & upload & deploy & H7 & Hu & H8 & Hdp & Hp & Hdn).
    exists 7, 8, upload, deploy.
    repeat (split; [assumption|]).
    split; [rewrite Hd; apply (bool_decide_unpack _); by vm_compute|].
    split.
    + intros e He. unfold edges in He. apply elem_of_app in He as [He|He];
        [by left|right]. rewrite Ha in He.
      by apply list_elem_of_singleton in He.
    + unfold edges. rewrite length_app, Ha. simpl. lia.
  - apply fingerprint_pipeline_edges in Hb
      as (Hd & Ha & _ & upload & deploy & H7 & Hu & H8 & Hdp & Hp & Hdn).
    exists 5, 6, upload, deploy.
    repeat (split; [assumption|]).
    split; [rewrite Hd; apply (bool_decide_unpack _); by vm_compute|].
    split.
    + intros e He. unfold edges in He. apply elem_of_app in He as [He|He];
        [by left|right]. rewrite Ha in He.
      by apply list_elem_of_singleton in He.
    + unfold edges. rewrite length_app, Ha. simpl. lia.
Qed.

End PipelineGraphs.

Lemma pipeline_edges_from_data_but_one_witness :
  (Kfp.build (Covid.covid19_lung_classification_pipeline
                Samples.download_and_extract_comp
                Samples.convert_model_to_onnx_comp Samples.upload_model_comp
                Samples.deploy_model_with_kserve_comp) = Ok Samples.covid_ops /\
   exists upload_task deploy_task upload deploy,
     Samples.covid_ops !! upload_task = Some upload /\
     Kfp.op_component upload = Samples.upload_model_comp /\
     Samples.covid_ops !! deploy_task = Some deploy /\
     Kfp.op_component deploy = Samples.deploy_model_with_kserve_comp /\
     Kfp.producers deploy = [] /\
     Kfp.dependent_names deploy = [upload_task] /\
     Kfp.after_edges Samples.covid_ops = [(upload_task, deploy_task)] /\
     ((upload_task, deploy_task) ∉ Kfp.data_edges Samples.covid_ops) /\
     (forall e, e ∈ Kfp.edges Samples.covid_ops ->
        (e ∈ Kfp.data_edges Samples.covid_ops)
        \/ e = (upload_task, deploy_task)) /\
     length (Kfp.edges Samples.covid_ops)
     = S (length (Kfp.data_edges Samples.covid_ops))) /\
  (Kfp.build (Fingerprint.fingerprint_pipeline
                Samples.download_and_extract_comp
                Samples.convert_model_to_onnx_comp Samples.upload_model_comp
                Samples.deploy_model_with_kserve_comp)
   = Ok Samples.fingerprint_ops /\
   exists upload_task deploy_task upload deploy,
     Samples.fingerprint_ops !! upload_task = Some upload /\
     Kfp.op_component upload = Samples.upload_model_comp /\
     Samples.fingerprint_ops !! deploy_task = Some deploy /\
     Kfp.op_component deploy = Samples.deploy_model_with_kserve_comp /\
     Kfp.producers deploy = [] /\
     Kfp.dependent_names deploy = [upload_task] /\
     Kfp.after_edges Samples.fingerprint_ops = [(upload_task, deploy_task)] /\
     ((upload_task, deploy_task) ∉ Kfp.data_edges Samples.fingerprint_ops) /\
     (forall e, e ∈ Kfp.edges Samples.fingerprint_ops ->
        (e ∈ Kfp.data_edges Samples.fingerprint_ops)
        \/ e = (upload_task, deploy_task)) /\
     length (Kfp.edges Samples.fingerprint_ops)
     = S (length (Kfp.data_edges Samples.fingerprint_ops))).
Proof.
  assert (H1 : Kfp.build (Covid.covid19_lung_classification_pipeline
                 Samples.download_and_extract_comp
                 Samples.convert_model_to_onnx_comp Samples.upload_model_comp
                 Samples.deploy_model_with_kserve_comp) = Ok Samples.covid_ops)
    by (vm_compute; reflexivity).
  assert (H2 : Kfp.build (Fingerprint.fingerprint_pipeline
                 Samples.download_and_extract_comp
                 Samples.convert_model_to_onnx_comp Samples.upload_model_comp
                 Samples.deploy_model_with_kserve_comp)
               = Ok Samples.fingerprint_ops)
    by (vm_compute; reflexivity).
  split.
  - split; [exact H1|].
    exact (proj1 (pipeline_edges_from_data_but_one _ _ _ _) _ H1).
  - split; [exact H2|].
    exact (proj2 (pipeline_edges_from_data_but_one _ _ _ _) _ H2).
Defined.

(* ===================================================================== *)
(** * Further properties                                                 *)
(* ===================================================================== *)

(** ** The reference dictionary *)

Section ReferenceDictionary.
Import Fingerprint.

Lemma getitem_setitem {V : Type} (k k' : string) (v : V) (d : dict V) :
  getitem k (setitem k' v d) = if String.eqb k' k then Some v else getitem k d.
Proof.
  induction d as [|[k0 v0] d IH]; simpl.
  - reflexivity.
  - destruct (String.eqb k0 k') eqn:E0; simpl.
    + apply String.eqb_eq in E0 as ->. by destruct (String.eqb k' k).
    + destruct (String.eqb k0 k) eqn:E1; [|exact IH].
      apply String.eqb_eq in E1 as ->. by rewrite String.eqb_sym, E0.
Qed.

Lemma make_label_real_dict_snoc (ys : list (list Z)) (y : list Z) :
  make_label_real_dict (ys ++ [y])
  = setitem (label_key y) (length ys) (make_label_real_dict ys).
Proof.
  unfold make_label_real_dict. rewrite imap_app, fold_left_app. simpl.
  by rewrite Nat.add_0_r.
Qed.

(** The entry under a key is the index of the last row with that key. *)
Lemma getitem_make_label_real_dict (y_real : list (list Z)) (k : string) (i : nat) :
  getitem k (make_label_real_dict y_real) = Some i <->
  (exists y, y_real !! i = Some y /\ label_key y = k) /\
  (forall j y', i < j -> y_real !! j = Some y' -> label_key y' <> k).
Proof.
  revert i. induction y_real as [|y ys IH] using rev_ind; intros i.
  - split; [discriminate|]. by intros [(y & Hy & _) _].
  - rewrite make_label_real_dict_snoc, getitem_setitem.
    destruct (String.eqb (label_key y) k) eqn:E.
    + apply String.eqb_eq in E. split.
      * intros [= <-]. split.
        -- exists y. by rewrite list_lookup_middle.
        -- intros j y' Hj Hl. apply lookup_lt_Some in Hl.
           rewrite length_app in Hl. simpl in Hl. lia.
      * intros [(y0 & Hy0 & Hk) Hlast].
        destruct (decide (i = length ys)) as [->|Hne]; [reflexivity|].
        exfalso. assert (Hi : i < length ys).
        { apply lookup_lt_Some in Hy0. rewrite length_app in Hy0.
          simpl in Hy0. lia. }
        apply (Hlast (length ys) y Hi); [|exact E].
        by rewrite list_lookup_middle.
    + apply String.eqb_neq in E. rewrite IH. split.
      * intros [(y0 & Hy0 & Hk) Hlast]. split.
        -- exists y0. split; [|exact Hk]. by apply lookup_app_l_Some.
        -- intros j y' Hj Hl.
           destruct (decide (j < length ys)) as [Hlt|Hge].
           ++ rewrite lookup_app_l in Hl by exact Hlt. by apply (Hlast j).
           ++ assert (j = length ys) as ->.
              { apply lookup_lt_Some in Hl. rewrite length_app in Hl.
                simpl in Hl. lia. }
              rewrite list_lookup_middle in Hl by reflexivity.
              by injection Hl as <-.
      * intros [(y0 & Hy0 & Hk) Hlast].
        assert (Hi : i < length ys).
        { destruct (decide (i = length ys)) as [->|Hne].
          - rewrite list_lookup_middle in Hy0 by reflexivity.
            injection Hy0 as <-. contradiction.
          - apply lookup_lt_Some in Hy0. rewrite length_app in Hy0.
            simpl in Hy0. lia. }
        rewrite lookup_app_l in Hy0 by exact Hi. split; [by exists y0|].
        intros j y' Hj Hl. apply (Hlast j y' Hj). by apply lookup_app_l_Some.
Qed.

Lemma getitem_make_label_real_dict_None (y_real : list (list Z)) (k : string) :
  getitem k (make_label_real_dict y_real) = None <->
  forall i y, y_real !! i = Some y -> label_key y <> k.
Proof.
  induction y_real as [|y ys IH] using rev_ind.
  - split; [|reflexivity]. intros _ i y Hy. discriminate.
  - rewrite make_label_real_dict_snoc, getitem_setitem.
    destruct (String.eqb (label_key y) k) eqn:E.
    + apply String.eqb_eq in E. split; [discriminate|].
      intros Hall. exfalso. apply (Hall (length ys) y); [|exact E].
      by rewrite list_lookup_middle.
    + apply String.eqb_neq in E. rewrite IH. split.
      * intros Hall i y0 Hy0.
        destruct (decide (i < length ys)) as [Hlt|Hge].
        -- rewrite lookup_app_l in Hy0 by exact Hlt. by apply (Hall i).
        -- assert (i = length ys) as ->.
           { apply lookup_lt_Some in Hy0. rewrite length_app in Hy0.
             simpl in Hy0. lia. }
           rewrite list_lookup_middle in Hy0 by reflexivity.
           by injection Hy0 as <-.
      * intros Hall i y0 Hy0. apply (Hall i). by apply lookup_app_l_Some.
Qed.

(** X1: a lookup in the reference dictionary gives the index of the last
    reference row whose key is the one looked up, and fails exactly when
    no reference row has that key. *)
Theorem label_real_dict_last_row_wins (y_real : list (list Z)) (k : string) :
  match getitem k (make_label_real_dict y_real) with
  | Some i =>
      i < length y_real /\
      (exists y, y_real !! i = Some y /\ label_key y = k) /\
      (forall j y', i < j -> y_real !! j = Some y' -> label_key y' <> k)
  | None => forall i y, y_real !! i = Some y -> label_key y <> k
  end.
Proof.
  destruct (getitem k (make_label_real_dict y_real)) as [i|] eqn:Hg.
  - apply getitem_make_label_real_dict in Hg as [(y & Hy & Hk) Hlast].
    split; [by apply lookup_lt_Some in Hy|]. split; [by exists y|exact Hlast].
  - by apply getitem_make_label_real_dict_None.
Qed.

End ReferenceDictionary.

(** ** The key of a label in the documented format *)

Section LabelKeys.
Import Fingerprint.

Lemma string_app_cons (x : ascii) (a b : string) :
  String x a +:+ b = String x (a +:+ b).
Proof. reflexivity. Qed.

Lemma string_app_assoc (a b c : string) : (a +:+ b) +:+ c = a +:+ (b +:+ c).
Proof.
  induction a as [|x a IH]; [reflexivity|].
  by rewrite !string_app_cons, IH.
Qed.

Lemma string_app_inj (a a' b b' : string) :
  String.length a = String.length a' -> a +:+ b = a' +:+ b' ->
  a = a' /\ b = b'.
Proof.
  revert a'. induction a as [|x a IH]; intros [|x' a'] Hl Heq;
    try discriminate.
  - auto.
  - rewrite !string_app_cons in Heq. injection Heq as -> Heq.
    injection Hl as Hl. destruct (IH a' Hl Heq) as [-> ->]. auto.
Qed.

(** Padding an unsigned string that is followed by a suffix pads the
    string itself. *)
Lemma zfill_unsigned_app (w : nat) (c : ascii) (s u : string) :
  Ascii.eqb c "-" = false -> Ascii.eqb c "+" = false ->
  zfill (w + String.length u) (String c s +:+ u) = zfill w (String c s) +:+ u.
Proof.
  intros Hm Hp. unfold zfill. simpl. rewrite Hm, Hp. simpl.
  rewrite string_length_append.
  replace (w + String.length u - S (String.length s + String.length u))
    with (w - S (String.length s)) by lia.
  by rewrite string_app_assoc.
Qed.

(** The decimal numerals below one thousand: unsigned, three characters
    when padded, and different for different numbers. *)
Lemma str_below_1000 (n : nat) :
  n < 1000 ->
  exists c rest,
    str (Z.of_nat n) = String c rest /\
    Ascii.eqb c "-" = false /\ Ascii.eqb c "+" = false /\
    String.length (zfill 3 (str (Z.of_nat n))) = 3.
Proof.
  intros Hn.
  assert (Hall : forallb (fun n =>
            match str (Z.of_nat n) with
            | String c _ =>
                negb (Ascii.eqb c "-") && negb (Ascii.eqb c "+") &&
                (String.length (zfill 3 (str (Z.of_nat n))) =? 3)
            | EmptyString => false
            end) (seq 0 1000) = true) by (vm_compute; reflexivity).
  rewrite forallb_forall in Hall.
  specialize (Hall n). rewrite in_seq in Hall.
  specialize (Hall ltac:(lia)).
  destruct (str (Z.of_nat n)) as [|c rest]; [discriminate|].
  apply andb_true_iff in Hall as [Hall Hlen].
  apply andb_true_iff in Hall as [Hm Hp].
  apply negb_true_iff in Hm, Hp. apply Nat.eqb_eq in Hlen.
  exists c, rest. auto.
Qed.

Lemma zfill_str_inj (n m : nat) :
  n < 1000 -> m < 1000 ->
  zfill 3 (str (Z.of_nat n)) = zfill 3 (str (Z.of_nat m)) -> n = m.
Proof.
  intros Hn Hm Heq.
  assert (Hnd : NoDup ((fun n => zfill 3 (str (Z.of_nat n))) <$> seq 0 1000))
    by (apply (bool_decide_unpack _); vm_compute; reflexivity).
  apply (NoDup_lookup _ n m (zfill 3 (str (Z.of_nat n))) Hnd).
  - rewrite list_lookup_fmap, lookup_seq_lt by exact Hn. reflexivity.
  - rewrite list_lookup_fmap, lookup_seq_lt by exact Hm. simpl. by rewrite Heq.
Qed.

Lemma str_digit (d : Z) :
  (0 <= d < 10)%Z ->
  str d = String (ascii_of_nat (48 + Z.to_nat d)) EmptyString.
Proof.
  intros Hd.
  assert (Hc : (d = 0 \/ d = 1 \/ d = 2 \/ d = 3 \/ d = 4 \/ d = 5 \/
                d = 6 \/ d = 7 \/ d = 8 \/ d = 9)%Z) by lia.
  repeat (destruct Hc as [Hc|Hc]; [subst d; reflexivity|]).
  subst d. reflexivity.
Qed.

Lemma digit_char_inj (d d' : Z) :
  (0 <= d < 10)%Z -> (0 <= d' < 10)%Z ->
  ascii_of_nat (48 + Z.to_nat d) = ascii_of_nat (48 + Z.to_nat d') -> d = d'.
Proof.
  intros Hd Hd' Heq.
  apply (f_equal nat_of_ascii) in Heq.
  rewrite !nat_ascii_embedding in Heq by lia. lia.
Qed.

(** The key of a label [[subject, gender, hand, finger]]. *)
Lemma label_key_format (s g l f : Z) :
  (0 <= s < 1000)%Z -> (0 <= g < 10)%Z -> (0 <= l < 10)%Z -> (0 <= f < 10)%Z ->
  label_key [s; g; l; f]
  = zfill 3 (str s) +:+
    String (ascii_of_nat (48 + Z.to_nat g))
      (String (ascii_of_nat (48 + Z.to_nat l))
         (String (ascii_of_nat (48 + Z.to_nat f)) EmptyString)) /\
  String.length (zfill 3 (str s)) = 3.
Proof.
  intros Hs Hg Hl Hf. unfold label_key. simpl.
  rewrite (str_digit g Hg), (str_digit l Hl), (str_digit f Hf). simpl.
  destruct (str_below_1000 (Z.to_nat s) ltac:(lia)) as (c & rest & Hstr & Hm & Hp & Hlen).
  rewrite Z2Nat.id in Hstr, Hlen by lia. split; [|exact Hlen].
  rewrite Hstr.
  exact (zfill_unsigned_app 3 c rest _ Hm Hp).
Qed.

(** X2: labels in the format the notebook documents, a subject number
    of at most three digits followed by one digit each for gender, hand
    and finger, get keys of six characters, and two such labels with the
    same key are the same label. *)
Theorem label_key_injective (s g l f s' g' l' f' : Z) :
  (0 <= s < 1000)%Z -> (0 <= g < 10)%Z -> (0 <= l < 10)%Z -> (0 <= f < 10)%Z ->
  (0 <= s' < 1000)%Z -> (0 <= g' < 10)%Z -> (0 <= l' < 10)%Z ->
  (0 <= f' < 10)%Z ->
  String.length (label_key [s; g; l; f]) = 6 /\
  (label_key [s; g; l; f] = label_key [s'; g'; l'; f'] ->
   [s; g; l; f] = [s'; g'; l'; f']).
Proof.
  intros Hs Hg Hl Hf Hs' Hg' Hl' Hf'.
  destruct (label_key_format s g l f Hs Hg Hl Hf) as [-> Hlen].
  destruct (label_key_format s' g' l' f' Hs' Hg' Hl' Hf') as [-> Hlen'].
  split.
  - rewrite string_length_append, Hlen. reflexivity.
  - intros Heq. apply string_app_inj in Heq as [Hpre Hsuf];
      [|by rewrite Hlen, Hlen'].
    injection Hsuf as Hcg Hcl Hcf.
    apply digit_char_inj in Hcg, Hcl, Hcf; try assumption. subst.
    assert (Z.to_nat s = Z.to_nat s') as Hnat.
    { apply zfill_str_inj; [lia|lia|]. by rewrite !Z2Nat.id by lia. }
    assert (s = s') as -> by lia. reflexivity.
Qed.

End LabelKeys.

Lemma label_key_injective_witness :
  String.length (Fingerprint.label_key [34; 0; 1; 0]%Z) = 6 /\
  (Fingerprint.label_key [34; 0; 1; 0]%Z = Fingerprint.label_key [34; 0; 1; 0]%Z ->
   [34; 0; 1; 0]%Z = [34; 0; 1; 0]%Z).
Proof.
  apply label_key_injective; lia.
Defined.

(** ** The fingerprint notebook: the evaluation step *)

Section FingerprintEvaluation.
Import Fingerprint.
Context {image : Type} `{ImageOps image}.
Variable predict : image -> image -> res Q.

Lemma getitem_NoDup {V : Type} (d : dict V) (k : string) (v : V) :
  NoDup (keys d) -> (k, v) ∈ d -> getitem k d = Some v.
Proof.
  unfold keys. induction d as [|[k0 v0] d IH]; simpl; intros Hnd Hin.
  - by apply elem_of_nil in Hin.
  - apply NoDup_cons in Hnd as [Hk0 Hnd].
    apply elem_of_cons in Hin as [[= -> ->]|Hin].
    + by rewrite String.eqb_refl.
    + destruct (String.eqb k0 k) eqn:E; [|by apply IH].
      apply String.eqb_eq in E as ->. exfalso. apply Hk0.
      apply list_elem_of_fmap. by exists (k, v).
Qed.

Lemma pick_probe_Ok (t : tape) (x_val : list image) label_val pos img l pos' :
  pick_probe t x_val label_val pos = (Ok (img, l), pos') ->
  pos' = S pos /\
  exists random_idx,
    fst (randint t 0 (length x_val) pos) = Ok random_idx /\
    random_idx < length x_val /\
    x_val !! random_idx = Some img /\ label_val !! random_idx = Some l.
Proof.
  unfold pick_probe, randint.
  replace (length x_val <? 0) with false by (symmetry; apply Nat.ltb_ge; lia).
  unfold randbelow. simpl.
  destruct (x_val !! _) as [img'|] eqn:Hx; [|discriminate].
  destruct (label_val !! _) as [l'|] eqn:Hl; [|discriminate].
  intros [= <- <- <-]. split; [reflexivity|].
  eexists. split; [reflexivity|]. split; [by apply lookup_lt_Some in Hx|auto].
Qed.

(** What a completed run of the evaluation step computed. *)
Lemma evaluate_model_Ok t aug_state (x_val : list image) label_val
    (x_real0 : list image) y_real pos ev pos' :
  evaluate_model predict t aug_state x_val label_val x_real0 y_real pos
  = (Ok ev, pos') ->
  exists probe probe' idx refm k j refu,
    pick_probe t x_val label_val pos = (Ok (probe, random_label ev), S pos) /\
    augment_image aug_state probe = Ok probe' /\
    random_img ev = scaled probe' /\
    getitem (label_key (random_label ev)) (make_label_real_dict y_real)
    = Some idx /\
    x_real0 !! idx = Some refm /\ rx ev = scaled refm /\
    y_real !! idx = Some (ry ev) /\
    predict (random_img ev) (rx ev) = Ok (pred_rx ev) /\
    choice t (items (make_label_real_dict y_real)) (S pos)
    = (Ok (k, j), pos') /\
    x_real0 !! j = Some refu /\ ux ev = scaled refu /\
    y_real !! j = Some (uy ev) /\
    predict (random_img ev) (ux ev) = Ok (pred_ux ev).
Proof.
  unfold evaluate_model.
  destruct (pick_probe t x_val label_val pos) as [[[probe l]|e] pos1] eqn:Hp;
    [|discriminate].
  destruct (pick_probe_Ok _ _ _ _ _ _ _ Hp) as [-> _].
  destruct (augment_image aug_state probe) as [probe'|e] eqn:Ha; [|discriminate].
  destruct (getitem _ _) as [idx|] eqn:Hg; [|discriminate].
  destruct (x_real0 !! idx) as [refm|] eqn:Hrx; [|discriminate].
  destruct (y_real !! idx) as [ry0|] eqn:Hry; [|discriminate].
  destruct (predict _ _) as [p_rx|e] eqn:Hprx; [|discriminate].
  destruct (choice _ _ _) as [[[k j]|e] pos2] eqn:Hc; [|discriminate].
  destruct (x_real0 !! j) as [refu|] eqn:Hux; [|discriminate].
  destruct (y_real !! j) as [uy0|] eqn:Huy; [|discriminate].
  destruct (predict _ (scaled refu)) as [p_ux|e] eqn:Hpux; [|discriminate].
  intros [= <- <-]. simpl.
  exists probe, probe', idx, refm, k, j, refu. auto 15.
Qed.

(** X3: when the evaluation step completes, the probe is a row of the
    validation set with its own label, the matched reference is the image
    and the label of one reference row, that row has the key of the probe
    and is the last row that has it, and two values of the random stream
    were read. *)
Theorem evaluate_model_matched_reference t aug_state (x_val : list image)
    label_val (x_real0 : list image) y_real pos ev pos' :
  evaluate_model predict t aug_state x_val label_val x_real0 y_real pos
  = (Ok ev, pos') ->
  pos' = pos + 2 /\
  (exists random_idx probe probe',
     random_idx < length x_val /\
     x_val !! random_idx = Some probe /\
     label_val !! random_idx = Some (random_label ev) /\
     augment_image aug_state probe = Ok probe' /\
     random_img ev = scaled probe') /\
  (exists idx refm,
     idx < length y_real /\
     x_real0 !! idx = Some refm /\ rx ev = scaled refm /\
     y_real !! idx = Some (ry ev) /\
     label_key (ry ev) = label_key (random_label ev) /\
     (forall j y', idx < j -> y_real !! j = Some y' ->
        label_key y' <> label_key (random_label ev))) /\
  predict (random_img ev) (rx ev) = Ok (pred_rx ev).
Proof.
  intros Hev.
  apply evaluate_model_Ok in Hev
    as (probe & probe' & idx & refm & k & j & refu & Hp & Ha & Himg & Hg &
        Hrx & Hrx' & Hry & Hprx & Hc & _).
  apply choice_pos in Hc as [-> _].
  apply pick_probe_Ok in Hp as [_ (r & _ & Hr & Hx & Hl)].
  apply getitem_make_label_real_dict in Hg as [(y & Hy & Hk) Hlast].
  assert (y = ry ev) as -> by congruence.
  split; [lia|]. split; [by exists r, probe, probe'|]. split; [|exact Hprx].
  exists idx, refm. split; [by apply lookup_lt_Some in Hry|]. auto 10.
Qed.

(** X4: the reference the evaluation step takes as the unmatched one
    is the entry one draw selects, whatever its key; when that entry has
    the key of the probe, as it must when all reference rows share that
    key, the unmatched reference is the matched one. *)
Theorem evaluate_model_unmatched_not_rejected t aug_state
    (x_val : list image) label_val (x_real0 : list image) y_real pos ev pos' :
  evaluate_model predict t aug_state x_val label_val x_real0 y_real pos
  = (Ok ev, pos') ->
  exists k j refu,
    fst (choice t (items (make_label_real_dict y_real)) (S pos)) = Ok (k, j) /\
    x_real0 !! j = Some refu /\ ux ev = scaled refu /\
    y_real !! j = Some (uy ev) /\
    (k = label_key (random_label ev) ->
     ux ev = rx ev /\ uy ev = ry ev /\ pred_ux ev = pred_rx ev) /\
    ((forall y, y ∈ y_real -> label_key y = label_key (random_label ev)) ->
     k = label_key (random_label ev)).
Proof.
  intros Hev.
  apply evaluate_model_Ok in Hev
    as (probe & probe' & idx & refm & k & j & refu & Hp & Ha & Himg & Hg &
        Hrx & Hrx' & Hry & Hprx & Hc & Hux & Hux' & Huy & Hpux).
  exists k, j, refu. rewrite Hc. split; [reflexivity|].
  split; [exact Hux|]. split; [exact Hux'|]. split; [exact Huy|].
  pose proof (choice_pos _ _ _ _ _ Hc) as [_ Hin].
  split.
  - intros ->.
    assert (Hj : getitem (label_key (random_label ev))
                   (make_label_real_dict y_real) = Some j)
      by (apply getitem_NoDup;
          [apply NoDup_keys_make_label_real_dict|exact Hin]).
    assert (j = idx) as -> by congruence.
    assert (refu = refm) as -> by congruence.
    split; [congruence|]. split; congruence.
  - intros Hall.
    apply getitem_NoDup in Hin; [|apply NoDup_keys_make_label_real_dict].
    apply getitem_make_label_real_dict in Hin as [(y & Hy & Hk) _].
    rewrite <- Hk. apply Hall. by apply list_elem_of_lookup_2 in Hy.
Qed.

End FingerprintEvaluation.

Lemma evaluate_model_matched_reference_witness :
  Fingerprint.evaluate_model Samples.distance (fun _ => 0%N) 0
    Samples.x_probe Samples.label_probe Samples.x_real Samples.y_real 0
  = (Ok Samples.evaluation_same, 2) /\
  2 = 0 + 2 /\
  (exists random_idx probe probe',
     random_idx < length Samples.x_probe /\
     Samples.x_probe !! random_idx = Some probe /\
     Samples.label_probe !! random_idx
     = Some (Fingerprint.random_label Samples.evaluation_same) /\
     Fingerprint.augment_image 0 probe = Ok probe' /\
     Fingerprint.random_img Samples.evaluation_same
     = Fingerprint.scaled probe') /\
  (exists idx refm,
     idx < length Samples.y_real /\
     Samples.x_real !! idx = Some refm /\
     Fingerprint.rx Samples.evaluation_same = Fingerprint.scaled refm /\
     Samples.y_real !! idx = Some (Fingerprint.ry Samples.evaluation_same) /\
     Fingerprint.label_key (Fingerprint.ry Samples.evaluation_same)
     = Fingerprint.label_key
         (Fingerprint.random_label Samples.evaluation_same) /\
     (forall j y', idx < j -> Samples.y_real !! j = Some y' ->
        Fingerprint.label_key y'
        <> Fingerprint.label_key
             (Fingerprint.random_label Samples.evaluation_same))) /\
  Samples.distance (Fingerprint.random_img Samples.evaluation_same)
    (Fingerprint.rx Samples.evaluation_same)
  = Ok (Fingerprint.pred_rx Samples.evaluation_same).
Proof.
  assert (H1 : Fingerprint.evaluate_model Samples.distance (fun _ => 0%N) 0
                 Samples.x_probe Samples.label_probe Samples.x_real
                 Samples.y_real 0
               = (Ok Samples.evaluation_same, 2))
    by (vm_compute; reflexivity).
  split; [exact H1|].
  exact (evaluate_model_matched_reference Samples.distance _ _ _ _ _ _ _ _ _ H1).
Defined.

Lemma evaluate_model_unmatched_not_rejected_witness :
  Fingerprint.evaluate_model Samples.distance (fun _ => 0%N) 0
    Samples.x_probe Samples.label_probe Samples.x_real Samples.y_real 0
  = (Ok Samples.evaluation_same, 2) /\
  Fingerprint.ux Samples.evaluation_same
  = Fingerprint.rx Samples.evaluation_same /\
  exists k j refu,
    fst (choice (fun _ => 0%N)
           (items (Fingerprint.make_label_real_dict Samples.y_real)) 1)
    = Ok (k, j) /\
    Samples.x_real !! j = Some refu /\
    Fingerprint.ux Samples.evaluation_same = Fingerprint.scaled refu /\
    Samples.y_real !! j = Some (Fingerprint.uy Samples.evaluation_same) /\
    (k = Fingerprint.label_key
           (Fingerprint.random_label Samples.evaluation_same) ->
     Fingerprint.ux Samples.evaluation_same
     = Fingerprint.rx Samples.evaluation_same /\
     Fingerprint.uy Samples.evaluation_same
     = Fingerprint.ry Samples.evaluation_same /\
     Fingerprint.pred_ux Samples.evaluation_same
     = Fingerprint.pred_rx Samples.evaluation_same) /\
    ((forall y, y ∈ Samples.y_real ->
        Fingerprint.label_key y
        = Fingerprint.label_key
            (Fingerprint.random_label Samples.evaluation_same)) ->
     k = Fingerprint.label_key
           (Fingerprint.random_label Samples.evaluation_same)).
Proof.
  assert (H1 : Fingerprint.evaluate_model Samples.distance (fun _ => 0%N) 0
                 Samples.x_probe Samples.label_probe Samples.x_real
                 Samples.y_real 0
               = (Ok Samples.evaluation_same, 2))
    by (vm_compute; reflexivity).
  split; [exact H1|]. split; [vm_compute; reflexivity|].
  exact (evaluate_model_unmatched_not_rejected Samples.distance _ _ _ _ _ _ _
           _ _ H1).
Defined.

(** ** Rows selected by an arrangement of the indices *)

Lemma omap_lookup_seq {A : Type} (pre l : list A) :
  omap (fun i => (pre ++ l) !! i) (seq (length pre) (length l)) = l.
Proof.
  revert pre. induction l as [|a l IH]; intros pre; [reflexivity|].
  simpl. rewrite list_lookup_middle by reflexivity. f_equal.
  specialize (IH (pre ++ [a])). rewrite length_app, <- app_assoc in IH.
  simpl in IH. by rewrite Nat.add_1_r in IH.
Qed.

Lemma omap_lookup_Permutation {A : Type} (l : list A) (arrangement : list nat) :
  arrangement ≡ₚ seq 0 (length l) ->
  omap (fun i => l !! i) arrangement ≡ₚ l.
Proof.
  intros ->. pose proof (omap_lookup_seq [] l) as E. simpl in E.
  by rewrite E.
Qed.

Lemma zip_omap_lookup {A B : Type} (l : list A) (k : list B)
    (indices : list nat) :
  length l = length k ->
  zip (omap (fun i => l !! i) indices) (omap (fun i => k !! i) indices)
  = omap (fun i => zip l k !! i) indices.
Proof.
  intros Hlen. induction indices as [|i indices IH]; [reflexivity|].
  simpl. rewrite lookup_zip_with.
  destruct (l !! i) as [a|] eqn:Ha; destruct (k !! i) as [b|] eqn:Hb; simpl.
  - f_equal. exact IH.
  - apply lookup_lt_Some in Ha. apply lookup_ge_None in Hb. lia.
  - apply lookup_lt_Some in Hb. apply lookup_ge_None in Ha. lia.
  - exact IH.
Qed.

Lemma length_slice {A : Type} (a b : nat) (l : list A) :
  length (slice a b l) = (b - a) `min` (length l - a).
Proof. unfold slice. by rewrite length_take, length_drop. Qed.

Lemma lookup_repeat_lt {A : Type} (a : A) (n i : nat) :
  i < n -> repeat a n !! i = Some a.
Proof.
  revert i. induction n as [|n IH]; intros [|i] Hi; simpl; try lia; auto.
  apply IH. lia.
Qed.

(** ** The pair generator: epochs and batches *)

Section FingerprintEpochs.
Import Fingerprint.
Context {image : Type} `{ImageOps image}.
Implicit Types (self : DataGenerator image).

(** X5: the shuffle at the end of an epoch keeps every probe with its
    label: the pairs of probe and label after it are the pairs before it
    in another order, nothing else in the generator changes, and a
    generator built without shuffling is left as it is. *)
Theorem on_epoch_end_keeps_pairs self (arrangement : list nat) :
  length (label self) = length (x self) ->
  arrangement ≡ₚ seq 0 (length (x self)) ->
  zip (x (on_epoch_end arrangement self)) (label (on_epoch_end arrangement self))
  ≡ₚ zip (x self) (label self) /\
  length (x (on_epoch_end arrangement self)) = length (x self) /\
  length (label (on_epoch_end arrangement self)) = length (label self) /\
  x_real (on_epoch_end arrangement self) = x_real self /\
  label_real_dict (on_epoch_end arrangement self) = label_real_dict self /\
  batch_size (on_epoch_end arrangement self) = batch_size self /\
  (shuffle self = false -> on_epoch_end arrangement self = self).
Proof.
  intros Hlen Harr. unfold on_epoch_end.
  destruct (shuffle self) eqn:Hs; simpl; [|auto 10].
  split.
  - rewrite zip_omap_lookup by done. apply omap_lookup_Permutation.
    rewrite length_zip_with, Hlen, Nat.min_id. exact Harr.
  - split; [by rewrite (omap_lookup_Permutation _ _ Harr)|].
    split; [|by auto].
    rewrite <- Hlen in Harr. by rewrite (omap_lookup_Permutation _ _ Harr).
Qed.

Lemma fill_batch_rest fuel t self labels :
  forall i (x2 : list image) y pos x2' y' pos',
    fill_batch fuel t self i labels x2 y pos = Done (x2', y', pos') ->
    forall k, i + length labels <= k ->
      x2' !! k = x2 !! k /\ y' !! k = y !! k.
Proof.
  induction labels as [|l labels IH]; intros i x2 y pos x2' y' pos' Hf k Hk.
  - simpl in Hf. injection Hf as <- <- <-. auto.
  - simpl in Hf, Hk.
    destruct (pair_probe fuel t self l pos) as [[[im lab] pos1]|e|];
      [|discriminate|discriminate].
    destruct (IH _ _ _ _ _ _ _ Hf k ltac:(lia)) as [-> ->].
    by rewrite !list_lookup_insert_ne by lia.
Qed.


End FingerprintEpochs.

Lemma on_epoch_end_keeps_pairs_witness :
  length (Fingerprint.label Samples.gen_shuffling)
  = length (Fingerprint.x Samples.gen_shuffling) /\
  [1; 0] ≡ₚ seq 0 (length (Fingerprint.x Samples.gen_shuffling)) /\
  Fingerprint.x (Fingerprint.on_epoch_end [1; 0] Samples.gen_shuffling)
  = [31; 11]%Q /\
  zip (Fingerprint.x (Fingerprint.on_epoch_end [1; 0] Samples.gen_shuffling))
    (Fingerprint.label (Fingerprint.on_epoch_end [1; 0] Samples.gen_shuffling))
  ≡ₚ zip (Fingerprint.x Samples.gen_shuffling)
       (Fingerprint.label Samples.gen_shuffling) /\
  length (Fingerprint.x (Fingerprint.on_epoch_end [1; 0] Samples.gen_shuffling))
  = length (Fingerprint.x Samples.gen_shuffling) /\
  length (Fingerprint.label
            (Fingerprint.on_epoch_end [1; 0] Samples.gen_shuffling))
  = length (Fingerprint.label Samples.gen_shuffling) /\
  Fingerprint.x_real (Fingerprint.on_epoch_end [1; 0] Samples.gen_shuffling)
  = Fingerprint.x_real Samples.gen_shuffling /\
  Fingerprint.label_real_dict
    (Fingerprint.on_epoch_end [1; 0] Samples.gen_shuffling)
  = Fingerprint.label_real_dict Samples.gen_shuffling /\
  Fingerprint.batch_size (Fingerprint.on_epoch_end [1; 0] Samples.gen_shuffling)
  = Fingerprint.batch_size Samples.gen_shuffling /\
  (Fingerprint.shuffle Samples.gen_shuffling = false ->
   Fingerprint.on_epoch_end [1; 0] Samples.gen_shuffling
   = Samples.gen_shuffling).
Proof.
  assert (H1 : length (Fingerprint.label Samples.gen_shuffling)
               = length (Fingerprint.x Samples.gen_shuffling))
    by reflexivity.
  assert (H2 : [1; 0] ≡ₚ seq 0 (length (Fingerprint.x Samples.gen_shuffling)))
    by (apply (bool_decide_unpack _); vm_compute; reflexivity).
  split; [exact H1|]. split; [exact H2|]. split; [reflexivity|].
  exact (on_epoch_end_keeps_pairs Samples.gen_shuffling [1; 0] H1 H2).
Defined.


(** ** The fingerprint notebook: what preprocessing leaves behind *)

Section FingerprintQuiet.
Import Fingerprint.
Local Open Scope stmt_scope.

Lemma quiet_ret {A : Type} (a : A) : quiet (ret a).
Proof. intros f r f' [= <- <-]. reflexivity. Qed.

Lemma quiet_raise {A : Type} (e : exn) : quiet (@raise A e).
Proof. intros f r f' [= <- <-]. reflexivity. Qed.

Lemma quiet_bind {A B : Type} (m : Stmt A) (k : A -> Stmt B) :
  quiet m -> (forall a, quiet (k a)) -> quiet (bind m k).
Proof.
  intros Hm Hk f r f'. unfold bind.
  destruct (m f) as [[a|e] f1] eqn:Hmf.
  - intros Hka. rewrite (Hk a _ _ _ Hka). exact (Hm _ _ _ Hmf).
  - intros [= <- <-]. exact (Hm _ _ _ Hmf).
Qed.

Lemma quiet_assign x v : quiet (assign x v).
Proof. intros f r f' [= <- <-]. reflexivity. Qed.

Lemma quiet_lookup_name x : quiet (lookup_name x).
Proof.
  intros f r f'. unfold lookup_name.
  destruct (locals f !! x); intros [= <- <-]; reflexivity.
Qed.

Lemma quiet_lift {A : Type} (g : world -> res A) : quiet (lift g).
Proof. intros f r f' [= <- <-]. reflexivity. Qed.

Lemma quiet_array_name x : quiet (array_name x).
Proof.
  apply quiet_bind; [apply quiet_lookup_name|].
  intros [s|a]; [apply quiet_raise|apply quiet_ret].
Qed.

Lemma quiet_string_name x : quiet (string_name x).
Proof.
  apply quiet_bind; [apply quiet_lookup_name|].
  intros [s|a]; [apply quiet_ret|apply quiet_raise].
Qed.

Lemma quiet_assign_npz x file : quiet (assign_npz x file).
Proof.
  apply quiet_bind; [apply quiet_string_name|]. intros d.
  apply quiet_bind; [apply quiet_lift|]. intros a. apply quiet_assign.
Qed.

Lemma quiet_assign_npy x file : quiet (assign_npy x file).
Proof.
  apply quiet_bind; [apply quiet_string_name|]. intros d.
  apply quiet_bind; [apply quiet_lift|]. intros a. apply quiet_assign.
Qed.

Lemma quiet_print2 a b : quiet (print2 a b).
Proof.
  apply quiet_bind; [apply quiet_array_name|]. intros _.
  apply quiet_bind; [apply quiet_array_name|]. intros _. apply quiet_ret.
Qed.

Lemma writes_last_quiet {A : Type} (m : Stmt A) : quiet m -> writes_last m.
Proof. intros Hm f e f' Hf. exact (Hm _ _ _ Hf). Qed.

Lemma writes_last_bind {A B : Type} (m : Stmt A) (k : A -> Stmt B) :
  quiet m -> (forall a, writes_last (k a)) -> writes_last (bind m k).
Proof.
  intros Hm Hk f e f'. unfold bind.
  destruct (m f) as [[a|e'] f1] eqn:Hmf.
  - intros Hka. rewrite (Hk a _ _ _ Hka). exact (Hm _ _ _ Hmf).
  - intros [= <- <-]. exact (Hm _ _ _ Hmf).
Qed.

Lemma writes_last_update_fs g : writes_last (update_fs g).
Proof. intros f e f' Hf. discriminate. Qed.

Lemma writes_last_load_and_split arrangement :
  writes_last (load_and_split arrangement).
Proof.
  unfold load_and_split.
  repeat first
    [ apply writes_last_bind;
      [ first [ apply quiet_assign_npz | apply quiet_assign_npy
              | apply quiet_array_name | apply quiet_assign
              | apply quiet_print2 | apply quiet_string_name ]
      | intros ? ] ].
  destruct (Sklearn.train_test_split _ _ _ _ _)
    as [[[[x_train x_val] label_train] label_val]|e].
  - repeat first
      [ apply writes_last_bind;
        [ first [ apply quiet_assign | apply quiet_print2
                | apply quiet_string_name ]
        | intros ? ] ].
    apply writes_last_update_fs.
  - apply writes_last_quiet, quiet_raise.
Qed.

(** X7: the fingerprint preprocessing step writes no file.  On every
    input it ends with an exception; the file system it leaves is the one
    it found, except that the output directory may have been created, and
    in particular none of the three bundles exists unless it existed
    before. *)
Theorem preprocess_data_writes_no_file data_dir prep_data_dir arrangement w :
  fst (preprocess_data data_dir prep_data_dir arrangement w) <> Ok tt /\
  (snd (preprocess_data data_dir prep_data_dir arrangement w) = w \/
   snd (preprocess_data data_dir prep_data_dir arrangement w)
   = ensure_dir prep_data_dir w) /\
  (forall path,
     path <> prep_data_dir ->
     snd (preprocess_data data_dir prep_data_dir arrangement w) !! path
     = w !! path) /\
  (forall file,
     snd (preprocess_data data_dir prep_data_dir arrangement w)
       !! ("/" +:+ prep_data_dir +:+ "/" +:+ file)
     = w !! ("/" +:+ prep_data_dir +:+ "/" +:+ file)).
Proof.
  assert (Hcases :
    exists e,
      fst (preprocess_data data_dir prep_data_dir arrangement w) = Raise e /\
      (snd (preprocess_data data_dir prep_data_dir arrangement w) = w \/
       snd (preprocess_data data_dir prep_data_dir arrangement w)
       = ensure_dir prep_data_dir w)).
  { unfold preprocess_data, preprocess_data_body, bind.
    destruct (load_and_split arrangement (call_frame data_dir prep_data_dir w))
      as [[[]|e] f] eqn:Hl.
    - destruct (load_and_split_frame _ _ _ _ _ Hl) as (Hp & [xt Hx] & Hn & Hfs).
      rewrite (save_bundles_raises f prep_data_dir xt Hp Hx Hn). simpl.
      eauto.
    - simpl. exists e. split; [reflexivity|]. left.
      exact (writes_last_load_and_split arrangement _ _ _ Hl). }
  destruct Hcases as (e & Hr & Hw).
  assert (Hpath : forall path, path <> prep_data_dir ->
            snd (preprocess_data data_dir prep_data_dir arrangement w) !! path
            = w !! path).
  { intros path Hne. destruct Hw as [-> | ->]; [reflexivity|].
    unfold ensure_dir. destruct (w !! prep_data_dir); [reflexivity|].
    by rewrite lookup_insert_ne. }
  split; [rewrite Hr; discriminate|]. split; [exact Hw|].
  split; [exact Hpath|].
  intros file. apply Hpath. apply path_inside_ne.
Qed.

End FingerprintQuiet.

(** ** Splits: the two folds share no row and lose none *)

Section Partition.
Import Sklearn.

Lemma lookup_rows_omap {A : Type} (l : list A) (indices : list nat)
    (rows : list A) :
  Forall2 (fun i row => l !! i = Some row) indices rows ->
  omap (fun i => l !! i) indices = rows.
Proof.
  induction 1 as [|i row indices rows Hi _ IH]; [reflexivity|].
  simpl. rewrite Hi. f_equal. exact IH.
Qed.

Lemma folds_cover (arrangement : list nat) (n_train n_test : nat) :
  length arrangement = n_train + n_test ->
  slice n_test (n_test + n_train) arrangement ++ slice 0 n_test arrangement
  ≡ₚ arrangement.
Proof.
  intros Hlen. unfold slice. rewrite Permutation_app_comm.
  rewrite Nat.sub_0_r, drop_0.
  replace (n_test + n_train - n_test) with n_train by lia.
  rewrite (take_ge (drop n_test arrangement))
    by (rewrite length_drop; lia).
  by rewrite take_drop.
Qed.

(** The pairs of both folds together are the pairs of the input, each
    once. *)
Lemma train_test_split_partition {A B C : Type} `{EqDecision C}
    (X : list A) (y : list B) (test_size : Q) (stratify : option (list C))
    (arrangement : list nat) X_train X_test y_train y_test :
  train_test_split X y test_size stratify arrangement
  = Ok (X_train, X_test, y_train, y_test) ->
  arrangement ≡ₚ seq 0 (length X) ->
  zip X_train y_train ++ zip X_test y_test ≡ₚ zip X y.
Proof.
  intros Hs Harr.
  apply train_test_split_Ok in Hs
    as (Hlen & n_train & n_test & Hv & Htr & Hytr & Hte & Hyte).
  apply validate_shuffle_split_Ok in Hv as (_ & Hsum & _).
  apply lookup_rows_omap in Htr, Hytr, Hte, Hyte. subst.
  rewrite !zip_omap_lookup by exact Hlen.
  rewrite <- omap_app.
  apply omap_lookup_Permutation.
  rewrite folds_cover.
  - rewrite length_zip_with, <- Hlen, Nat.min_id. exact Harr.
  - rewrite Harr, length_seq. lia.
Qed.

End Partition.

(** ** Paths *)

Lemma list_ascii_of_string_app (a b : string) :
  list_ascii_of_string (a +:+ b)
  = list_ascii_of_string a ++ list_ascii_of_string b.
Proof.
  induction a as [|c a IH]; [reflexivity|].
  rewrite string_app_cons. simpl. by rewrite IH.
Qed.

(** Two paths that end in different characters differ. *)
Lemma path_last_ne (a b s s' : string) (c c' : ascii) :
  last (list_ascii_of_string s) = Some c ->
  last (list_ascii_of_string s') = Some c' -> c <> c' ->
  a +:+ s <> b +:+ s'.
Proof.
  intros Hs Hs' Hne Heq. apply (f_equal list_ascii_of_string) in Heq.
  rewrite !list_ascii_of_string_app in Heq.
  apply (f_equal last) in Heq.
  destruct (list_ascii_of_string s) as [|x l] using rev_ind; [discriminate|].
  destruct (list_ascii_of_string s') as [|x' l'] using rev_ind; [discriminate|].
  rewrite !app_assoc, !last_snoc in Heq. rewrite last_snoc in Hs, Hs'.
  congruence.
Qed.

(** Two paths in one directory with different file names differ. *)
Lemma path_sibling_ne (dir file file' : string) :
  file <> file' -> dir +:+ file <> dir +:+ file'.
Proof.
  intros Hne Heq. apply string_app_inj in Heq as [_ Heq]; [|reflexivity].
  contradiction.
Qed.

(** ** The covid notebook: the label of an image path *)

Section CovidLabels.
Import Covid.

Lemma split_nonempty (sep : ascii) (s : string) : split sep s <> [].
Proof.
  destruct s as [|c s]; simpl; [discriminate|].
  destruct (Ascii.eqb c sep); [discriminate|].
  destruct (split sep s); discriminate.
Qed.

Lemma split_no_sep (sep : ascii) (s : string) :
  sep ∉ list_ascii_of_string s -> split sep s = [s].
Proof.
  induction s as [|c s IH]; simpl; intros Hs; [reflexivity|].
  apply not_elem_of_cons in Hs as [Hc Hs].
  destruct (Ascii.eqb c sep) eqn:E; [apply Ascii.eqb_eq in E; congruence|].
  by rewrite (IH Hs).
Qed.

Lemma split_app (sep : ascii) (a b : string) :
  split sep (a +:+ String sep b) = split sep a ++ split sep b.
Proof.
  induction a as [|c a IH].
  - simpl. rewrite Ascii.eqb_refl. reflexivity.
  - rewrite string_app_cons. simpl. rewrite IH.
    destruct (Ascii.eqb c sep); [reflexivity|].
    pose proof (split_nonempty sep a) as Hne.
    destruct (split sep a) as [|part parts]; [contradiction|reflexivity].
Qed.

(** X8: the label of an image file is the name of the directory the
    file lies in, whatever the directories above it; a file qualifies
    exactly when that name is [covid] or [normal], so a file in a
    directory below [covid] does not; a path without a separator has no
    label, and taking it raises [IndexError]. *)
Theorem parent_label_is_directory_name (dir label file : string) :
  ("/"%char ∉ list_ascii_of_string label) ->
  ("/"%char ∉ list_ascii_of_string file) ->
  parent_label (dir +:+ "/" +:+ label +:+ "/" +:+ file) = Ok label /\
  qualifies (dir +:+ "/" +:+ label +:+ "/" +:+ file) = retained label /\
  (retained label = true <-> label = "covid"%string \/ label = "normal"%string) /\
  parent_label file = Raise IndexError /\ qualifies file = false.
Proof.
  intros Hl Hf.
  assert (Hp : parent_label (dir +:+ "/" +:+ label +:+ "/" +:+ file) = Ok label).
  { unfold parent_label.
    change (dir +:+ "/" +:+ label +:+ "/" +:+ file)
      with (dir +:+ String "/" (label +:+ String "/" file)).
    rewrite !split_app, (split_no_sep _ _ Hl), (split_no_sep _ _ Hf).
    rewrite !rev_app_distr. reflexivity. }
  assert (Hq : parent_label file = Raise IndexError).
  { unfold parent_label. by rewrite (split_no_sep _ _ Hf). }
  split; [exact Hp|]. split; [unfold qualifies; by rewrite Hp|].
  split; [|split; [exact Hq|unfold qualifies; by rewrite Hq]].
  unfold retained. rewrite orb_true_iff, !String.eqb_eq. reflexivity.
Qed.

End CovidLabels.

Lemma parent_label_is_directory_name_witness :
  Covid.parent_label ("/data/train" +:+ "/" +:+ "covid" +:+ "/" +:+ "a.png")
  = Ok "covid"%string /\
  Covid.qualifies ("/data/train" +:+ "/" +:+ "covid" +:+ "/" +:+ "a.png")
  = Covid.retained "covid" /\
  (Covid.retained "covid" = true <->
   "covid"%string = "covid"%string \/ "covid"%string = "normal"%string) /\
  Covid.parent_label "a.png" = Raise IndexError /\
  Covid.qualifies "a.png" = false.
Proof.
  apply (parent_label_is_directory_name "/data/train" "covid" "a.png");
    apply (bool_decide_unpack _); vm_compute; reflexivity.
Defined.

(** ** The covid notebook: when preprocessing completes *)

Section CovidPreprocessCompletes.
Import Covid.
Context `{ImageLibs}.

Lemma load_images_valid w imagePaths :
  forall data labels r,
    load_images w imagePaths data labels = Ok r ->
    Forall (fun p => exists label, parent_label p = Ok label) imagePaths /\
    Forall (fun p => qualifies p = true -> is_Some (imread w p)) imagePaths.
Proof.
  induction imagePaths as [|p paths IH]; intros data labels r; simpl.
  - intros _. split; constructor.
  - unfold qualifies.
    destruct (parent_label p) as [label|e] eqn:Hp; [|discriminate].
    destruct (retained label) eqn:Hr.
    + destruct (imread w p) as [image|] eqn:Hi; [|discriminate].
      intros Hl. destruct (IH _ _ _ Hl) as [H1 H2].
      split; constructor; eauto.
    + intros Hl. destruct (IH _ _ _ Hl) as [H1 H2].
      split; constructor; eauto. rewrite Hp, Hr. discriminate.
Qed.

(** X9: the covid preprocessing step completes exactly on the valid
    input directories, and a run that raises writes nothing. *)
Theorem preprocess_data_completes_iff data_dir prep_dir w :
  (fst (preprocess_data data_dir prep_dir w) = Ok tt
   <-> valid_input w data_dir) /\
  (fst (preprocess_data data_dir prep_dir w) <> Ok tt ->
   snd (preprocess_data data_dir prep_dir w) = w).
Proof.
  unfold preprocess_data, valid_input.
  destruct (load_images w (list_images w data_dir) [] [])
    as [[data labels]|e] eqn:Hload.
  - destruct (load_images_valid _ _ _ _ _ Hload) as [Hparent Hread].
    apply load_images_Ok in Hload as (images & -> & Hlabels & _).
    simpl in Hlabels. subst labels.
    destruct (Sklearn.LabelBinarizer_fit_transform _) as [y|e] eqn:Hy.
    + assert (Hne : map label_of
                      (List.filter qualifies (list_images w data_dir)) <> [])
        by (intros Hnil; rewrite Hnil in Hy; discriminate).
      destruct (LabelBinarizer_returns _ Hne) as (y' & Hy' & Hrows).
      assert (y' = y) as -> by congruence.
      assert (Hyne : y <> []).
      { apply LabelBinarizer_length in Hy. intros ->.
        destruct (map label_of _); [contradiction|discriminate]. }
      destruct (to_categorical_returns y Hyne Hrows) as (cat & ->).
      simpl. split; [|intros Hc; by destruct Hc].
      split; [|reflexivity]. intros _.
      split; [exact Hparent|]. split; [exact Hread|].
      destruct (List.filter qualifies (list_images w data_dir))
        as [|p l] eqn:Hf; [contradiction|].
      apply Exists_exists. exists p.
      assert (Hin : In p (List.filter qualifies (list_images w data_dir)))
        by (rewrite Hf; left; reflexivity).
      apply filter_In in Hin as [Hin Hq]. split; [|exact Hq].
      by apply list_elem_of_In.
    + simpl. split; [|reflexivity]. split; [discriminate|].
      intros (_ & _ & Hex). exfalso.
      apply Exists_exists in Hex as (p & Hin & Hq).
      assert (Hne : map label_of
                      (List.filter qualifies (list_images w data_dir)) <> []).
      { assert (Hp : In p (List.filter qualifies (list_images w data_dir)))
          by (apply filter_In; split; [by apply list_elem_of_In|exact Hq]).
        destruct (List.filter qualifies (list_images w data_dir));
          [contradiction|discriminate]. }
      destruct (LabelBinarizer_returns _ Hne) as (y' & Hy' & _). congruence.
  - simpl. split; [|reflexivity]. split; [discriminate|].
    intros (Hparent & Hread & _). exfalso.
    destruct (load_images_returns w _ Hparent Hread [] []) as (r & Hr).
    congruence.
Qed.

End CovidPreprocessCompletes.

(** ** The covid notebook: how the labels are encoded *)

Section CovidEncoding.
Import Covid.
Context `{ImageLibs}.

Lemma qualifying_label (p : string) :
  qualifies p = true ->
  label_of p = "covid"%string \/ label_of p = "normal"%string.
Proof.
  unfold qualifies, label_of, retained.
  destruct (parent_label p) as [label|e]; [|discriminate].
  rewrite orb_true_iff, !String.eqb_eq. auto.
Qed.

Lemma remove_dups_two (labels : list string) :
  (forall l, l ∈ labels -> l = "covid"%string \/ l = "normal"%string) ->
  "covid"%string ∈ labels -> "normal"%string ∈ labels ->
  merge_sort Sklearn.str_le (remove_dups labels) = ["covid"; "normal"]%string.
Proof.
  intros Hall Hc Hn.
  assert (Hp : remove_dups labels ≡ₚ ["covid"; "normal"]%string).
  { apply NoDup_Permutation.
    - apply NoDup_remove_dups.
    - apply (bool_decide_unpack _). by vm_compute.
    - intros l. rewrite elem_of_remove_dups. split.
      + intros Hl. destruct (Hall l Hl) as [-> | ->].
        * apply list_elem_of_here.
        * apply list_elem_of_further, list_elem_of_here.
      + intros Hl. apply elem_of_cons in Hl as [->|Hl]; [exact Hc|].
        apply list_elem_of_singleton in Hl as ->. exact Hn. }
  pose proof (Permutation_length Hp) as Hlen.
  destruct (remove_dups labels) as [|a [|b [|c d]]]; try discriminate.
  assert (Ha : a ∈ ["covid"; "normal"]%string)
    by (rewrite <- Hp; apply list_elem_of_here).
  assert (Hb : b ∈ ["covid"; "normal"]%string)
    by (rewrite <- Hp; apply list_elem_of_further, list_elem_of_here).
  assert (Hnd : NoDup [a; b]) by (rewrite Hp; apply (bool_decide_unpack _);
                                  by vm_compute).
  apply elem_of_cons in Ha as [->|Ha];
    [|apply list_elem_of_singleton in Ha as ->];
    (apply elem_of_cons in Hb as [->|Hb];
     [|apply list_elem_of_singleton in Hb as ->]);
    try (by vm_compute);
    exfalso; apply NoDup_cons in Hnd as [Hnd _]; apply Hnd;
    apply list_elem_of_here.
Qed.

Lemma remove_dups_one (labels : list string) (c : string) :
  labels <> [] -> (forall l, l ∈ labels -> l = c) ->
  remove_dups labels = [c].
Proof.
  intros Hne Hall.
  assert (Hnd : NoDup (remove_dups labels)) by apply NoDup_remove_dups.
  assert (Hin : forall l, l ∈ remove_dups labels -> l = c)
    by (intros l Hl; apply Hall; by apply elem_of_remove_dups).
  assert (Hc : c ∈ remove_dups labels).
  { apply elem_of_remove_dups. destruct labels as [|l labels]; [done|].
    rewrite <- (Hall l) by apply list_elem_of_here. apply list_elem_of_here. }
  destruct (remove_dups labels) as [|a [|b d]].
  - by apply elem_of_nil in Hc.
  - by rewrite (Hin a) by apply list_elem_of_here.
  - exfalso. apply NoDup_cons in Hnd as [Hnd _]. apply Hnd.
    rewrite (Hin a) by apply list_elem_of_here.
    rewrite (Hin b) by apply list_elem_of_further, list_elem_of_here.
    apply list_elem_of_here.
Qed.

Lemma max_of_bits (v : Z) (vs : list Z) :
  Forall (fun b => b = 0 \/ b = 1)%Z (v :: vs) ->
  fold_right Z.max v vs = (if bool_decide (1%Z ∈ v :: vs) then 1 else 0)%Z.
Proof.
  induction vs as [|b vs IH]; intros Hbits.
  - simpl. apply Forall_cons in Hbits as [[-> | ->] _]; reflexivity.
  - simpl. apply Forall_cons in Hbits as [Hv Hbits].
    apply Forall_cons in Hbits as [Hb Hbits].
    rewrite IH by (by apply Forall_cons).
    destruct Hv as [-> | ->], Hb as [-> | ->];
      repeat case_bool_decide; try reflexivity; try lia;
      repeat match goal with
        | Hx : _ ∈ _ :: _ |- _ => apply elem_of_cons in Hx as [Hx|Hx]
        | Hx : ¬ _ ∈ _ :: _ |- _ => apply not_elem_of_cons in Hx as [? Hx]
        end; try lia; try contradiction; try discriminate.
Qed.

Lemma concat_singletons {A B : Type} (f : A -> B) (l : list A) :
  concat (map (fun a => [f a]) l) = map f l.
Proof. induction l as [|a l IH]; simpl; [reflexivity|]. by rewrite IH. Qed.

Lemma to_categorical_column (b : string -> Z) (labels : list string) :
  labels <> [] -> Forall (fun l => b l = 0 \/ b l = 1)%Z labels ->
  Keras.to_categorical (map (fun l => [b l]) labels)
  = Ok (map (fun l =>
               Keras.one_hot
                 (if bool_decide (1%Z ∈ map b labels) then 2 else 1) (b l))
          labels).
Proof.
  intros Hne Hbits. unfold Keras.to_categorical.
  rewrite concat_singletons.
  destruct (map b labels) as [|v vs] eqn:Hmap;
    [by destruct labels|].
  rewrite max_of_bits by (rewrite <- Hmap; by apply Forall_fmap).
  assert (Hrows : forallb (fun row : list Z => length row =? 1)
                    (map (fun l => [b l]) labels) = true).
  { apply forallb_forall. intros row Hrow. apply in_map_iff in Hrow
      as (l & <- & _). reflexivity. }
  rewrite Hrows. f_equal. rewrite map_map. simpl.
  by case_bool_decide.
Qed.

(** The labels of a data set with both classes. *)
Lemma encode_two_classes (labels : list string) :
  (forall l, l ∈ labels -> l = "covid"%string \/ l = "normal"%string) ->
  "covid"%string ∈ labels -> "normal"%string ∈ labels ->
  exists y,
    Sklearn.LabelBinarizer_fit_transform labels = Ok y /\
    Keras.to_categorical y
    = Ok (map (fun l => if String.eqb l "normal"
                        then Arr [Num 0; Num 1] else Arr [Num 1; Num 0])
            labels).
Proof.
  intros Hall Hc Hn.
  set (b := fun l : string => if decide (l = "normal"%string) then 1%Z else 0%Z).
  exists (map (fun l => [b l]) labels). split.
  - unfold Sklearn.LabelBinarizer_fit_transform.
    rewrite (remove_dups_two labels Hall Hc Hn).
    destruct labels as [|l labels]; [by apply elem_of_nil in Hc|reflexivity].
  - rewrite to_categorical_column.
    + f_equal. rewrite bool_decide_eq_true_2.
      * apply map_ext. intros l. unfold b.
        destruct (decide (l = "normal"%string)) as [->|Hne]; [reflexivity|].
        apply String.eqb_neq in Hne. by rewrite Hne.
      * apply list_elem_of_fmap. exists "normal"%string. split; [|exact Hn].
        reflexivity.
    + intros ->. by apply elem_of_nil in Hc.
    + apply Forall_forall. intros l _. unfold b.
      destruct (decide (l = "normal"%string)); auto.
Qed.

(** The labels of a data set with one class only. *)
Lemma encode_one_class (labels : list string) (c : string) :
  labels <> [] -> (forall l, l ∈ labels -> l = c) ->
  exists y,
    Sklearn.LabelBinarizer_fit_transform labels = Ok y /\
    Keras.to_categorical y = Ok (map (fun _ => Arr [Num 1]) labels).
Proof.
  intros Hne Hall.
  exists (map (fun l => [(fun _ : string => 0%Z) l]) labels). split.
  - unfold Sklearn.LabelBinarizer_fit_transform.
    rewrite (remove_dups_one labels c Hne Hall).
    destruct labels as [|l labels]; [done|reflexivity].
  - rewrite to_categorical_column.
    + f_equal. rewrite bool_decide_eq_false_2; [reflexivity|].
      intros Hin. apply list_elem_of_fmap in Hin as (l & Hl & _). discriminate.
    + exact Hne.
    + apply Forall_forall. auto.
Qed.

(** X10: the labels the covid preprocessing step stores are one row
    per retained image, in the order of the images.  When images of both
    classes were retained, the row of a [covid] image is [[1, 0]] and the
    row of a [normal] image is [[0, 1]]; when all retained images are of
    one class, every row is [[1]]. *)
Theorem preprocess_data_label_rows data_dir prep_dir w w' :
  preprocess_data data_dir prep_dir w = (Ok tt, w') ->
  exists data labels,
    w' !! ("/" +:+ prep_dir +:+ "/data.npz")
    = Some (Npz [("data"%string, data); ("labels"%string, labels)]) /\
    let names := map label_of (List.filter qualifies (list_images w data_dir)) in
    (forall l, l ∈ names -> l = "covid"%string \/ l = "normal"%string) /\
    ("covid"%string ∈ names -> "normal"%string ∈ names ->
     labels = map (fun l => if String.eqb l "normal"
                            then Arr [Num 0; Num 1] else Arr [Num 1; Num 0])
                names) /\
    (("covid"%string ∉ names) \/ ("normal"%string ∉ names) ->
     labels = map (fun _ => Arr [Num 1]) names).
Proof.
  unfold preprocess_data.
  destruct (load_images w (list_images w data_dir) [] [])
    as [[data0 labels0]|e] eqn:Hload; [|discriminate].
  apply load_images_Ok in Hload as (images & -> & Hlabels & _).
  simpl in Hlabels. subst labels0.
  set (names := map label_of (List.filter qualifies (list_images w data_dir))).
  assert (Hall : forall l, l ∈ names -> l = "covid"%string \/ l = "normal"%string).
  { intros l Hl. apply list_elem_of_fmap in Hl as (p & -> & Hp).
    apply list_elem_of_In, filter_In in Hp as [_ Hq].
    by apply qualifying_label. }
  destruct (Sklearn.LabelBinarizer_fit_transform names) as [y|e] eqn:Hy;
    [|discriminate].
  destruct (Keras.to_categorical y) as [labels|e] eqn:Hcat; [|discriminate].
  intros [= <-]. exists (map (divide 255) ([] ++ images)), labels.
  split; [by rewrite lookup_insert_eq|]. simpl.
  split; [exact Hall|]. split.
  - intros Hc Hn.
    destruct (encode_two_classes names Hall Hc Hn) as (y' & Hy' & Hcat').
    congruence.
  - intros Hmissing.
    assert (Hne : names <> []).
    { intros Hnil. rewrite Hnil in Hy. discriminate. }
    assert (Hone : exists c, forall l, l ∈ names -> l = c).
    { destruct Hmissing as [Hm|Hm].
      - exists "normal"%string. intros l Hl.
        destruct (Hall l Hl) as [-> | ->]; [contradiction|reflexivity].
      - exists "covid"%string. intros l Hl.
        destruct (Hall l Hl) as [-> | ->]; [reflexivity|contradiction]. }
    destruct Hone as (c & Hone).
    destruct (encode_one_class names c Hne Hone) as (y' & Hy' & Hcat').
    congruence.
Qed.

End CovidEncoding.

Lemma preprocess_data_label_rows_witness :
  @Covid.preprocess_data Samples.image_libs "/data" "/prep" Samples.covid_world
  = (Ok tt, Samples.covid_prep_world) /\
  exists data labels,
    Samples.covid_prep_world !! ("/" +:+ "/prep" +:+ "/data.npz")
    = Some (Npz [("data"%string, data); ("labels"%string, labels)]) /\
    labels = [Arr [Num 1; Num 0]; Arr [Num 0; Num 1];
              Arr [Num 1; Num 0]; Arr [Num 0; Num 1]] /\
    let names :=
      map Covid.label_of
        (List.filter Covid.qualifies
           (@Covid.list_images Samples.image_libs Samples.covid_world "/data")) in
    (forall l, l ∈ names -> l = "covid"%string \/ l = "normal"%string) /\
    ("covid"%string ∈ names -> "normal"%string ∈ names ->
     labels = map (fun l => if String.eqb l "normal"
                            then Arr [Num 0; Num 1] else Arr [Num 1; Num 0])
                names) /\
    (("covid"%string ∉ names) \/ ("normal"%string ∉ names) ->
     labels = map (fun _ => Arr [Num 1]) names).
Proof.
  assert (H1 : @Covid.preprocess_data Samples.image_libs "/data" "/prep"
                 Samples.covid_world = (Ok tt, Samples.covid_prep_world))
    by (vm_compute; reflexivity).
  split; [exact H1|].
  destruct (@preprocess_data_label_rows Samples.image_libs "/data" "/prep"
              Samples.covid_world Samples.covid_prep_world H1)
    as (data & labels & Hw & Hrest).
  exists data, labels. split; [exact Hw|]. split; [|exact Hrest].
  vm_compute in Hw. by injection Hw as _ <-.
Defined.

Section CovidSplitPartition.
Import Covid.

(** X11: the covid split step puts every loaded row in exactly one of
    its two bundles with the label of that row: the pairs of image and
    label of the training bundle and of the validation bundle together
    are the pairs of the loaded arrays, each once, and the two bundles
    are the two archives the step leaves behind. *)
Theorem traintestsplit_data_partitions_rows prep_dir file_name traintest_dir
    arrangement w w' data labels :
  np_load_key w ("/" +:+ prep_dir +:+ "/data.npz") "data" = Ok data ->
  np_load_key w ("/" +:+ prep_dir +:+ "/data.npz") "labels" = Ok labels ->
  arrangement ≡ₚ seq 0 (length data) ->
  traintestsplit_data prep_dir file_name traintest_dir arrangement w
  = (Ok tt, w') ->
  exists trainX testX trainY testY,
    w' !! ("/" +:+ traintest_dir +:+ "/train_data.npz")
    = Some (Npz [("arr_0"%string, trainX); ("arr_1"%string, trainY)]) /\
    w' !! ("/" +:+ traintest_dir +:+ "/val_data.npz")
    = Some (Npz [("arr_0"%string, testX); ("arr_1"%string, testY)]) /\
    zip trainX trainY ++ zip testX testY ≡ₚ zip data labels /\
    (forall row, row ∈ zip testX testY -> row ∈ zip data labels).
Proof.
  intros Hd Hl Harr Hs.
  apply traintestsplit_data_Ok in Hs
    as (data' & labels' & trainX & testX & trainY & testY & Hd' & Hl' & Hsp & ->).
  assert (data' = data) as -> by congruence.
  assert (labels' = labels) as -> by congruence.
  exists trainX, testX, trainY, testY.
  pose proof (train_test_split_partition _ _ _ _ _ _ _ _ _ Hsp Harr) as Hp.
  split; [|split; [|split; [exact Hp|]]].
  - unfold np_savez2. rewrite lookup_insert_ne, lookup_insert_eq; [done|].
    rewrite <- !string_app_assoc. apply path_sibling_ne. discriminate.
  - unfold np_savez2. by rewrite lookup_insert_eq.
  - intros row Hrow. rewrite <- Hp. apply elem_of_app. by right.
Qed.

End CovidSplitPartition.

Lemma traintestsplit_data_partitions_rows_witness :
  np_load_key Samples.covid_prep_world ("/" +:+ "/prep" +:+ "/data.npz") "data"
  = Ok Samples.covid_data /\
  np_load_key Samples.covid_prep_world ("/" +:+ "/prep" +:+ "/data.npz") "labels"
  = Ok Samples.covid_labels /\
  [3; 0; 2; 1] ≡ₚ seq 0 (length Samples.covid_data) /\
  Covid.traintestsplit_data "/prep" "data.zip" "/traintest" [3; 0; 2; 1]
    Samples.covid_prep_world = (Ok tt, Samples.covid_split_world) /\
  exists trainX testX trainY testY,
    Samples.covid_split_world !! ("/" +:+ "/traintest" +:+ "/train_data.npz")
    = Some (Npz [("arr_0"%string, trainX); ("arr_1"%string, trainY)]) /\
    Samples.covid_split_world !! ("/" +:+ "/traintest" +:+ "/val_data.npz")
    = Some (Npz [("arr_0"%string, testX); ("arr_1"%string, testY)]) /\
    zip trainX trainY ++ zip testX testY
    ≡ₚ zip Samples.covid_data Samples.covid_labels /\
    (forall row, row ∈ zip testX testY ->
       row ∈ zip Samples.covid_data Samples.covid_labels).
Proof.
  assert (H1 : np_load_key Samples.covid_prep_world
                 ("/" +:+ "/prep" +:+ "/data.npz") "data"
               = Ok Samples.covid_data) by (vm_compute; reflexivity).
  assert (H2 : np_load_key Samples.covid_prep_world
                 ("/" +:+ "/prep" +:+ "/data.npz") "labels"
               = Ok Samples.covid_labels) by (vm_compute; reflexivity).
  assert (H3 : [3; 0; 2; 1] ≡ₚ seq 0 (length Samples.covid_data))
    by (apply (bool_decide_unpack _); vm_compute; reflexivity).
  assert (H4 : Covid.traintestsplit_data "/prep" "data.zip" "/traintest"
                 [3; 0; 2; 1] Samples.covid_prep_world
               = (Ok tt, Samples.covid_split_world))
    by (vm_compute; reflexivity).
  split; [exact H1|]. split; [exact H2|]. split; [exact H3|].
  split; [exact H4|].
  exact (traintestsplit_data_partitions_rows "/prep" "data.zip" "/traintest"
           [3; 0; 2; 1] Samples.covid_prep_world Samples.covid_split_world
           Samples.covid_data Samples.covid_labels H1 H2 H3 H4).
Defined.

(** ** The covid notebook: when the split step completes *)

Section CovidSplitCompletes.
Import Sklearn Covid.

Lemma validate_shuffle_split_40 (n : nat) :
  validate_shuffle_split n (40 # 100)
  = let n_test := Z.to_nat (Qceiling ((40 # 100) * inject_Z (Z.of_nat n))) in
    if n - n_test =? 0 then Raise ValueError else Ok (n - n_test, n_test).
Proof.
  unfold validate_shuffle_split.
  destruct (Qlt_le_dec 0 (40 # 100)) as [_|Hc]; [|by vm_compute in Hc].
  destruct (Qlt_le_dec (40 # 100) 1) as [_|Hc]; [|by vm_compute in Hc].
  reflexivity.
Qed.

Lemma stratified_checks_spec {C : Type} `{EqDecision C}
    (y : list C) (n_train n_test : nat) :
  (stratified_checks y n_train n_test = Ok tt <->
   (forall c, c ∈ y -> 2 <= length (filter (fun v => v = c) y)) /\
   length (remove_dups y) <= n_train /\ length (remove_dups y) <= n_test) /\
  (stratified_checks y n_train n_test <> Ok tt ->
   stratified_checks y n_train n_test = Raise ValueError).
Proof.
  unfold stratified_checks, class_counts, classes.
  destruct (existsb _ _) eqn:Hex.
  - split; [|reflexivity]. split; [discriminate|].
    intros (Hall & _). exfalso.
    apply existsb_exists in Hex as (k & Hk & Hlt).
    apply in_map_iff in Hk as (c & <- & Hc).
    rewrite <- list_elem_of_In, elem_of_remove_dups in Hc.
    apply Nat.ltb_lt in Hlt. specialize (Hall c Hc). lia.
  - assert (Hall : forall c, c ∈ y -> 2 <= length (filter (fun v => v = c) y)).
    { intros c Hc.
      destruct (decide (2 <= length (filter (fun v => v = c) y)))
        as [Hok|Hbad]; [exact Hok|].
      exfalso. assert (Ht : existsb (fun k => k <? 2)
                 (map (fun c => length (filter (fun v => v = c) y))
                    (remove_dups y)) = true); [|congruence].
      apply existsb_exists. eexists. split.
      - apply in_map_iff. exists c. split; [reflexivity|].
        rewrite <- list_elem_of_In, elem_of_remove_dups. exact Hc.
      - apply Nat.ltb_lt. lia. }
    destruct (n_train <? length (remove_dups y)) eqn:Htr.
    + apply Nat.ltb_lt in Htr. split; [|reflexivity].
      split; [discriminate|]. intros (_ & Hle & _). lia.
    + apply Nat.ltb_ge in Htr.
      destruct (n_test <? length (remove_dups y)) eqn:Hte.
      * apply Nat.ltb_lt in Hte. split; [|reflexivity].
        split; [discriminate|]. intros (_ & _ & Hle). lia.
      * apply Nat.ltb_ge in Hte. split; [|congruence]. by split.
Qed.


End CovidSplitCompletes.


(** ** The covid notebook: preprocessing, then the split *)

Section CovidChain.
Import Covid.
Context `{ImageLibs}.

(** X13: the covid split step reads the archive the preprocessing step
    wrote.  Run after a completed preprocessing step with the same
    [prep_dir], it finds one image and one label per qualifying file, and
    when it completes, its two bundles hold that many rows together, four
    tenths of them, rounded up, in the validation bundle. *)
Theorem traintestsplit_data_after_preprocess_data data_dir prep_dir file_name
    traintest_dir arrangement w w1 w2 :
  preprocess_data data_dir prep_dir w = (Ok tt, w1) ->
  arrangement
  ≡ₚ seq 0 (length (List.filter qualifies (list_images w data_dir))) ->
  traintestsplit_data prep_dir file_name traintest_dir arrangement w1
  = (Ok tt, w2) ->
  exists data labels trainX testX trainY testY,
    np_load_key w1 ("/" +:+ prep_dir +:+ "/data.npz") "data" = Ok data /\
    np_load_key w1 ("/" +:+ prep_dir +:+ "/data.npz") "labels" = Ok labels /\
    length data = length (List.filter qualifies (list_images w data_dir)) /\
    length labels = length data /\
    w2 !! ("/" +:+ traintest_dir +:+ "/train_data.npz")
    = Some (Npz [("arr_0"%string, trainX); ("arr_1"%string, trainY)]) /\
    w2 !! ("/" +:+ traintest_dir +:+ "/val_data.npz")
    = Some (Npz [("arr_0"%string, testX); ("arr_1"%string, testY)]) /\
    length trainX = length trainY /\ length testX = length testY /\
    length trainX + length testX
    = length (List.filter qualifies (list_images w data_dir)) /\
    Z.of_nat (length testX)
    = Qceiling ((40 # 100) * inject_Z (Z.of_nat
                  (length (List.filter qualifies (list_images w data_dir))))).
Proof.
  intros Hp Harr Hs.
  apply preprocess_data_Ok in Hp as (data & labels & -> & Hd & Hl & _).
  assert (Hrd : np_load_key
                  (<["/" +:+ prep_dir +:+ "/data.npz" :=
                       Npz [("data"%string, data); ("labels"%string, labels)]]>
                     (ensure_dir prep_dir w))
                  ("/" +:+ prep_dir +:+ "/data.npz") "data" = Ok data)
    by (unfold np_load_key; by rewrite lookup_insert_eq).
  assert (Hrl : np_load_key
                  (<["/" +:+ prep_dir +:+ "/data.npz" :=
                       Npz [("data"%string, data); ("labels"%string, labels)]]>
                     (ensure_dir prep_dir w))
                  ("/" +:+ prep_dir +:+ "/data.npz") "labels" = Ok labels)
    by (unfold np_load_key; by rewrite lookup_insert_eq).
  apply traintestsplit_data_Ok in Hs
    as (data' & labels' & trainX & testX & trainY & testY & Hd' & Hl' & Hsp & ->).
  assert (data' = data) as -> by congruence.
  assert (labels' = labels) as -> by congruence.
  rewrite <- Hd in Harr.
  pose proof (train_test_split_sizes _ _ _ _ _ _ _ _ _ Hsp Harr)
    as (Htr & Hte & Hsum & Hceil).
  exists data, labels, trainX, testX, trainY, testY.
  split; [exact Hrd|]. split; [exact Hrl|]. split; [exact Hd|].
  split; [congruence|]. split; [|split; [|split; [exact Htr|split;
    [exact Hte|split; [congruence|by rewrite <- Hd]]]]].
  - unfold np_savez2. rewrite lookup_insert_ne, lookup_insert_eq; [done|].
    rewrite <- !string_app_assoc. apply path_sibling_ne. discriminate.
  - unfold np_savez2. by rewrite lookup_insert_eq.
Qed.

End CovidChain.

Lemma traintestsplit_data_after_preprocess_data_witness :
  @Covid.preprocess_data Samples.image_libs "/data" "/prep" Samples.covid_world
  = (Ok tt, Samples.covid_prep_world) /\
  [3; 0; 2; 1]
  ≡ₚ seq 0 (length (List.filter Covid.qualifies
                      (@Covid.list_images Samples.image_libs Samples.covid_world
                         "/data"))) /\
  Covid.traintestsplit_data "/prep" "data.zip" "/traintest" [3; 0; 2; 1]
    Samples.covid_prep_world = (Ok tt, Samples.covid_split_world) /\
  exists data labels trainX testX trainY testY,
    np_load_key Samples.covid_prep_world ("/" +:+ "/prep" +:+ "/data.npz") "data"
    = Ok data /\
    np_load_key Samples.covid_prep_world ("/" +:+ "/prep" +:+ "/data.npz")
      "labels" = Ok labels /\
    length data
    = length (List.filter Covid.qualifies
                (@Covid.list_images Samples.image_libs Samples.covid_world
                   "/data")) /\
    length labels = length data /\
    Samples.covid_split_world !! ("/" +:+ "/traintest" +:+ "/train_data.npz")
    = Some (Npz [("arr_0"%string, trainX); ("arr_1"%string, trainY)]) /\
    Samples.covid_split_world !! ("/" +:+ "/traintest" +:+ "/val_data.npz")
    = Some (Npz [("arr_0"%string, testX); ("arr_1"%string, testY)]) /\
    length trainX = length trainY /\ length testX = length testY /\
    length trainX + length testX
    = length (List.filter Covid.qualifies
                (@Covid.list_images Samples.image_libs Samples.covid_world
                   "/data")) /\
    Z.of_nat (length testX)
    = Qceiling ((40 # 100) * inject_Z (Z.of_nat
                  (length (List.filter Covid.qualifies
                             (@Covid.list_images Samples.image_libs
                                Samples.covid_world "/data"))))).
Proof.
  assert (H1 : @Covid.preprocess_data Samples.image_libs "/data" "/prep"
                 Samples.covid_world = (Ok tt, Samples.covid_prep_world))
    by (vm_compute; reflexivity).
  assert (H2 : [3; 0; 2; 1]
               ≡ₚ seq 0 (length (List.filter Covid.qualifies
                            (@Covid.list_images Samples.image_libs
                               Samples.covid_world "/data"))))
    by (apply (bool_decide_unpack _); vm_compute; reflexivity).
  assert (H3 : Covid.traintestsplit_data "/prep" "data.zip" "/traintest"
                 [3; 0; 2; 1] Samples.covid_prep_world
               = (Ok tt, Samples.covid_split_world))
    by (vm_compute; reflexivity).
  split; [exact H1|]. split; [exact H2|]. split; [exact H3|].
  exact (@traintestsplit_data_after_preprocess_data Samples.image_libs
           "/data" "/prep" "data.zip" "/traintest" _ _ _ _ H1 H2 H3).
Defined.

(** ** The covid notebook: the predicted classes *)

Section CovidPredictions.
Import Covid.

Lemma cell_gt_irrefl (c : nd) : cell_gt c c = false.
Proof.
  destruct c as [q| | |]; simpl; try reflexivity.
  apply negb_false_iff, Qle_bool_iff, Qle_refl.
Qed.

Lemma cell_gt_step (x best c : nd) :
  is_number x = true -> is_number best = true -> is_number c = true ->
  cell_gt x best = false -> cell_gt c best = true ->
  cell_gt x c = false /\ cell_gt c x = true.
Proof.
  destruct x as [r| | |], best as [q| | |], c as [p| | |]; simpl;
    try discriminate; try (intros; split; reflexivity); intros _ _ _.
  - rewrite !negb_false_iff, !negb_true_iff, Qle_bool_iff.
    intros Hrq Hpq.
    assert (Hlt : (q < p)%Q).
    { apply Qnot_le_lt. intros Hle. apply Qle_bool_iff in Hle. congruence. }
    split.
    + apply Qle_bool_iff. apply Qlt_le_weak.
      eapply Qle_lt_trans; [exact Hrq|exact Hlt].
    + destruct (Qle_bool p r) eqn:E; [|reflexivity].
      apply Qle_bool_iff in E. exfalso.
      apply (Qlt_irrefl q). eapply Qlt_le_trans; [exact Hlt|].
      eapply Qle_trans; [exact E|exact Hrq].
Qed.

(** The cell [argmax_from] ends at is a largest one, and the first of
    the largest. *)
Lemma argmax_from_spec (cells : list nd) :
  forall (pre : list nd) (best : nd) (best_i : nat),
    Forall (fun c => is_number c = true) (pre ++ cells) ->
    pre !! best_i = Some best ->
    (forall c, c ∈ pre -> cell_gt c best = false) ->
    (forall j c, j < best_i -> pre !! j = Some c -> cell_gt best c = true) ->
    exists b,
      (pre ++ cells) !! argmax_from best best_i (length pre) cells = Some b /\
      (forall c, c ∈ pre ++ cells -> cell_gt c b = false) /\
      (forall j c, j < argmax_from best best_i (length pre) cells ->
         (pre ++ cells) !! j = Some c -> cell_gt b c = true).
Proof.
  induction cells as [|c cells IH]; intros pre best bi Hnum Hbest Hmax Hfirst.
  - simpl. rewrite app_nil_r. eauto.
  - simpl.
    assert (Hnum' : Forall (fun c => is_number c = true) ((pre ++ [c]) ++ cells))
      by (by rewrite <- app_assoc).
    rewrite Forall_forall in Hnum.
    assert (Hpre : forall x, x ∈ pre -> is_number x = true)
      by (intros x Hx; apply Hnum, elem_of_app; by left).
    assert (Hnb : is_number best = true)
      by (apply Hpre; by apply list_elem_of_lookup_2 in Hbest).
    assert (Hnc : is_number c = true)
      by (apply Hnum, elem_of_app; right; apply list_elem_of_here).
    replace (pre ++ c :: cells) with ((pre ++ [c]) ++ cells)
      by (by rewrite <- app_assoc).
    replace (S (length pre)) with (length (pre ++ [c]))
      by (rewrite length_app; simpl; lia).
    destruct (cell_gt c best) eqn:Hgt.
    + apply IH.
      * exact Hnum'.
      * by rewrite list_lookup_middle.
      * intros x Hx. apply elem_of_app in Hx as [Hx|Hx].
        -- apply (cell_gt_step x best c); auto.
        -- apply list_elem_of_singleton in Hx as ->. apply cell_gt_irrefl.
      * intros j x Hj Hx. rewrite lookup_app_l in Hx by exact Hj.
        apply list_elem_of_lookup_2 in Hx.
        apply (cell_gt_step x best c); auto.
    + apply IH.
      * exact Hnum'.
      * by apply lookup_app_l_Some.
      * intros x Hx. apply elem_of_app in Hx as [Hx|Hx]; [by apply Hmax|].
        by apply list_elem_of_singleton in Hx as ->.
      * intros j x Hj Hx. apply (Hfirst j x Hj).
        apply lookup_lt_Some in Hbest.
        by rewrite lookup_app_l in Hx by lia.
Qed.

Lemma argmax_row_Ok (row : nd) (i : nat) :
  argmax_row row = Ok i ->
  exists cells best,
    row = Arr cells /\ cells !! i = Some best /\
    (forall c, c ∈ cells -> cell_gt c best = false) /\
    (forall j c, j < i -> cells !! j = Some c -> cell_gt best c = true).
Proof.
  unfold argmax_row. destruct row as [| | |[|c cells]]; try discriminate.
  destruct (forallb is_number (c :: cells)) eqn:Hnum; [|discriminate].
  intros [= <-].
  destruct (argmax_from_spec cells [c] c 0) as (b & Hb & Hmax & Hfirst).
  - apply Forall_forall. intros x Hx. rewrite forallb_forall in Hnum.
    apply Hnum. by apply list_elem_of_In.
  - reflexivity.
  - intros x Hx. apply list_elem_of_singleton in Hx as ->.
    apply cell_gt_irrefl.
  - intros j x Hj. lia.
  - exists (c :: cells), b. auto.
Qed.

Lemma argmax_axis1_Ok (a : ndarray) (l : list nat) :
  argmax_axis1 a = Ok l ->
  Forall2 (fun row i => argmax_row row = Ok i) a l.
Proof.
  revert l. induction a as [|row a IH]; intros l; simpl.
  - intros [= <-]. constructor.
  - destruct (argmax_row row) as [i|e] eqn:Hi; [|discriminate].
    destruct (argmax_axis1 a) as [l'|e]; [|discriminate].
    intros [= <-]. constructor; [exact Hi|by apply IH].
Qed.

Section Evaluate.
Context {model : Type} `{Tensorflow model}.

(** X14: when the covid evaluation step completes, it has one class
    index per row of scores the model gave the validation images; the
    index of a row points at a score of that row that no score of the row
    exceeds, and every score before it in the row is lower. *)
Theorem evaluate_model_picks_highest_score traintest_dir model_dir w predIdxs :
  evaluate_model traintest_dir model_dir w = Ok predIdxs ->
  exists testX m scores,
    np_load_file w (traintest_dir +:+ "/val_data.npz") 0 = Ok testX /\
    load_model w model_dir = Ok m /\
    predict m testX 10 = Ok scores /\
    length predIdxs = length scores /\
    forall n row i,
      scores !! n = Some row -> predIdxs !! n = Some i ->
      exists cells best,
        row = Arr cells /\ cells !! i = Some best /\
        (forall c, c ∈ cells -> cell_gt c best = false) /\
        (forall j c, j < i -> cells !! j = Some c -> cell_gt best c = true).
Proof.
  unfold evaluate_model.
  destruct (np_load_file w _ 0) as [testX|e] eqn:HX; [|discriminate].
  destruct (np_load_file w _ 1) as [testY|e] eqn:HY; [|discriminate].
  destruct (load_model w model_dir) as [m|e] eqn:Hm; [|discriminate].
  destruct (predict m testX 10) as [scores|e] eqn:Hs; [|discriminate].
  intros Ha. apply argmax_axis1_Ok in Ha.
  exists testX, m, scores.
  split; [reflexivity|]. split; [reflexivity|]. split; [exact Hs|].
  split; [symmetry; by apply Forall2_length in Ha|].
  intros n row i Hrow Hi.
  apply argmax_row_Ok. by apply (Forall2_lookup_lr _ _ _ n row i Ha).
Qed.

End Evaluate.

End CovidPredictions.

Lemma evaluate_model_picks_highest_score_witness :
  @Covid.evaluate_model unit Samples.threshold "/traintest" "/model"
    Samples.mixed_world = Ok [0; 1; 0] /\
  exists testX m scores,
    np_load_file Samples.mixed_world ("/traintest" +:+ "/val_data.npz") 0
    = Ok testX /\
    @Covid.load_model unit Samples.threshold Samples.mixed_world "/model"
    = Ok m /\
    @Covid.predict unit Samples.threshold m testX 10 = Ok scores /\
    length [0; 1; 0] = length scores /\
    forall n row i,
      scores !! n = Some row -> [0; 1; 0] !! n = Some i ->
      exists cells best,
        row = Arr cells /\ cells !! i = Some best /\
        (forall c, c ∈ cells -> Covid.cell_gt c best = false) /\
        (forall j c, j < i -> cells !! j = Some c ->
           Covid.cell_gt best c = true).
Proof.
  assert (H1 : @Covid.evaluate_model unit Samples.threshold "/traintest"
                 "/model" Samples.mixed_world = Ok [0; 1; 0])
    by (vm_compute; reflexivity).
  split; [exact H1|].
  exact (@evaluate_model_picks_highest_score unit Samples.threshold
           "/traintest" "/model" Samples.mixed_world [0; 1; 0] H1).
Defined.

(** ** The covid notebook: the confusion matrix *)

Section ConfusionMatrix.
Import Covid.

Lemma row_entries_Ok labels target_index target row :
  labels !! target_index = Some target ->
  forall predicted_index data,
    predicted_index + length row <= length labels ->
    row_entries labels target_index predicted_index row data
    = Ok (data ++ zip_with (fun predicted count => (target, predicted, count))
                    (drop predicted_index labels) row).
Proof.
  intros Ht. induction row as [|count row IH]; intros pj data Hlen; simpl.
  - by rewrite zip_with_nil_r, app_nil_r.
  - simpl in Hlen. rewrite Ht.
    destruct (labels !! pj) as [p|] eqn:Hp;
      [|apply lookup_ge_None in Hp; lia].
    rewrite IH by lia. rewrite (drop_S _ _ _ Hp). simpl.
    by rewrite <- app_assoc.
Qed.

Lemma row_entries_too_long labels target_index row :
  forall predicted_index data,
    predicted_index <= length labels ->
    length labels < predicted_index + length row ->
    row_entries labels target_index predicted_index row data
    = Raise IndexError.
Proof.
  induction row as [|count row IH]; intros pj data Hle Hlen; simpl in *.
  - lia.
  - destruct (labels !! target_index) as [t|]; [|reflexivity].
    destruct (labels !! pj) as [p|] eqn:Hp; [|reflexivity].
    apply lookup_lt_Some in Hp. apply IH; lia.
Qed.

Lemma matrix_entries_Ok labels matrix :
  Forall (fun row => length row <= length labels) matrix ->
  forall target_index data,
    target_index + length matrix <= length labels ->
    matrix_entries labels target_index matrix data
    = Ok (data ++
          concat (zip_with
                    (fun target row =>
                       zip_with (fun predicted count =>
                                   (target, predicted, count)) labels row)
                    (drop target_index labels) matrix)).
Proof.
  induction 1 as [|row matrix Hrow _ IH]; intros ti data Hlen; simpl.
  - by rewrite zip_with_nil_r, app_nil_r.
  - simpl in Hlen.
    destruct (labels !! ti) as [t|] eqn:Ht;
      [|apply lookup_ge_None in Ht; lia].
    rewrite (row_entries_Ok _ _ _ _ Ht) by (simpl; lia).
    rewrite IH by lia. rewrite (drop_S _ _ _ Ht), drop_0. simpl.
    by rewrite <- app_assoc.
Qed.

Lemma matrix_entries_first_row_too_long labels row rest :
  length labels < length row ->
  matrix_entries labels 0 (row :: rest) [] = Raise IndexError.
Proof.
  intros Hlen. change (matrix_entries labels 0 (row :: rest) [])
    with (match row_entries labels 0 0 row [] with
          | Raise e => Raise e
          | Ok data => matrix_entries labels 1 rest data
          end).
  rewrite row_entries_too_long; [reflexivity|lia|lia].
Qed.

Lemma sum_list_zero {A : Type} (l : list A) :
  sum_list (map (fun _ => 0) l) = 0.
Proof. induction l; simpl; auto. Qed.

Lemma sum_list_plus {A : Type} (f g : A -> nat) (l : list A) :
  sum_list (map (fun a => f a + g a) l)
  = sum_list (map f l) + sum_list (map g l).
Proof. induction l as [|a l IH]; simpl; [reflexivity|]. rewrite IH. lia. Qed.

Lemma sum_list_indicator (b : nat) (v : nat) (l : list nat) :
  NoDup l -> b ∈ l ->
  sum_list (map (fun p => if b =? p then v else 0) l) = v.
Proof.
  induction 1 as [|p l Hp Hnd IH]; intros Hin; simpl.
  - by apply elem_of_nil in Hin.
  - apply elem_of_cons in Hin as [->|Hin].
    + rewrite Nat.eqb_refl.
      assert (Hz : sum_list (map (fun q => if p =? q then v else 0) l) = 0).
      { clear IH Hnd. induction l as [|q l IH]; simpl; [reflexivity|].
        apply not_elem_of_cons in Hp as [Hne Hp].
        apply Nat.eqb_neq in Hne. rewrite Hne. by apply IH. }
      lia.
    + assert (Hne : b <> p) by (intros ->; contradiction).
      apply Nat.eqb_neq in Hne. rewrite Hne. by apply IH.
Qed.

(** Every pair of a true and a predicted class is counted in one cell. *)
Lemma count_pairs_total (present : list nat) (y_true y_pred : list nat) :
  NoDup present ->
  (forall a, a ∈ y_true -> a ∈ present) ->
  (forall b, b ∈ y_pred -> b ∈ present) ->
  sum_list (map (fun t =>
                   sum_list (map (fun p => count_pairs t p y_true y_pred)
                               present)) present)
  = length (zip y_true y_pred).
Proof.
  intros Hnd. unfold count_pairs. revert y_pred.
  induction y_true as [|a y_true IH]; intros y_pred Ht Hp.
  - simpl. etransitivity; [|apply (sum_list_zero present)].
    f_equal. apply map_ext. intros t. apply sum_list_zero.
  - destruct y_pred as [|b y_pred].
    + simpl. etransitivity; [|apply (sum_list_zero present)].
      f_equal. apply map_ext. intros t. apply sum_list_zero.
    + simpl.
      transitivity
        (sum_list (map (fun t =>
           (if a =? t then 1 else 0) +
           sum_list (map (fun p =>
             length (List.filter (fun '(a0, b0) => (a0 =? t) && (b0 =? p))
                       (zip y_true y_pred))) present)) present)).
      * f_equal. apply map_ext. intros t.
        rewrite <- (sum_list_indicator b (if a =? t then 1 else 0) present Hnd)
          by (apply Hp, list_elem_of_here).
        rewrite <- sum_list_plus. f_equal. apply map_ext. intros p.
        destruct (a =? t), (b =? p); reflexivity.
      * rewrite sum_list_plus, (sum_list_indicator a 1 present Hnd)
          by (apply Ht, list_elem_of_here).
        rewrite IH; [reflexivity| |];
          intros c Hc; [apply Ht|apply Hp]; by apply list_elem_of_further.
Qed.

Lemma present_classes (y_true y_pred : list nat) :
  NoDup (merge_sort le (remove_dups (y_true ++ y_pred))) /\
  (forall a, a ∈ y_true -> a ∈ merge_sort le (remove_dups (y_true ++ y_pred))) /\
  (forall b, b ∈ y_pred -> b ∈ merge_sort le (remove_dups (y_true ++ y_pred))).
Proof.
  split; [|split].
  - rewrite merge_sort_Permutation. apply NoDup_remove_dups.
  - intros a Ha. rewrite merge_sort_Permutation, elem_of_remove_dups.
    apply elem_of_app. by left.
  - intros b Hb. rewrite merge_sort_Permutation, elem_of_remove_dups.
    apply elem_of_app. by right.
Qed.

Lemma map_zip_with_r {A B C D : Type} (g : C -> D) (h : B -> D)
    (f : A -> B -> C) (l : list A) (k : list B) :
  length k <= length l -> (forall a b, g (f a b) = h b) ->
  map g (zip_with f l k) = map h k.
Proof.
  intros Hlen Hg. revert l Hlen.
  induction k as [|b k IH]; intros [|a l] Hlen; simpl in *; try lia;
    [reflexivity|reflexivity|].
  rewrite Hg. f_equal. apply IH. lia.
Qed.

Lemma sum_list_append (a b : list nat) :
  sum_list (a ++ b) = sum_list a + sum_list b.
Proof. induction a as [|x a IH]; simpl; [reflexivity|]. rewrite IH. lia. Qed.

Lemma sum_list_concat {A : Type} (f : A -> nat) (l : list (list A)) :
  sum_list (map f (concat l)) = sum_list (map (fun r => sum_list (map f r)) l).
Proof.
  induction l as [|a l IH]; simpl; [reflexivity|].
  by rewrite map_app, sum_list_append, IH.
Qed.

Lemma length_concat_sum {A : Type} (l : list (list A)) :
  length (concat l) = sum_list (map length l).
Proof.
  induction l as [|a l IH]; simpl; [reflexivity|].
  by rewrite length_app, IH.
Qed.

Lemma sum_list_const {A : Type} (v : nat) (l : list A) :
  sum_list (map (fun _ => v) l) = length l * v.
Proof. induction l as [|a l IH]; simpl; [reflexivity|]. by rewrite IH. Qed.

Section Plot.
Context {model : Type} `{Tensorflow model} `{Serialisers}.

(** X15: the rows of the confusion matrix the covid step writes.
    With [k] classes among the true and the predicted classes of the
    validation rows and at least [k] labels, the step writes [k * k] rows
    whose counts add up to the number of validation rows; the row for the
    [i]th and the [j]th class in increasing order is named by the [i]th
    and the [j]th label, and it counts the rows of that true and that
    predicted class.  With fewer than [k] labels the step raises
    [IndexError] and writes nothing. *)
Theorem plot_confusion_matrix_rows traintest_dir model_dir labels path w
    testX testY m scores y_true y_pred :
  np_load_file w (traintest_dir +:+ "/val_data.npz") 0 = Ok testX ->
  np_load_file w (traintest_dir +:+ "/val_data.npz") 1 = Ok testY ->
  load_model w model_dir = Ok m ->
  argmax_axis1 testY = Ok y_true ->
  predict m testX 32 = Ok scores ->
  argmax_axis1 scores = Ok y_pred ->
  length y_true = length y_pred ->
  w !! path <> Some Directory ->
  let present := merge_sort le (remove_dups (y_true ++ y_pred)) in
  let data :=
    concat (zip_with
              (fun target t =>
                 zip_with (fun predicted p =>
                             (target, predicted,
                              count_pairs t p y_true y_pred))
                   labels present)
              labels present) in
  (length present <= length labels ->
   plot_confusion_matrix traintest_dir model_dir labels path w
   = (Ok tt, <[path := Blob (json_dumps (to_csv data) labels)]> w) /\
   length data = length present * length present /\
   sum_list (map snd data) = length y_true) /\
  (length labels < length present ->
   plot_confusion_matrix traintest_dir model_dir labels path w
   = (Raise IndexError, w)).
Proof.
  intros HX HY Hm Ht Hs Hp Hlen Hpath present data.
  assert (Hcm : confusion_matrix y_true y_pred
                = Ok (map (fun t => map (fun p => count_pairs t p y_true y_pred)
                                      present) present)).
  { unfold confusion_matrix. by rewrite Hlen, Nat.eqb_refl. }
  unfold plot_confusion_matrix. rewrite HX, HY, Hm, Ht, Hs, Hp, Hcm.
  split.
  - intros Hk.
    rewrite matrix_entries_Ok.
    2:{ apply Forall_forall. intros row Hrow.
        apply list_elem_of_fmap in Hrow as (t & -> & _).
        by rewrite length_map. }
    2:{ by rewrite length_map. }
    rewrite drop_0, app_nil_l, zip_with_fmap_r.
    assert (Hdata :
      concat (zip_with
                (fun target t =>
                   zip_with (fun predicted count => (target, predicted, count))
                     labels
                     (map (fun p => count_pairs t p y_true y_pred) present))
                labels present) = data).
    { unfold data. f_equal. apply zip_with_ext; [|reflexivity|reflexivity].
      intros target t. by rewrite zip_with_fmap_r. }
    rewrite Hdata.
    split; [|split].
    + destruct (w !! path) as [[]|]; try reflexivity. by destruct Hpath.
    + unfold data. rewrite length_concat_sum.
      rewrite (map_zip_with_r length (fun _ => length present)) by
        (try exact Hk; intros target t; rewrite length_zip_with; lia).
      apply sum_list_const.
    + unfold data. rewrite sum_list_concat.
      rewrite (map_zip_with_r _
                 (fun t => sum_list (map (fun p => count_pairs t p y_true y_pred)
                                       present))).
      * destruct (present_classes y_true y_pred) as (Hnd & Hin1 & Hin2).
        fold present in Hnd, Hin1, Hin2.
        rewrite (count_pairs_total present y_true y_pred Hnd Hin1 Hin2).
        rewrite length_zip_with. lia.
      * exact Hk.
      * intros target t. f_equal. by apply map_zip_with_r.
  - intros Hk. clear data. subst present.
    destruct (merge_sort le (remove_dups (y_true ++ y_pred))) as [|c ps];
      [simpl in Hk; lia|].
    rewrite map_cons, matrix_entries_first_row_too_long; [reflexivity|].
    rewrite length_map. exact Hk.
Qed.

End Plot.

End ConfusionMatrix.

Lemma plot_confusion_matrix_rows_witness :
  @Covid.plot_confusion_matrix unit Samples.always_normal Samples.plain_text
    "/traintest" "/model" ["covid"; "normal"]%string "/out/metadata.json"
    Samples.normal_only_world
  = (Ok tt,
     <["/out/metadata.json"%string := Blob "covid,covid,2;"]>
       Samples.normal_only_world) /\
  let y_true := [1; 1] in
  let y_pred := [1; 1] in
  let labels := ["covid"; "normal"]%string in
  let present := merge_sort le (remove_dups (y_true ++ y_pred)) in
  let data :=
    concat (zip_with
              (fun target t =>
                 zip_with (fun predicted p =>
                             (target, predicted,
                              Covid.count_pairs t p y_true y_pred))
                   labels present)
              labels present) in
  (length present <= length labels ->
   @Covid.plot_confusion_matrix unit Samples.always_normal Samples.plain_text
     "/traintest" "/model" labels "/out/metadata.json"
     Samples.normal_only_world
   = (Ok tt,
      <["/out/metadata.json"%string :=
          Blob (@Covid.json_dumps Samples.plain_text
                  (@Covid.to_csv Samples.plain_text data) labels)]>
        Samples.normal_only_world) /\
   length data = length present * length present /\
   sum_list (map snd data) = length y_true) /\
  (length labels < length present ->
   @Covid.plot_confusion_matrix unit Samples.always_normal Samples.plain_text
     "/traintest" "/model" labels "/out/metadata.json"
     Samples.normal_only_world
   = (Raise IndexError, Samples.normal_only_world)).
Proof.
  split; [vm_compute; reflexivity|].
  apply (@plot_confusion_matrix_rows unit Samples.always_normal
           Samples.plain_text "/traintest" "/model" ["covid"; "normal"]%string
           "/out/metadata.json" Samples.normal_only_world
           [Arr [Num 7]; Arr [Num 8]]
           [Arr [Num 0; Num 1]; Arr [Num 0; Num 1]] tt
           [Arr [Num 0; Num 1]; Arr [Num 0; Num 1]] [1; 1] [1; 1]);
    try (vm_compute; reflexivity).
  vm_compute. discriminate.
Defined.

(** ** The insurance notebook: what the encoding step changes *)

Section InsuranceEncoding.
Import Pandas Insurance.
Context `{Library}.

Lemma column_index_lt name cols i :
  column_index name cols = Some i -> i < length cols.
Proof.
  revert i. induction cols as [|c cols IH]; intros i; simpl; [discriminate|].
  destruct (String.eqb c name); [intros [= <-]; lia|].
  destruct (column_index name cols) as [j|]; [|discriminate].
  intros [= <-]. specialize (IH j eq_refl). lia.
Qed.

Lemma column_index_inj a b cols i :
  column_index a cols = Some i -> column_index b cols = Some i -> a = b.
Proof.
  revert i. induction cols as [|c cols IH]; intros i; simpl; [discriminate|].
  destruct (String.eqb c a) eqn:Ea; destruct (String.eqb c b) eqn:Eb.
  - apply String.eqb_eq in Ea, Eb. congruence.
  - intros [= <-]. destruct (column_index b cols); discriminate.
  - intros Ha [= <-]. destruct (column_index a cols); discriminate.
  - destruct (column_index a cols) as [j|]; [|discriminate].
    destruct (column_index b cols) as [j'|]; [|discriminate].
    simpl. intros [= <-] [= ->]. by apply (IH j).
Qed.

Lemma map_zip_with_same {A B C : Type} (g : A -> C) (f : A -> B -> A)
    (l : list A) (k : list B) :
  length k = length l -> (forall r v, g (f r v) = g r) ->
  map g (zip_with f l k) = map g l.
Proof.
  intros Hlen Hg. revert k Hlen.
  induction l as [|r l IH]; intros [|v k] Hlen; try discriminate; simpl;
    [reflexivity|].
  rewrite Hg. f_equal. apply IH. by injection Hlen.
Qed.

Lemma map_zip_with_written (i : nat) (l : list (list nd)) (k : list nd) :
  length k = length l -> Forall (fun r => i < length r) l ->
  map (fun r => default NaN (r !! i)) (zip_with (fun r v => <[i := v]> r) l k)
  = k.
Proof.
  intros Hlen Hl. revert k Hlen.
  induction Hl as [|r l Hr _ IH]; intros [|v k] Hlen; try discriminate; simpl;
    [reflexivity|].
  rewrite list_lookup_insert_eq by exact Hr. simpl. f_equal. apply IH.
  by injection Hlen.
Qed.

(** Assigning to a column that exists writes that column and no other. *)
Lemma set_column_existing name values df df' i :
  column_index name (columns df) = Some i -> rectangular df ->
  set_column name values df = Ok df' ->
  columns df' = columns df /\ length (rows df') = length (rows df) /\
  rectangular df' /\ column name df' = Ok values /\
  forall other, other <> name -> column other df' = column other df.
Proof.
  intros Hi Hrect. unfold set_column.
  destruct (length values =? length (rows df)) eqn:Hlen; [|discriminate].
  apply Nat.eqb_eq in Hlen. rewrite Hi. simpl. intros [= <-]. simpl.
  pose proof (column_index_lt _ _ _ Hi) as Hlt.
  split; [reflexivity|]. split; [rewrite length_zip_with; lia|].
  split; [|split].
  - unfold rectangular in *. simpl.
    apply Forall_forall. intros r Hr.
    apply elem_of_lookup_zip_with in Hr as (j & r0 & v & -> & Hr0 & _).
    rewrite length_insert.
    rewrite Forall_forall in Hrect. apply Hrect.
    by apply list_elem_of_lookup_2 in Hr0.
  - unfold column. simpl. rewrite Hi. f_equal.
    apply map_zip_with_written; [exact Hlen|].
    unfold rectangular in Hrect. eapply Forall_impl; [exact Hrect|].
    simpl. intros r ->. exact Hlt.
  - intros other Hne. unfold column. simpl.
    destruct (column_index other (columns df)) as [j|] eqn:Hj; [|reflexivity].
    f_equal. apply map_zip_with_same; [exact Hlen|].
    intros r v. rewrite list_lookup_insert_ne; [reflexivity|].
    intros ->. apply Hne. symmetry. by apply (column_index_inj _ _ _ _ Hi).
Qed.

Lemma column_Ok name df values :
  column name df = Ok values ->
  exists i, column_index name (columns df) = Some i.
Proof.
  unfold column. destruct (column_index name (columns df)) as [i|];
    [eauto|discriminate].
Qed.

(** The loop over the categorical features replaces each of them by its
    codes and leaves the rest of the frame alone. *)
Lemma encode_columns_Ok cfs :
  forall df df',
    NoDup cfs -> rectangular df -> encode_columns cfs df = Ok df' ->
    columns df' = columns df /\ length (rows df') = length (rows df) /\
    rectangular df' /\
    (forall name, name ∉ cfs -> column name df' = column name df) /\
    (forall cf, cf ∈ cfs ->
       exists values codes,
         column cf df = Ok values /\
         LabelEncoder_fit_transform values = Ok codes /\
         column cf df' = Ok codes).
Proof.
  induction cfs as [|cf cfs IH]; intros df df' Hnd Hrect; simpl.
  - intros [= <-]. split; [reflexivity|]. split; [reflexivity|].
    split; [exact Hrect|]. split; [reflexivity|].
    intros cf Hcf. by apply elem_of_nil in Hcf.
  - destruct (column cf df) as [values|e] eqn:Hcol; [|discriminate].
    destruct (LabelEncoder_fit_transform values) as [codes|e] eqn:Henc;
      [|discriminate].
    destruct (set_column cf codes df) as [df1|e] eqn:Hset; [|discriminate].
    intros Hrec. apply NoDup_cons in Hnd as [Hcf Hnd].
    destruct (column_Ok _ _ _ Hcol) as [i Hi].
    destruct (set_column_existing _ _ _ _ _ Hi Hrect Hset)
      as (Hc1 & Hr1 & Hrect1 & Hcf1 & Hother1).
    destruct (IH df1 df' Hnd Hrect1 Hrec) as (Hc & Hr & Hrect' & Hout & Hin).
    split; [congruence|]. split; [congruence|]. split; [exact Hrect'|].
    split.
    + intros name Hname. apply not_elem_of_cons in Hname as [Hne Hname].
      rewrite (Hout name Hname). by apply Hother1.
    + intros cf' Hcf'. apply elem_of_cons in Hcf' as [->|Hcf'].
      * exists values, codes. rewrite (Hout cf Hcf). auto.
      * destruct (Hin cf' Hcf') as (values' & codes' & Hv & He & Hc').
        exists values', codes'. rewrite <- Hother1; [auto|].
        intros ->. contradiction.
Qed.

(** X16: when the insurance preprocessing step completes on a
    rectangular frame, the frame it pickles has the columns and the number
    of rows of the frame it read; the columns [sex], [smoker] and [region]
    hold the codes the label encoder gives the values that were read, and
    every other column is as it was read. *)
Theorem preprocess_data_encodes_categorical data_dir prep_data_dir w w' df :
  read_csv w (data_dir +:+ "/insurance.csv") [" "; "null"]%string = Ok df ->
  rectangular df ->
  preprocess_data data_dir prep_data_dir w = (Ok tt, w') ->
  exists df',
    w' !! (prep_data_dir +:+ "/insurancedf.pkl")
    = Some (Blob (pickle_dumps df')) /\
    columns df' = columns df /\ length (rows df') = length (rows df) /\
    (forall name, name ∉ catFeats -> column name df' = column name df) /\
    (forall cf, cf ∈ catFeats ->
       exists values codes,
         column cf df = Ok values /\
         LabelEncoder_fit_transform values = Ok codes /\
         column cf df' = Ok codes).
Proof.
  intros Hread Hrect. unfold preprocess_data. rewrite Hread.
  destruct (print_value_counts catFeats df); [|discriminate].
  destruct (encode_columns catFeats df) as [df'|e] eqn:Henc; [|discriminate].
  intros [= <-]. exists df'.
  assert (Hnd : NoDup catFeats)
    by (apply (bool_decide_unpack _); vm_compute; reflexivity).
  destruct (encode_columns_Ok _ _ _ Hnd Hrect Henc) as (Hc & Hr & _ & Hout & Hin).
  split; [|auto]. unfold to_pickle. by rewrite lookup_insert_eq.
Qed.

End InsuranceEncoding.

Lemma preprocess_data_encodes_categorical_witness :
  @Pandas.read_csv Samples.pandas_lib Samples.csv_world_1
    ("/data" +:+ "/insurance.csv") [" "; "null"]%string
  = Ok (Samples.frame_of "abc") /\
  Pandas.rectangular (Samples.frame_of "abc") /\
  @Insurance.preprocess_data Samples.pandas_lib "/data" "/prep"
    Samples.csv_world_1
  = (Ok tt,
     snd (@Insurance.preprocess_data Samples.pandas_lib "/data" "/prep"
            Samples.csv_world_1)) /\
  exists df',
    snd (@Insurance.preprocess_data Samples.pandas_lib "/data" "/prep"
           Samples.csv_world_1) !! ("/prep" +:+ "/insurancedf.pkl")
    = Some (Blob (@Pandas.pickle_dumps Samples.pandas_lib df')) /\
    Pandas.columns df' = Pandas.columns (Samples.frame_of "abc") /\
    length (Pandas.rows df') = length (Pandas.rows (Samples.frame_of "abc")) /\
    (forall name, name ∉ Insurance.catFeats ->
       Pandas.column name df' = Pandas.column name (Samples.frame_of "abc")) /\
    (forall cf, cf ∈ Insurance.catFeats ->
       exists values codes,
         Pandas.column cf (Samples.frame_of "abc") = Ok values /\
         @Pandas.LabelEncoder_fit_transform Samples.pandas_lib values
         = Ok codes /\
         Pandas.column cf df' = Ok codes).
Proof.
  assert (H1 : @Pandas.read_csv Samples.pandas_lib Samples.csv_world_1
                 ("/data" +:+ "/insurance.csv") [" "; "null"]%string
               = Ok (Samples.frame_of "abc")) by (vm_compute; reflexivity).
  assert (H2 : Pandas.rectangular (Samples.frame_of "abc"))
    by (apply (bool_decide_unpack _); vm_compute; reflexivity).
  assert (H3 : @Insurance.preprocess_data Samples.pandas_lib "/data" "/prep"
                 Samples.csv_world_1
               = (Ok tt,
                  snd (@Insurance.preprocess_data Samples.pandas_lib "/data"
                         "/prep" Samples.csv_world_1)))
    by (vm_compute; reflexivity).
  split; [exact H1|]. split; [exact H2|]. split; [exact H3|].
  exact (@preprocess_data_encodes_categorical Samples.pandas_lib "/data"
           "/prep" _ _ _ H1 H2 H3).
Defined.

(** ** The insurance notebook: training and evaluation *)

Section InsuranceTraining.
Import Pandas Insurance.
Context `{Library} `{Regression}.

(** What a completed run of the training step read and wrote. *)
Lemma insurance_train_model_Ok prep_data_dir model_dir traintest_dir
    arrangement w w' :
  train_model prep_data_dir model_dir traintest_dir arrangement w = (Ok tt, w') ->
  exists df y X_train X_test y_train y_test linreg,
    read_pickle w (prep_data_dir +:+ "/insurancedf.pkl") = Ok df /\
    target df = Ok y /\
    Sklearn.train_test_split (features df) y (3 # 10) (@None (list nd))
      arrangement = Ok (X_train, X_test, y_train, y_test) /\
    LinearRegression_fit_dumps X_train y_train = Ok linreg /\
    w' = <[model_dir +:+ "/finalized_model.sav" := Blob linreg]>
           (np_savez2 (traintest_dir +:+ "/val_data.npz")
              (map Arr X_test) y_test
              (np_savez2 (traintest_dir +:+ "/train_data.npz")
                 (map Arr X_train) y_train
                 (ensure_dir traintest_dir (ensure_dir model_dir w)))).
Proof.
  unfold train_model.
  destruct (read_pickle w _) as [df|e] eqn:Hread; [|discriminate].
  destruct (target df) as [y|e] eqn:Hy; [|discriminate].
  destruct (Sklearn.train_test_split _ _ _ _ _)
    as [[[[X_train X_test] y_train] y_test]|e] eqn:Hs; [|discriminate].
  destruct (LinearRegression_fit_dumps X_train y_train) as [linreg|e] eqn:Hfit;
    [|discriminate].
  intros [= <-]. exists df, y, X_train, X_test, y_train, y_test, linreg. auto.
Qed.

Lemma target_Ok df y :
  target df = Ok y ->
  exists last,
    length (columns df) = S last /\
    y = map (fun r => default NaN (r !! last)) (rows df) /\
    features df = map (take last) (rows df).
Proof.
  unfold target, features.
  destruct (length (columns df)) as [|last]; [discriminate|].
  intros [= <-]. exists last. by rewrite Nat.sub_succ, Nat.sub_0_r.
Qed.

(** X17: when the insurance training step completes, every row of the
    frame went to exactly one of the two bundles as the pair of its cells
    but the last and its last cell; the validation bundle has three tenths
    of the rows, rounded up; and the model that is pickled was fitted on
    the training bundle. *)
Theorem train_model_splits_rows prep_data_dir model_dir traintest_dir
    arrangement w w' df :
  read_pickle w (prep_data_dir +:+ "/insurancedf.pkl") = Ok df ->
  arrangement ≡ₚ seq 0 (length (rows df)) ->
  train_model prep_data_dir model_dir traintest_dir arrangement w = (Ok tt, w') ->
  exists last X_train X_test y_train y_test linreg,
    length (columns df) = S last /\
    w' !! (traintest_dir +:+ "/train_data.npz")
    = Some (Npz [("arr_0"%string, map Arr X_train); ("arr_1"%string, y_train)]) /\
    w' !! (traintest_dir +:+ "/val_data.npz")
    = Some (Npz [("arr_0"%string, map Arr X_test); ("arr_1"%string, y_test)]) /\
    w' !! (model_dir +:+ "/finalized_model.sav") = Some (Blob linreg) /\
    LinearRegression_fit_dumps X_train y_train = Ok linreg /\
    zip X_train y_train ++ zip X_test y_test
    ≡ₚ map (fun r => (take last r, default NaN (r !! last))) (rows df) /\
    length X_train + length X_test = length (rows df) /\
    Z.of_nat (length X_test)
    = Qceiling ((3 # 10) * inject_Z (Z.of_nat (length (rows df)))).
Proof.
  intros Hread Harr Ht.
  apply insurance_train_model_Ok in Ht
    as (df' & y & X_train & X_test & y_train & y_test & linreg & Hread' & Hy &
        Hs & Hfit & ->).
  assert (df' = df) as -> by congruence.
  apply target_Ok in Hy as (last & Hcols & -> & Hfeat).
  assert (Hlen : length (features df) = length (rows df))
    by (rewrite Hfeat; apply length_map).
  rewrite <- Hlen in Harr.
  pose proof (train_test_split_partition _ _ _ _ _ _ _ _ _ Hs Harr) as Hp.
  pose proof (train_test_split_sizes _ _ _ _ _ _ _ _ _ Hs Harr)
    as (_ & _ & Hsum & Hceil).
  exists last, X_train, X_test, y_train, y_test, linreg.
  split; [exact Hcols|]. split; [|split; [|split; [|split; [exact Hfit|]]]].
  - unfold np_savez2.
    rewrite lookup_insert_ne, lookup_insert_ne, lookup_insert_eq; [done| |].
    + apply path_sibling_ne. discriminate.
    + by apply (path_last_ne _ _ _ _ "v"%char "z"%char).
  - unfold np_savez2. rewrite lookup_insert_ne, lookup_insert_eq; [done|].
    by apply (path_last_ne _ _ _ _ "v"%char "z"%char).
  - by rewrite lookup_insert_eq.
  - split; [|split; [lia|by rewrite Hceil, Hlen]].
    rewrite Hp, Hfeat. clear. induction (rows df) as [|r l IH]; [reflexivity|].
    simpl. by rewrite IH.
Qed.

(** X18: the insurance evaluation step, run on what a completed
    training step left behind, predicts for the rows of the validation
    bundle with the model fitted on the training bundle; without a
    validation bundle it raises [FileNotFoundError]. *)
Theorem evaluate_model_after_train_model prep_data_dir model_dir traintest_dir
    arrangement w w' :
  train_model prep_data_dir model_dir traintest_dir arrangement w = (Ok tt, w') ->
  (exists df y X_train X_test y_train y_test linreg,
     read_pickle w (prep_data_dir +:+ "/insurancedf.pkl") = Ok df /\
     target df = Ok y /\
     Sklearn.train_test_split (features df) y (3 # 10) (@None (list nd))
       arrangement = Ok (X_train, X_test, y_train, y_test) /\
     LinearRegression_fit_dumps X_train y_train = Ok linreg /\
     evaluate_model traintest_dir model_dir w'
     = loads_predict linreg (map Arr X_test)) /\
  (forall w0 : world,
     w0 !! (traintest_dir +:+ "/val_data.npz") = None ->
     evaluate_model traintest_dir model_dir w0
     = Raise (FileNotFoundError (traintest_dir +:+ "/val_data.npz"))).
Proof.
  intros Ht. split.
  - apply insurance_train_model_Ok in Ht
      as (df & y & X_train & X_test & y_train & y_test & linreg & Hread & Hy &
          Hs & Hfit & ->).
    exists df, y, X_train, X_test, y_train, y_test, linreg.
    repeat (split; [assumption|]).
    unfold evaluate_model, np_load_file, np_savez2.
    rewrite lookup_insert_ne, lookup_insert_eq; [|
      by apply (path_last_ne _ _ _ _ "v"%char "z"%char)].
    simpl. by rewrite lookup_insert_eq.
  - intros w0 Hnone. unfold evaluate_model, np_load_file. by rewrite Hnone.
Qed.

End InsuranceTraining.

Lemma train_model_splits_rows_witness :
  @Pandas.read_pickle Samples.pandas_lib Samples.insurance_world
    ("/prep" +:+ "/insurancedf.pkl") = Ok (Samples.frame_of "abcdefg") /\
  [6; 5; 4; 3; 2; 1; 0]
  ≡ₚ seq 0 (length (Pandas.rows (Samples.frame_of "abcdefg"))) /\
  @Insurance.train_model Samples.pandas_lib Samples.regression_lib
    "/prep" "/model" "/traintest" [6; 5; 4; 3; 2; 1; 0] Samples.insurance_world
  = (Ok tt, Samples.insurance_split_world) /\
  exists last X_train X_test y_train y_test linreg,
    length (Pandas.columns (Samples.frame_of "abcdefg")) = S last /\
    Samples.insurance_split_world !! ("/traintest" +:+ "/train_data.npz")
    = Some (Npz [("arr_0"%string, map Arr X_train); ("arr_1"%string, y_train)]) /\
    Samples.insurance_split_world !! ("/traintest" +:+ "/val_data.npz")
    = Some (Npz [("arr_0"%string, map Arr X_test); ("arr_1"%string, y_test)]) /\
    Samples.insurance_split_world !! ("/model" +:+ "/finalized_model.sav")
    = Some (Blob linreg) /\
    @Insurance.LinearRegression_fit_dumps Samples.regression_lib X_train y_train
    = Ok linreg /\
    zip X_train y_train ++ zip X_test y_test
    ≡ₚ map (fun r => (take last r, default NaN (r !! last)))
         (Pandas.rows (Samples.frame_of "abcdefg")) /\
    length X_train + length X_test
    = length (Pandas.rows (Samples.frame_of "abcdefg")) /\
    Z.of_nat (length X_test)
    = Qceiling ((3 # 10) * inject_Z (Z.of_nat
                  (length (Pandas.rows (Samples.frame_of "abcdefg"))))).
Proof.
  assert (H1 : @Pandas.read_pickle Samples.pandas_lib Samples.insurance_world
                 ("/prep" +:+ "/insurancedf.pkl")
               = Ok (Samples.frame_of "abcdefg"))
    by (vm_compute; reflexivity).
  assert (H2 : [6; 5; 4; 3; 2; 1; 0]
               ≡ₚ seq 0 (length (Pandas.rows (Samples.frame_of "abcdefg"))))
    by (apply (bool_decide_unpack _); vm_compute; reflexivity).
  assert (H3 : @Insurance.train_model Samples.pandas_lib Samples.regression_lib
                 "/prep" "/model" "/traintest" [6; 5; 4; 3; 2; 1; 0]
                 Samples.insurance_world
               = (Ok tt, Samples.insurance_split_world))
    by (vm_compute; reflexivity).
  split; [exact H1|]. split; [exact H2|]. split; [exact H3|].
  exact (@train_model_splits_rows Samples.pandas_lib Samples.regression_lib
           "/prep" "/model" "/traintest" _ _ _ _ H1 H2 H3).
Defined.

Lemma evaluate_model_after_train_model_witness :
  @Insurance.train_model Samples.pandas_lib Samples.regression_lib
    "/prep" "/model" "/traintest" [6; 5; 4; 3; 2; 1; 0] Samples.insurance_world
  = (Ok tt, Samples.insurance_split_world) /\
  @Insurance.evaluate_model Samples.regression_lib "/traintest" "/model"
    Samples.insurance_split_world
  = Ok [Num 4; Num 4; Num 4] /\
  (exists df y X_train X_test y_train y_test linreg,
     @Pandas.read_pickle Samples.pandas_lib Samples.insurance_world
       ("/prep" +:+ "/insurancedf.pkl") = Ok df /\
     Insurance.target df = Ok y /\
     Sklearn.train_test_split (Insurance.features df) y (3 # 10)
       (@None (list nd)) [6; 5; 4; 3; 2; 1; 0]
     = Ok (X_train, X_test, y_train, y_test) /\
     @Insurance.LinearRegression_fit_dumps Samples.regression_lib
       X_train y_train = Ok linreg /\
     @Insurance.evaluate_model Samples.regression_lib "/traintest" "/model"
       Samples.insurance_split_world
     = @Insurance.loads_predict Samples.regression_lib linreg
         (map Arr X_test)) /\
  (forall w0 : world,
     w0 !! ("/traintest" +:+ "/val_data.npz") = None ->
     @Insurance.evaluate_model Samples.regression_lib "/traintest" "/model" w0
     = Raise (FileNotFoundError ("/traintest" +:+ "/val_data.npz"))).
Proof.
  assert (H3 : @Insurance.train_model Samples.pandas_lib Samples.regression_lib
                 "/prep" "/model" "/traintest" [6; 5; 4; 3; 2; 1; 0]
                 Samples.insurance_world
               = (Ok tt, Samples.insurance_split_world))
    by (vm_compute; reflexivity).
  split; [exact H3|]. split; [vm_compute; reflexivity|].
  exact (@evaluate_model_after_train_model Samples.pandas_lib
           Samples.regression_lib "/prep" "/model" "/traintest" _ _ _ H3).
Defined.

(** ** The exploratory insurance notebook: [charges] stays the last column *)

Section ChargesLast.
Import Pandas Insurance.

Lemma column_index_delete a b cols i :
  column_index a cols = Some i -> b <> a ->
  column_index b (delete i cols)
  = option_map (fun j => if j <? i then j else j - 1) (column_index b cols).
Proof.
  revert i. induction cols as [|c cols IH]; intros i; simpl; [discriminate|].
  destruct (String.eqb c a) eqn:Ea.
  - intros [= <-] Hne. simpl. apply String.eqb_eq in Ea as ->.
    assert (Hab : String.eqb a b = false)
      by (apply String.eqb_neq; congruence).
    rewrite Hab. destruct (column_index b cols) as [j|]; simpl; [|reflexivity].
    f_equal. lia.
  - destruct (column_index a cols) as [i'|] eqn:Hi; [|discriminate].
    simpl. intros [= <-] Hne. simpl.
    destruct (String.eqb c b) eqn:Eb; [reflexivity|].
    rewrite (IH i' eq_refl Hne).
    destruct (column_index b cols) as [j|] eqn:Hj; simpl; [|reflexivity].
    f_equal.
    assert (j <> i') by (intros ->; apply Hne; by apply (column_index_inj b a cols i')).
    change (S j <? S i') with (j <? i').
    destruct (j <? i') eqn:Hlt; [reflexivity|].
    apply Nat.ltb_ge in Hlt. lia.
Qed.

Lemma column_index_app a cols b :
  column_index b (cols ++ [a])
  = match column_index b cols with
    | Some j => Some j
    | None => if String.eqb a b then Some (length cols) else None
    end.
Proof.
  induction cols as [|c cols IH]; simpl.
  - by destruct (String.eqb a b).
  - destruct (String.eqb c b); [reflexivity|]. rewrite IH.
    destruct (column_index b cols); [reflexivity|].
    by destruct (String.eqb a b).
Qed.

Lemma column_index_None a cols :
  column_index a cols = None <-> a ∉ cols.
Proof.
  induction cols as [|c cols IH]; simpl.
  - split; [intros _; apply not_elem_of_nil|reflexivity].
  - rewrite not_elem_of_cons.
    destruct (String.eqb c a) eqn:E.
    + apply String.eqb_eq in E as ->. split; [discriminate|].
      intros [Hne _]. by destruct Hne.
    + apply String.eqb_neq in E.
      destruct (column_index a cols); simpl.
      * split; [discriminate|]. intros [_ Hn]. by apply IH in Hn.
      * split; [|reflexivity]. intros _. split; [congruence|]. by apply IH.
Qed.

Lemma existsb_eqb_false a cols :
  a ∉ cols -> existsb (String.eqb a) cols = false.
Proof.
  intros Hn. destruct (existsb (String.eqb a) cols) eqn:E; [|reflexivity].
  apply existsb_exists in E as (c & Hc & Heq).
  apply String.eqb_eq in Heq as <-. by apply list_elem_of_In in Hc.
Qed.

(** The rows after the move: every row without its [charges] cell,
    followed by that cell. *)
Lemma move_charges_last_Ok df i :
  rectangular df -> column_index "charges" (columns df) = Some i ->
  ("charges"%string ∉ delete i (columns df)) ->
  move_charges_last df
  = Ok {| columns := delete i (columns df) ++ ["charges"%string];
          rows := map (fun r => delete i r ++ [default NaN (r !! i)])
                    (rows df) |}.
Proof.
  intros Hrect Hi Hone. unfold move_charges_last, column, drop_column.
  rewrite Hi. unfold insert_column. cbn [columns rows].
  rewrite (existsb_eqb_false _ _ Hone), !length_map, Nat.eqb_refl,
    Nat.ltb_irrefl. cbn [negb].
  f_equal. f_equal.
  - by rewrite take_ge, drop_ge by lia.
  - pose proof (column_index_lt _ _ _ Hi) as Hlt.
    unfold rectangular in Hrect. induction Hrect as [|r l Hr _ IH];
      [reflexivity|].
    simpl. rewrite IH. f_equal.
    assert (Hlen : length (delete i r) = length (delete i (columns df)))
      by (rewrite !length_delete; [lia| |]; apply lookup_lt_is_Some; lia).
    by rewrite take_ge, drop_ge by lia.
Qed.

(** X19: moving [charges] behind the other columns, as the
    exploratory notebook does after one-hot encoding, keeps the frame
    rectangular, makes [charges] the last column, and changes no value:
    the column [charges] and every other column read as before, and the
    last cell of every row is its [charges] cell.  A frame without the
    column raises [KeyError], a frame with a second column of that name
    [ValueError]. *)
Theorem move_charges_last_keeps_values df :
  rectangular df ->
  match column_index "charges" (columns df) with
  | None => move_charges_last df = Raise (KeyError "charges")
  | Some i =>
      ("charges"%string ∈ delete i (columns df) ->
       move_charges_last df = Raise ValueError) /\
      ("charges"%string ∉ delete i (columns df) ->
       exists df',
         move_charges_last df = Ok df' /\
         rectangular df' /\
         columns df' = delete i (columns df) ++ ["charges"%string] /\
         length (rows df') = length (rows df) /\
         column "charges" df' = column "charges" df /\
         (forall other, other <> "charges"%string ->
            column other df' = column other df) /\
         target df' = column "charges" df)
  end.
Proof.
  intros Hrect.
  destruct (column_index "charges" (columns df)) as [i|] eqn:Hi.
  2:{ unfold move_charges_last, column. by rewrite Hi. }
  pose proof (column_index_lt _ _ _ Hi) as Hlt.
  split.
  - intros Hdup. unfold move_charges_last, column, drop_column.
    rewrite Hi. unfold insert_column. cbn [columns rows].
    assert (Hex : existsb (String.eqb "charges") (delete i (columns df)) = true).
    { apply existsb_exists. exists "charges"%string.
      split; [by apply list_elem_of_In|reflexivity]. }
    by rewrite Hex.
  - intros Hone. eexists. split; [exact (move_charges_last_Ok df i Hrect Hi Hone)|].
    assert (Hrow : forall r, r ∈ rows df -> length r = length (columns df))
      by (intros r Hr; unfold rectangular in Hrect;
          rewrite Forall_forall in Hrect; by apply Hrect).
    assert (Hdl : length (delete i (columns df)) = length (columns df) - 1)
      by (rewrite length_delete; [lia|apply lookup_lt_is_Some; lia]).
    assert (Hcharges :
      map (fun r => default NaN (r !! length (delete i (columns df))))
        (map (fun r => delete i r ++ [default NaN (r !! i)]) (rows df))
      = map (fun r => default NaN (r !! i)) (rows df)).
    { rewrite map_map. apply map_ext_in. intros r Hr.
      apply list_elem_of_In, Hrow in Hr.
      assert (Hdr : length (delete i r) = length (delete i (columns df)))
        by (rewrite !length_delete; [lia| |]; apply lookup_lt_is_Some; lia).
      rewrite lookup_app_r by lia. by rewrite Hdr, Nat.sub_diag. }
    split; [|split; [reflexivity|split; [apply length_map|split;
      [|split]]]].
    + unfold rectangular. simpl. apply Forall_forall. intros r' Hr'.
      apply list_elem_of_fmap in Hr' as (r & -> & Hr).
      rewrite !length_app, !length_delete; simpl;
        [specialize (Hrow r Hr); lia| |];
        apply lookup_lt_is_Some; [|specialize (Hrow r Hr)]; lia.
    + unfold column. cbn [columns rows]. rewrite column_index_app, Hi.
      apply column_index_None in Hone. rewrite Hone, String.eqb_refl.
      f_equal. exact Hcharges.
    + intros other Hne. unfold column. cbn [columns rows].
      rewrite column_index_app, (column_index_delete _ _ _ _ Hi Hne).
      assert (Hco : String.eqb "charges" other = false)
        by (apply String.eqb_neq; congruence).
      destruct (column_index other (columns df)) as [j|] eqn:Hj;
        cbn [option_map]; [|by rewrite Hco].
      f_equal. rewrite map_map. apply map_ext_in. intros r Hr.
      apply list_elem_of_In, Hrow in Hr.
      pose proof (column_index_lt _ _ _ Hj) as Hjlt.
      assert (j <> i)
        by (intros ->; apply Hne; by apply (column_index_inj other "charges"
                                              (columns df) i)).
      destruct (j <? i) eqn:Hji.
      * apply Nat.ltb_lt in Hji.
        rewrite lookup_app_l by (rewrite length_delete;
          [lia|apply lookup_lt_is_Some; lia]).
        by rewrite list_lookup_delete_lt.
      * apply Nat.ltb_ge in Hji.
        rewrite lookup_app_l by (rewrite length_delete;
          [lia|apply lookup_lt_is_Some; lia]).
        rewrite list_lookup_delete_ge by lia. f_equal. f_equal. lia.
    + unfold target, column. cbn [columns rows]. rewrite Hi, length_app.
      replace (length (delete i (columns df)) + length ["charges"%string])
        with (S (length (delete i (columns df)))) by (simpl; lia).
      f_equal. exact Hcharges.
Qed.

End ChargesLast.

Lemma move_charges_last_keeps_values_witness :
  Pandas.rectangular Samples.frame_charges /\
  match Pandas.column_index "charges" (Pandas.columns Samples.frame_charges) with
  | None => Insurance.move_charges_last Samples.frame_charges
            = Raise (KeyError "charges")
  | Some i =>
      ("charges"%string ∈ delete i (Pandas.columns Samples.frame_charges) ->
       Insurance.move_charges_last Samples.frame_charges = Raise ValueError) /\
      ("charges"%string ∉ delete i (Pandas.columns Samples.frame_charges) ->
       exists df',
         Insurance.move_charges_last Samples.frame_charges = Ok df' /\
         Pandas.rectangular df' /\
         Pandas.columns df'
         = delete i (Pandas.columns Samples.frame_charges)
           ++ ["charges"%string] /\
         length (Pandas.rows df') = length (Pandas.rows Samples.frame_charges) /\
         Pandas.column "charges" df'
         = Pandas.column "charges" Samples.frame_charges /\
         (forall other, other <> "charges"%string ->
            Pandas.column other df'
            = Pandas.column other Samples.frame_charges) /\
         Insurance.target df' = Pandas.column "charges" Samples.frame_charges)
  end.
Proof.
  assert (H1 : Pandas.rectangular Samples.frame_charges)
    by (apply (bool_decide_unpack _); vm_compute; reflexivity).
  split; [exact H1|].
  exact (move_charges_last_keeps_values Samples.frame_charges H1).
Defined.

(** ** The fraud notebook: when training completes *)

Section FraudTrainingCompletes.
Import Pandas Fraud.
Context `{Library}.

Lemma validate_shuffle_split_needs_two (n n_train n_test : nat) :
  Sklearn.validate_shuffle_split n (2 # 10) = Ok (n_train, n_test) -> 2 <= n.
Proof.
  intros Hv. apply validate_shuffle_split_Ok in Hv as (Hceil & Hsum & Hpos).
  destruct n as [|[|n]]; [lia| |lia].
  replace (Qceiling ((2 # 10) * inject_Z (Z.of_nat 1))) with 1%Z in Hceil
    by (vm_compute; reflexivity).
  lia.
Qed.


End FraudTrainingCompletes.


(** ** The fraud notebook: evaluation after training *)

Section FraudEvaluation.
Import Pandas Fraud.
Context `{Library} `{Classifier}.

Lemma filter_all_length {A : Type} (f : A -> bool) (l : list A) :
  length (List.filter f l) <= length l /\
  (length (List.filter f l) = length l <-> Forall (fun a => f a = true) l).
Proof.
  induction l as [|a l [IHle IHiff]]; simpl.
  - split; [lia|]. split; [constructor|reflexivity].
  - destruct (f a) eqn:E; simpl.
    + split; [lia|]. rewrite Forall_cons. split.
      * intros Hl. split; [exact E|]. apply IHiff. lia.
      * intros [_ Hl]. f_equal. by apply IHiff.
    + split; [lia|]. rewrite Forall_cons. split; [lia|].
      intros [Hc _]. congruence.
Qed.


End FraudEvaluation.


(** ** The pipeline functions, run forward *)

Section PipelineRuns.
Import Kfp.

Lemma bind_call {B : Type} c args (k : nat -> Pipeline B) ops :
  bind (call c args) k ops
  = k (length ops)
      (ops ++ [{| op_component := c; inputs := args;
                  dependent_names := []; gpu_limit := None |}]).
Proof. reflexivity. Qed.

Lemma bind_outputs_declared {B : Type} task key (k : PipelineParam -> Pipeline B)
    ops op :
  ops !! task = Some op ->
  existsb (String.eqb key) (comp_outputs (op_component op)) = true ->
  bind (outputs task key) k ops = k {| name := key; op_name := Some task |} ops.
Proof. intros Hop Hk. unfold bind, outputs. by rewrite Hop, Hk. Qed.

Lemma bind_outputs_missing {B : Type} task key (k : PipelineParam -> Pipeline B)
    ops op :
  ops !! task = Some op ->
  existsb (String.eqb key) (comp_outputs (op_component op)) = false ->
  bind (outputs task key) k ops = (Raise (KeyError key), ops).
Proof. intros Hop Hk. unfold bind, outputs. by rewrite Hop, Hk. Qed.

Lemma bind_output_single {B : Type} task key (k : PipelineParam -> Pipeline B)
    ops op :
  ops !! task = Some op -> comp_outputs (op_component op) = [key] ->
  bind (output task) k ops = k {| name := key; op_name := Some task |} ops.
Proof. intros Hop Hk. unfold bind, output. by rewrite Hop, Hk. Qed.

Lemma bind_output_not_single {B : Type} task (k : PipelineParam -> Pipeline B)
    ops op :
  ops !! task = Some op ->
  (forall key, comp_outputs (op_component op) <> [key]) ->
  bind (output task) k ops = (Raise RuntimeError, ops).
Proof.
  intros Hop Hk. unfold bind, output. rewrite Hop.
  destruct (comp_outputs (op_component op)) as [|key [|key' keys]];
    [reflexivity| |reflexivity].
  by destruct (Hk key).
Qed.

Lemma bind_set_gpu_limit {B : Type} task n (k : unit -> Pipeline B) ops :
  bind (set_gpu_limit task n) k ops
  = k tt (alter (fun op => {| op_component := op_component op;
                              inputs := inputs op;
                              dependent_names := dependent_names op;
                              gpu_limit := Some n |}) task ops).
Proof. reflexivity. Qed.

Ltac run_step :=
  first
    [ rewrite bind_call
    | rewrite bind_set_gpu_limit
    | erewrite bind_output_single by reflexivity
    | erewrite bind_outputs_declared by (try reflexivity; assumption) ];
  simpl length; simpl app; simpl alter.

Lemma insurance_pipeline_runs c :
  existsb (String.eqb "data_path") (comp_outputs c) = true ->
  exists ops,
    Insurance.insurance_pipeline c [] = (Ok tt, ops) /\
    map op_component ops
    = [c; Insurance.preprocess_data_comp; Insurance.train_model_comp;
       Insurance.evaluate_model_comp] /\
    data_edges ops = [(0, 1); (1, 2); (2, 3); (2, 3)] /\
    after_edges ops = [] /\
    map gpu_limit ops = [None; None; Some 1; Some 1] /\
    parameters_read ops = ["dataset_url"; "dataset_file_name"]%string.
Proof.
  intros Hc. unfold Insurance.insurance_pipeline.
  do 9 run_step.
  eexists. split; [reflexivity|]. repeat split.
Qed.


Lemma insurance_pipeline_fails c :
  existsb (String.eqb "data_path") (comp_outputs c) = false ->
  fst (Insurance.insurance_pipeline c []) = Raise (KeyError "data_path").
Proof.
  intros Hc. unfold Insurance.insurance_pipeline. run_step.
  by erewrite bind_outputs_missing by (try reflexivity; assumption).
Qed.

Lemma fraud_pipeline_runs c :
  existsb (String.eqb "data_path") (comp_outputs c) = true ->
  exists ops,
    Fraud.fraud_detection_pipeline c [] = (Ok tt, ops) /\
    map op_component ops
    = [c; Fraud.preprocess_data_comp; Fraud.train_model_comp;
       Fraud.evaluate_model_comp] /\
    data_edges ops = [(0, 1); (1, 2); (2, 3); (2, 3)] /\
    after_edges ops = [] /\
    map gpu_limit ops = [None; None; Some 1; Some 1] /\
    parameters_read ops = ["dataset_url"; "dataset_file_name"]%string.
Proof.
  intros Hc. unfold Fraud.fraud_detection_pipeline.
  do 9 run_step.
  eexists. split; [reflexivity|]. repeat split.
Qed.

Lemma fraud_pipeline_fails c :
  existsb (String.eqb "data_path") (comp_outputs c) = false ->
  fst (Fraud.fraud_detection_pipeline c []) = Raise (KeyError "data_path").
Proof.
  intros Hc. unfold Fraud.fraud_detection_pipeline. run_step.
  by erewrite bind_outputs_missing by (try reflexivity; assumption).
Qed.

Section RemoteComponents.
Variables download_and_extract_comp convert_model_to_onnx_comp
          upload_model_comp deploy_model_with_kserve_comp : component.

Lemma covid_pipeline_runs key :
  existsb (String.eqb "data_path") (comp_outputs download_and_extract_comp)
  = true ->
  comp_outputs convert_model_to_onnx_comp = [key] ->
  exists ops,
    Covid.covid19_lung_classification_pipeline download_and_extract_comp
      convert_model_to_onnx_comp upload_model_comp
      deploy_model_with_kserve_comp [] = (Ok tt, ops) /\
    parameters_read ops
    = ["dataset_url"; "dataset_file_name"; "labels"; "minio_url";
       "minio_user"; "minio_pass"; "model_name"]%string.
Proof.
  intros Hd Hc. unfold Covid.covid19_lung_classification_pipeline.
  do 16 run_step.
  erewrite bind_output_single by (try reflexivity; exact Hc).
  do 2 run_step.
  eexists. split; reflexivity.
Qed.

Lemma covid_pipeline_fails_download :
  existsb (String.eqb "data_path") (comp_outputs download_and_extract_comp)
  = false ->
  fst (Covid.covid19_lung_classification_pipeline download_and_extract_comp
         convert_model_to_onnx_comp upload_model_comp
         deploy_model_with_kserve_comp []) = Raise (KeyError "data_path").
Proof.
  intros Hd. unfold Covid.covid19_lung_classification_pipeline. run_step.
  by erewrite bind_outputs_missing by (try reflexivity; assumption).
Qed.

Lemma covid_pipeline_fails_convert :
  existsb (String.eqb "data_path") (comp_outputs download_and_extract_comp)
  = true ->
  (forall key, comp_outputs convert_model_to_onnx_comp <> [key]) ->
  fst (Covid.covid19_lung_classification_pipeline download_and_extract_comp
         convert_model_to_onnx_comp upload_model_comp
         deploy_model_with_kserve_comp []) = Raise RuntimeError.
Proof.
  intros Hd Hc. unfold Covid.covid19_lung_classification_pipeline.
  do 16 run_step.
  by erewrite bind_output_not_single by (try reflexivity; exact Hc).
Qed.

Lemma fingerprint_pipeline_runs key :
  existsb (String.eqb "data_path") (comp_outputs download_and_extract_comp)
  = true ->
  comp_outputs convert_model_to_onnx_comp = [key] ->
  exists ops,
    Fingerprint.fingerprint_pipeline download_and_extract_comp
      convert_model_to_onnx_comp upload_model_comp
      deploy_model_with_kserve_comp [] = (Ok tt, ops) /\
    parameters_read ops
    = ["dataset_url"; "dataset_file_name"; "minio_url"; "minio_user";
       "minio_pass"; "model_name"]%string.
Proof.
  intros Hd Hc. unfold Fingerprint.fingerprint_pipeline.
  do 12 run_step.
  erewrite bind_output_single by (try reflexivity; exact Hc).
  do 2 run_step.
  eexists. split; reflexivity.
Qed.

Lemma fingerprint_pipeline_fails_download :
  existsb (String.eqb "data_path") (comp_outputs download_and_extract_comp)
  = false ->
  fst (Fingerprint.fingerprint_pipeline download_and_extract_comp
         convert_model_to_onnx_comp upload_model_comp
         deploy_model_with_kserve_comp []) = Raise (KeyError "data_path").
Proof.
  intros Hd. unfold Fingerprint.fingerprint_pipeline. run_step.
  by erewrite bind_outputs_missing by (try reflexivity; assumption).
Qed.

Lemma fingerprint_pipeline_fails_convert :
  existsb (String.eqb "data_path") (comp_outputs download_and_extract_comp)
  = true ->
  (forall key, comp_outputs convert_model_to_onnx_comp <> [key]) ->
  fst (Fingerprint.fingerprint_pipeline download_and_extract_comp
         convert_model_to_onnx_comp upload_model_comp
         deploy_model_with_kserve_comp []) = Raise RuntimeError.
Proof.
  intros Hd Hc. unfold Fingerprint.fingerprint_pipeline.
  do 12 run_step.
  by erewrite bind_output_not_single by (try reflexivity; exact Hc).
Qed.

End RemoteComponents.

Lemma build_fst {A : Type} (p : Pipeline A) :
  build p = match fst (p []) with
            | Ok _ => Ok (snd (p []))
            | Raise e => Raise e
            end.
Proof. unfold build. by destruct (p []) as [[a|e] ops]. Qed.

Lemma declares_spec (key : string) (outs : list string) :
  existsb (String.eqb key) outs = true <-> key ∈ outs.
Proof.
  rewrite existsb_exists. split.
  - intros (x & Hx & Heq). apply String.eqb_eq in Heq as ->.
    by apply list_elem_of_In.
  - intros Hin. exists key. split; [by apply list_elem_of_In|].
    apply String.eqb_refl.
Qed.

(** X22: the insurance pipeline and the fraud pipeline are chains of
    four tasks, download, preprocess, train and evaluate: each task takes
    the outputs of the task before it, the evaluation task takes two
    outputs of the training task, no ordering is added by hand, and the
    training and the evaluation task ask for one GPU. *)
Theorem insurance_and_fraud_pipelines_are_chains c ops :
  build (Insurance.insurance_pipeline c) = Ok ops \/
  build (Fraud.fraud_detection_pipeline c) = Ok ops ->
  length ops = 4 /\
  data_edges ops = [(0, 1); (1, 2); (2, 3); (2, 3)] /\
  after_edges ops = [] /\
  map gpu_limit ops = [None; None; Some 1; Some 1] /\
  ops !! 0 = Some {| op_component := c;
                     inputs := [param "dataset_url"; param "dataset_file_name"];
                     dependent_names := []; gpu_limit := None |} /\
  (exists evaluate,
     ops !! 3 = Some evaluate /\
     inputs evaluate = [{| name := "traintest_dir"; op_name := Some 2 |};
                        {| name := "model_dir"; op_name := Some 2 |}]).
Proof.
  destruct (existsb (String.eqb "data_path") (comp_outputs c)) eqn:Hc.
  - intros [Hb|Hb]; rewrite build_fst in Hb.
    + revert Hb. unfold Insurance.insurance_pipeline. do 9 run_step. simpl.
      intros [= <-]. split; [reflexivity|]. split; [reflexivity|].
      split; [reflexivity|]. split; [reflexivity|]. split; [reflexivity|].
      eexists. split; reflexivity.
    + revert Hb. unfold Fraud.fraud_detection_pipeline. do 9 run_step. simpl.
      intros [= <-]. split; [reflexivity|]. split; [reflexivity|].
      split; [reflexivity|]. split; [reflexivity|]. split; [reflexivity|].
      eexists. split; reflexivity.
  - intros [Hb|Hb]; rewrite build_fst in Hb.
    + by rewrite (insurance_pipeline_fails c Hc) in Hb.
    + by rewrite (fraud_pipeline_fails c Hc) in Hb.
Qed.


(** X24: in each of the four pipelines every ordering edge goes from a
    task to a task that is created later, so the order of creation is a
    topological order of the task graph and the graph has no cycle. *)
Theorem pipeline_graphs_are_acyclic (download convert upload deploy : component)
    ops :
  build (Covid.covid19_lung_classification_pipeline download convert upload
           deploy) = Ok ops \/
  build (Fingerprint.fingerprint_pipeline download convert upload deploy)
  = Ok ops \/
  build (Insurance.insurance_pipeline download) = Ok ops \/
  build (Fraud.fraud_detection_pipeline download) = Ok ops ->
  forall p c, (p, c) ∈ edges ops -> p < c < length ops.
Proof.
  intros Hb.
  assert (He : Forall (fun e => e.1 < e.2 < length ops) (edges ops)).
  { unfold edges. destruct Hb as [Hb|[Hb|Hb]].
    - apply covid_pipeline_edges in Hb as (-> & -> & -> & _).
      repeat constructor.
    - apply fingerprint_pipeline_edges in Hb as (-> & -> & -> & _).
      repeat constructor.
    - assert (Hc : length ops = 4 /\
                   data_edges ops = [(0, 1); (1, 2); (2, 3); (2, 3)] /\
                   after_edges ops = []).
      { destruct (existsb (String.eqb "data_path") (comp_outputs download))
          eqn:Hd.
        - destruct Hb as [Hb|Hb]; rewrite build_fst in Hb.
          + destruct (insurance_pipeline_runs download Hd)
              as (ops1 & Hr & Hm & He & Ha & _ & _).
            rewrite Hr in Hb. simpl in Hb. injection Hb as <-.
            apply (f_equal length) in Hm. rewrite length_map in Hm. auto.
          + destruct (fraud_pipeline_runs download Hd)
              as (ops1 & Hr & Hm & He & Ha & _ & _).
            rewrite Hr in Hb. simpl in Hb. injection Hb as <-.
            apply (f_equal length) in Hm. rewrite length_map in Hm. auto.
        - destruct Hb as [Hb|Hb]; rewrite build_fst in Hb.
          + by rewrite (insurance_pipeline_fails download Hd) in Hb.
          + by rewrite (fraud_pipeline_fails download Hd) in Hb. }
      destruct Hc as (-> & -> & ->). repeat constructor. }
  intros p c Hin. rewrite Forall_forall in He. exact (He (p, c) Hin).
Qed.

Lemma convert_outputs_cases (convert : component) :
  (exists key, comp_outputs convert = [key]) \/
  (forall key, comp_outputs convert <> [key]).
Proof.
  destruct (comp_outputs convert) as [|key [|key' keys]];
    [right; discriminate|left; eauto|right; discriminate].
Qed.

Lemma covid_pipeline_reads (download convert upload deploy : component) ops :
  build (Covid.covid19_lung_classification_pipeline download convert upload
           deploy) = Ok ops ->
  parameters_read ops
  = ["dataset_url"; "dataset_file_name"; "labels"; "minio_url";
     "minio_user"; "minio_pass"; "model_name"]%string.
Proof.
  rewrite build_fst. intros Hb.
  destruct (existsb (String.eqb "data_path") (comp_outputs download)) eqn:Hd;
    [|by rewrite (covid_pipeline_fails_download _ _ _ _ Hd) in Hb].
  destruct (convert_outputs_cases convert) as [[key Hc]|Hc];
    [|by rewrite (covid_pipeline_fails_convert _ _ _ _ Hd Hc) in Hb].
  destruct (covid_pipeline_runs download convert upload deploy key Hd Hc)
    as (ops1 & Hr & Hp).
  rewrite Hr in Hb. simpl in Hb. by injection Hb as <-.
Qed.

Lemma fingerprint_pipeline_reads (download convert upload deploy : component)
    ops :
  build (Fingerprint.fingerprint_pipeline download convert upload deploy)
  = Ok ops ->
  parameters_read ops
  = ["dataset_url"; "dataset_file_name"; "minio_url"; "minio_user";
     "minio_pass"; "model_name"]%string.
Proof.
  rewrite build_fst. intros Hb.
  destruct (existsb (String.eqb "data_path") (comp_outputs download)) eqn:Hd;
    [|by rewrite (fingerprint_pipeline_fails_download _ _ _ _ Hd) in Hb].
  destruct (convert_outputs_cases convert) as [[key Hc]|Hc];
    [|by rewrite (fingerprint_pipeline_fails_convert _ _ _ _ Hd Hc) in Hb].
  destruct (fingerprint_pipeline_runs download convert upload deploy key Hd Hc)
    as (ops1 & Hr & Hp).
  rewrite Hr in Hb. simpl in Hb. by injection Hb as <-.
Qed.

Lemma chain_pipeline_reads (download : component) ops :
  build (Insurance.insurance_pipeline download) = Ok ops \/
  build (Fraud.fraud_detection_pipeline download) = Ok ops ->
  parameters_read ops = ["dataset_url"; "dataset_file_name"]%string.
Proof.
  destruct (existsb (String.eqb "data_path") (comp_outputs download)) eqn:Hd.
  - intros [Hb|Hb]; rewrite build_fst in Hb.
    + destruct (insurance_pipeline_runs download Hd)
        as (ops1 & Hr & _ & _ & _ & _ & Hp).
      rewrite Hr in Hb. simpl in Hb. by injection Hb as <-.
    + destruct (fraud_pipeline_runs download Hd)
        as (ops1 & Hr & _ & _ & _ & _ & Hp).
      rewrite Hr in Hb. simpl in Hb. by injection Hb as <-.
  - intros [Hb|Hb]; rewrite build_fst in Hb.
    + by rewrite (insurance_pipeline_fails download Hd) in Hb.
    + by rewrite (fraud_pipeline_fails download Hd) in Hb.
Qed.

(** X25: the tasks of a pipeline read few of the parameters the
    pipeline function declares.  The insurance and the fraud pipeline pass
    on the URL and the file name of the data set and nothing else; none of
    the four passes a directory parameter to a task, so a run cannot be
    pointed at other directories through them. *)
Theorem directory_parameters_are_not_read
    (download convert upload deploy : component) ops :
  (build (Covid.covid19_lung_classification_pipeline download convert upload
            deploy) = Ok ops ->
   list_difference Covid.pipeline_parameters (parameters_read ops)
   = ["data_dir"; "prep_dir"; "traintest_dir"; "model_dir"]%string) /\
  (build (Fingerprint.fingerprint_pipeline download convert upload deploy)
   = Ok ops ->
   list_difference Fingerprint.pipeline_parameters (parameters_read ops)
   = ["data_dir"; "prep_data_dir"; "model_dir"]%string) /\
  (build (Insurance.insurance_pipeline download) = Ok ops ->
   parameters_read ops = ["dataset_url"; "dataset_file_name"]%string /\
   list_difference Insurance.pipeline_parameters (parameters_read ops)
   = ["data_dir"; "prep_data_dir"; "model_dir"; "model_name"; "minio_url";
      "minio_user"; "minio_pass"]%string) /\
  (build (Fraud.fraud_detection_pipeline download) = Ok ops ->
   parameters_read ops = ["dataset_url"; "dataset_file_name"]%string /\
   list_difference Fraud.pipeline_parameters (parameters_read ops)
   = ["data_dir"; "prep_data_dir"; "model_dir"; "model_name"; "minio_url";
      "minio_user"; "minio_pass"]%string).
Proof.
  split; [|split; [|split]]; intros Hb.
  - by rewrite (covid_pipeline_reads _ _ _ _ _ Hb).
  - by rewrite (fingerprint_pipeline_reads _ _ _ _ _ Hb).
  - by rewrite (chain_pipeline_reads _ _ (or_introl Hb)).
  - by rewrite (chain_pipeline_reads _ _ (or_intror Hb)).
Qed.

End PipelineRuns.

Lemma insurance_and_fraud_pipelines_are_chains_witness :
  exists ops,
    (Kfp.build (Insurance.insurance_pipeline Samples.download_and_extract_comp)
     = Ok ops \/
     Kfp.build (Fraud.fraud_detection_pipeline Samples.download_and_extract_comp)
     = Ok ops) /\
    length ops = 4 /\
    Kfp.data_edges ops = [(0, 1); (1, 2); (2, 3); (2, 3)] /\
    Kfp.after_edges ops = [] /\
    map Kfp.gpu_limit ops = [None; None; Some 1; Some 1] /\
    ops !! 0
    = Some {| Kfp.op_component := Samples.download_and_extract_comp;
              Kfp.inputs := [Kfp.param "dataset_url";
                             Kfp.param "dataset_file_name"];
              Kfp.dependent_names := []; Kfp.gpu_limit := None |} /\
    (exists evaluate,
       ops !! 3 = Some evaluate /\
       Kfp.inputs evaluate
       = [{| Kfp.name := "traintest_dir"; Kfp.op_name := Some 2 |};
          {| Kfp.name := "model_dir"; Kfp.op_name := Some 2 |}]).
Proof.
  destruct (Kfp.build (Insurance.insurance_pipeline
                         Samples.download_and_extract_comp))
    as [ops|e] eqn:H1; [|vm_compute in H1; discriminate].
  exists ops. split; [by left|].
  exact (insurance_and_fraud_pipelines_are_chains _ _ (or_introl H1)).
Defined.

Lemma pipeline_graphs_are_acyclic_witness :
  (Kfp.build (Covid.covid19_lung_classification_pipeline
                Samples.download_and_extract_comp
                Samples.convert_model_to_onnx_comp Samples.upload_model_comp
                Samples.deploy_model_with_kserve_comp) = Ok Samples.covid_ops \/
   Kfp.build (Fingerprint.fingerprint_pipeline
                Samples.download_and_extract_comp
                Samples.convert_model_to_onnx_comp Samples.upload_model_comp
                Samples.deploy_model_with_kserve_comp) = Ok Samples.covid_ops \/
   Kfp.build (Insurance.insurance_pipeline Samples.download_and_extract_comp)
   = Ok Samples.covid_ops \/
   Kfp.build (Fraud.fraud_detection_pipeline Samples.download_and_extract_comp)
   = Ok Samples.covid_ops) /\
  forall p c, (p, c) ∈ Kfp.edges Samples.covid_ops ->
    p < c < length Samples.covid_ops.
Proof.
  assert (H1 : Kfp.build (Covid.covid19_lung_classification_pipeline
                 Samples.download_and_extract_comp
                 Samples.convert_model_to_onnx_comp Samples.upload_model_comp
                 Samples.deploy_model_with_kserve_comp) = Ok Samples.covid_ops)
    by (vm_compute; reflexivity).
  split; [by left|].
  exact (pipeline_graphs_are_acyclic _ _ _ _ _ (or_introl H1)).
Defined.

Lemma directory_parameters_are_not_read_witness :
  Kfp.build (Covid.covid19_lung_classification_pipeline
               Samples.download_and_extract_comp
               Samples.convert_model_to_onnx_comp Samples.upload_model_comp
               Samples.deploy_model_with_kserve_comp) = Ok Samples.covid_ops /\
  list_difference Covid.pipeline_parameters
    (Kfp.parameters_read Samples.covid_ops)
  = ["data_dir"; "prep_dir"; "traintest_dir"; "model_dir"]%string.
Proof.
  assert (H1 : Kfp.build (Covid.covid19_lung_classification_pipeline
                 Samples.download_and_extract_comp
                 Samples.convert_model_to_onnx_comp Samples.upload_model_comp
                 Samples.deploy_model_with_kserve_comp) = Ok Samples.covid_ops)
    by (vm_compute; reflexivity).
  split; [exact H1|].
  exact (proj1 (directory_parameters_are_not_read _ _ _ _ _) H1).
Defined.
